(** * Ceph RBD block-device adapter (lib/bdev/rbd/blockdev_rbd.c)

    A shallow embedding of the adapter and the properties of its
    specification.  Every C function of the adapter is a definition of the
    same name in a small state-and-fault monad over a [world]:

    - the request contexts ([struct blockdev_rbd_io]) and the channels
      ([struct blockdev_rbd_io_channel]) live in two stores indexed by
      address, so that [cmd->next] and [ch->req_head] are real pointers;
    - the file-scope variables [g_rbd_pools], [g_rbds] and
      [blockdev_rbd_count] are fields of the world;
    - every call that leaves the file (librados, librbd, pthread, the bdev
      framework, the logger) is recorded, in program order, in a trace of
      [event]s; what such a call returns is read from an environment
      record that the function takes as an argument.

    Integer widths are those of the LP64 platforms the adapter is built
    for: [int] and [uint32_t] are 32 bits, [long], [size_t] and [uint64_t]
    are 64 bits. *)

From Stdlib Require Import ZArith String Ascii List Lia Permutation.
From stdpp Require Import base option list gmap strings pretty.

Local Open Scope Z_scope.

(** ** Machine integers *)

(** Conversion to a signed integer of [w] bits (two's complement wrap). *)
Definition wrap_signed (w : Z) (x : Z) : Z :=
  let m := x mod 2 ^ w in
  if m <? 2 ^ (w - 1) then m else m - 2 ^ w.

(** Conversion to an unsigned integer of [w] bits. *)
Definition wrap_unsigned (w : Z) (x : Z) : Z := x mod 2 ^ w.

(** [(int)x] *)
Definition to_int (x : Z) : Z := wrap_signed 32 x.
(** [(uint32_t)x] *)
Definition to_uint32 (x : Z) : Z := wrap_unsigned 32 x.

Definition INT_MAX : Z := 2 ^ 31 - 1.
Definition INT_MIN : Z := - 2 ^ 31.
Definition LONG_MAX : Z := 2 ^ 63 - 1.
Definition LONG_MIN : Z := - 2 ^ 63.

(** ** Data model *)

(** Addresses of request contexts and of channels. *)
Abbreviation addr := nat.

(** Opaque handles handed out by librados / librbd / the framework
    ([rados_t], [rados_ioctx_t], [rbd_image_t], [rbd_completion_t],
    [struct spdk_poller *]); [None] is the C [NULL]. *)
Abbreviation handle := nat.

Inductive blockdev_rbd_data_direction : Set :=
| BLOCKDEV_RBD_READ
| BLOCKDEV_RBD_WRITE.

(** [struct blockdev_rbd_io].  The field [cb_fn] is never read or written
    by the adapter and is left out. *)
Record blockdev_rbd_io : Set := mk_io {
  direction : blockdev_rbd_data_direction;
  status : Z;                   (* int *)
  len : Z;                      (* size_t *)
  completion : option handle;
  ch : option addr;
  next : option addr;
}.

(** [struct spdk_bdev], the fields the adapter fills in. *)
Record spdk_bdev : Set := mk_bdev {
  name : string;
  product_name : string;
  write_cache : Z;
  blocklen : Z;                 (* uint32_t *)
  blockcnt : Z;                 (* uint64_t *)
}.

(** [struct blockdev_rbd_pool_info] *)
Record blockdev_rbd_pool_info : Set := mk_pool_info {
  pool_name : string;
}.

(** [rbd_image_info_t]: only [size] is ever read. *)
Record rbd_image_info_t : Set := mk_info {
  info_size : Z;                (* uint64_t *)
}.

(** [struct blockdev_rbd].  A pool record is immutable once created and is
    only freed together with all devices, so the [pool_info] pointer is
    kept as the record it points to. *)
Record blockdev_rbd : Set := mk_rbd {
  disk : spdk_bdev;
  rbd_name : string;
  info : rbd_image_info_t;
  pool_info : blockdev_rbd_pool_info;
}.

(** [struct blockdev_rbd_io_channel].  The mutex [lock] has no field: its
    acquisitions and releases are events of the trace. *)
Record blockdev_rbd_io_channel : Set := mk_ch {
  io_ctx : option handle;
  cluster : option handle;
  image : option handle;
  req_head : option addr;
  ch_disk : option blockdev_rbd;
  poller : option handle;
}.

Inductive spdk_bdev_io_status : Set :=
| SPDK_BDEV_IO_STATUS_SUCCESS
| SPDK_BDEV_IO_STATUS_FAILED.

(** ** Calls that leave the file *)

Inductive event : Set :=
(* librados *)
| E_rados_create
| E_rados_conf_read_file (cluster : option handle)
| E_rados_connect (cluster : option handle)
| E_rados_ioctx_create (cluster : option handle) (pool : string)
| E_rados_ioctx_destroy (io_ctx : option handle)
| E_rados_shutdown (cluster : option handle)
(* librbd *)
| E_rbd_open (io_ctx : option handle) (rbd_name : string)
| E_rbd_stat (image : option handle)
| E_rbd_flush (image : option handle)
| E_rbd_close (image : option handle)
| E_rbd_aio_create_completion (cmd : addr)
| E_rbd_aio_read (image : option handle) (offset len : Z) (c : option handle)
| E_rbd_aio_write (image : option handle) (offset len : Z) (c : option handle)
| E_rbd_aio_release (c : option handle)
(* pthread *)
| E_pthread_mutex_init (ch : addr)
| E_pthread_mutex_lock (ch : addr)
| E_pthread_mutex_unlock (ch : addr)
(* bdev framework *)
| E_spdk_bdev_io_complete (req : addr) (st : spdk_bdev_io_status)
| E_spdk_bdev_io_get_rbuf (req : addr)
| E_spdk_poller_register (ch : addr)
| E_spdk_poller_unregister (ch : addr)
| E_spdk_io_device_register (dev : string)
| E_spdk_bdev_register (dev : string)
(* logger *)
| E_SPDK_ERRLOG (msg : string)
| E_SPDK_NOTICELOG (msg : string).

(** ** The world and the monad *)

Record world : Type := mk_world {
  ios : gmap nat blockdev_rbd_io;
  chans : gmap nat blockdev_rbd_io_channel;
  g_rbd_pools : list blockdev_rbd_pool_info;
  g_rbds : list blockdev_rbd;
  blockdev_rbd_count : Z;       (* int *)
  trace : list event;
}.

(** What C leaves undefined and the adapter can run into, and the
    exhaustion of the bound given to a loop of the model. *)
Inductive fault : Set :=
| NullDeref
| DivisionByZero
| OutOfFuel.

Inductive outcome (A : Type) : Type :=
| Ok (a : A)
| Fault (f : fault).
Arguments Ok {A} a.
Arguments Fault {A} f.

Definition M (A : Type) : Type := world -> outcome (A * world).

Definition ret {A} (a : A) : M A := fun w => Ok (a, w).

Definition bind {A B} (m : M A) (k : A -> M B) : M B :=
  fun w => match m w with
           | Ok (a, w') => k a w'
           | Fault f => Fault f
           end.

Definition fail {A} (f : fault) : M A := fun _ => Fault f.

Declare Scope m_scope.
Delimit Scope m_scope with M.
Notation "x <- m ;; k" := (bind m (fun x => k))
  (at level 100, m at next level, right associativity) : m_scope.
Notation "m ;; k" := (bind m (fun _ => k))
  (at level 100, right associativity) : m_scope.
Local Open Scope m_scope.

Definition set_ios (f : gmap nat blockdev_rbd_io -> gmap nat blockdev_rbd_io)
  (w : world) : world :=
  mk_world (f (ios w)) (chans w) (g_rbd_pools w) (g_rbds w)
           (blockdev_rbd_count w) (trace w).

Definition set_chans
  (f : gmap nat blockdev_rbd_io_channel -> gmap nat blockdev_rbd_io_channel)
  (w : world) : world :=
  mk_world (ios w) (f (chans w)) (g_rbd_pools w) (g_rbds w)
           (blockdev_rbd_count w) (trace w).

Definition set_g_rbd_pools (p : list blockdev_rbd_pool_info) (w : world) : world :=
  mk_world (ios w) (chans w) p (g_rbds w) (blockdev_rbd_count w) (trace w).

Definition set_g_rbds (d : list blockdev_rbd) (w : world) : world :=
  mk_world (ios w) (chans w) (g_rbd_pools w) d (blockdev_rbd_count w) (trace w).

Definition set_blockdev_rbd_count (n : Z) (w : world) : world :=
  mk_world (ios w) (chans w) (g_rbd_pools w) (g_rbds w) n (trace w).

Definition set_trace (t : list event) (w : world) : world :=
  mk_world (ios w) (chans w) (g_rbd_pools w) (g_rbds w)
           (blockdev_rbd_count w) t.

(** Record an external call. *)
Definition emit (e : event) : M unit :=
  fun w => Ok (tt, set_trace (trace w ++ [e]) w).

Definition get {A} (f : world -> A) : M A := fun w => Ok (f w, w).
Definition modify (f : world -> world) : M unit := fun w => Ok (tt, f w).

(** [*p] for a request pointer: a [NULL] or dangling pointer faults. *)
Definition load_io (p : option addr) : M blockdev_rbd_io :=
  fun w => match p with
           | Some a => match ios w !! a with
                       | Some r => Ok (r, w)
                       | None => Fault NullDeref
                       end
           | None => Fault NullDeref
           end.

Definition store_io (a : addr) (r : blockdev_rbd_io) : M unit :=
  modify (set_ios (insert a r)).

Definition load_ch (p : option addr) : M blockdev_rbd_io_channel :=
  fun w => match p with
           | Some a => match chans w !! a with
                       | Some c => Ok (c, w)
                       | None => Fault NullDeref
                       end
           | None => Fault NullDeref
           end.

Definition store_ch (a : addr) (c : blockdev_rbd_io_channel) : M unit :=
  modify (set_chans (insert a c)).

(** Field updates of a request and of a channel. *)
Definition io_set_status (s : Z) (r : blockdev_rbd_io) : blockdev_rbd_io :=
  mk_io (direction r) s (len r) (completion r) (ch r) (next r).
Definition io_set_next (n : option addr) (r : blockdev_rbd_io) : blockdev_rbd_io :=
  mk_io (direction r) (status r) (len r) (completion r) (ch r) n.
Definition io_set_ch (c : option addr) (r : blockdev_rbd_io) : blockdev_rbd_io :=
  mk_io (direction r) (status r) (len r) (completion r) c (next r).
Definition io_set_direction (d : blockdev_rbd_data_direction)
  (r : blockdev_rbd_io) : blockdev_rbd_io :=
  mk_io d (status r) (len r) (completion r) (ch r) (next r).
Definition io_set_len (n : Z) (r : blockdev_rbd_io) : blockdev_rbd_io :=
  mk_io (direction r) (status r) n (completion r) (ch r) (next r).
Definition io_set_completion (c : option handle)
  (r : blockdev_rbd_io) : blockdev_rbd_io :=
  mk_io (direction r) (status r) (len r) c (ch r) (next r).

(** [p != NULL] *)
Definition non_null {A} (p : option A) : bool :=
  match p with Some _ => true | None => false end.

Definition ch_set_req_head (h : option addr)
  (c : blockdev_rbd_io_channel) : blockdev_rbd_io_channel :=
  mk_ch (io_ctx c) (cluster c) (image c) h (ch_disk c) (poller c).

(** ** Completion callback and poller *)

(** The classification made by [blockdev_rbd_finish_aiocb]: the value
    stored in [cmd->status], from the direction, [cmd->len] and the
    [int status] read back from the completion. *)
Definition finish_status (d : blockdev_rbd_data_direction) (cmd_len : Z)
  (st : Z) : Z :=
  match d with
  | BLOCKDEV_RBD_READ => if to_int cmd_len =? st then 0 else -1
  | BLOCKDEV_RBD_WRITE => if st =? 0 then 0 else -1
  end.

(** [blockdev_rbd_finish_aiocb(cb, arg)].  [retval] is the [int status]
    that [rbd_aio_get_return_value(cb)] leaves in the local variable. *)
Definition blockdev_rbd_finish_aiocb (retval : Z) (arg : addr) : M unit :=
  cmd <- load_io (Some arg) ;;
  let chp := ch cmd in
  let st := retval in
  let cmd := io_set_status (finish_status (direction cmd) (len cmd) st) cmd in
  store_io arg cmd ;;
  emit (E_rbd_aio_release (completion cmd)) ;;
  match chp with
  | None => fail NullDeref
  | Some ca =>
      emit (E_pthread_mutex_lock ca) ;;
      c <- load_ch chp ;;
      store_io arg (io_set_next (req_head c) cmd) ;;
      store_ch ca (ch_set_req_head (Some arg) c) ;;
      emit (E_pthread_mutex_unlock ca)
  end.

(** The status handed to the framework for a request whose [status]
    field is [s]. *)
Definition io_status_of (s : Z) : spdk_bdev_io_status :=
  if s =? 0 then SPDK_BDEV_IO_STATUS_SUCCESS else SPDK_BDEV_IO_STATUS_FAILED.

(** The [while (req != NULL)] loop of [blockdev_rbd_io_poll].  A list
    that loops back on itself would keep the C loop running for ever:
    [fuel] bounds the number of iterations. *)
Fixpoint io_poll_loop (fuel : nat) (req : option addr) : M unit :=
  match req with
  | None => ret tt
  | Some a =>
      match fuel with
      | O => fail OutOfFuel
      | S fuel' =>
          r <- load_io req ;;
          let req_next := next r in
          let st := io_status_of (status r) in
          emit (E_spdk_bdev_io_complete a st) ;;
          io_poll_loop fuel' req_next
      end
  end.

(** [blockdev_rbd_io_poll(arg)] *)
Definition blockdev_rbd_io_poll (fuel : nat) (arg : addr) : M unit :=
  emit (E_pthread_mutex_lock arg) ;;
  c <- load_ch (Some arg) ;;
  let req := req_head c in
  store_ch arg (ch_set_req_head None c) ;;
  io_poll_loop fuel req ;;
  emit (E_pthread_mutex_unlock arg).

(** The completion callbacks of a list of finished operations, in the
    order in which the backend runs them. *)
Fixpoint run_callbacks (cs : list (addr * Z)) : M unit :=
  match cs with
  | [] => ret tt
  | (a, r) :: cs' => blockdev_rbd_finish_aiocb r a ;; run_callbacks cs'
  end.

(** The deliveries to the framework recorded in a trace. *)
Fixpoint completions_of (t : list event) : list (addr * spdk_bdev_io_status) :=
  match t with
  | [] => []
  | E_spdk_bdev_io_complete a s :: t' => (a, s) :: completions_of t'
  | _ :: t' => completions_of t'
  end.

(** Whether every framework completion of a trace happens while the
    mutex of channel [c] is not held; [held] is the state of the mutex
    at the start of the trace. *)
Fixpoint completes_unlocked (c : addr) (held : bool) (t : list event) : bool :=
  match t with
  | [] => true
  | E_pthread_mutex_lock c' :: t' =>
      completes_unlocked c (if Nat.eqb c c' then true else held) t'
  | E_pthread_mutex_unlock c' :: t' =>
      completes_unlocked c (if Nat.eqb c c' then false else held) t'
  | E_spdk_bdev_io_complete _ _ :: t' =>
      negb held && completes_unlocked c held t'
  | _ :: t' => completes_unlocked c held t'
  end.

(** The inbox of a channel as the list of the requests linked from its
    head: [inbox_chain m h l] says that following [next] from [h] in the
    store [m] visits exactly [l] and then reaches [NULL]. *)
Fixpoint inbox_chain (m : gmap nat blockdev_rbd_io) (h : option addr)
  (l : list addr) : Prop :=
  match l with
  | [] => h = None
  | a :: l' => h = Some a /\ exists r, m !! a = Some r /\ inbox_chain m (next r) l'
  end.

Definition empty_world : world := mk_world ∅ ∅ [] [] 0 [].

(** ** Backend connection *)

(** What the storage cluster answers to the calls of one bootstrap: the
    return code of each call and the handle each successful call hands
    out.  [rbd_stat_size] is the [size] that a successful [rbd_stat]
    writes into the image info. *)
Record rados_env : Set := mk_rados_env {
  rados_create_ret : Z;
  new_cluster : handle;
  rados_conf_read_file_ret : Z;
  rados_connect_ret : Z;
  rados_ioctx_create_ret : Z;
  new_io_ctx : handle;
  rbd_open_ret : Z;
  new_image : handle;
  rbd_stat_ret : Z;
  rbd_stat_size : Z;            (* uint64_t *)
}.

(** [blockdev_rados_context_init(rbd_pool_name, &cluster, &io_ctx)]: the
    result is the return value together with the final contents of the
    two out-parameters, whose initial contents are the arguments. *)
Definition blockdev_rados_context_init (e : rados_env) (rbd_pool_name : string)
  (cluster io_ctx : option handle) : M (Z * option handle * option handle) :=
  emit E_rados_create ;;
  let r := rados_create_ret e in
  let cluster := if r <? 0 then cluster else Some (new_cluster e) in
  if r <? 0 then
    emit (E_SPDK_ERRLOG "Failed to create rados_t struct") ;;
    ret (-1, cluster, io_ctx)
  else
    emit (E_rados_conf_read_file cluster) ;;
    let r := rados_conf_read_file_ret e in
    if r <? 0 then
      emit (E_SPDK_ERRLOG "Failed to read conf file") ;;
      emit (E_rados_shutdown cluster) ;;
      ret (-1, cluster, io_ctx)
    else
      emit (E_rados_connect cluster) ;;
      let r := rados_connect_ret e in
      (if r <? 0 then
         emit (E_SPDK_ERRLOG "Failed to connect rbd_pool") ;;
         emit (E_rados_shutdown cluster)
       else ret tt) ;;
      emit (E_rados_ioctx_create cluster rbd_pool_name) ;;
      let r := rados_ioctx_create_ret e in
      let io_ctx := if r <? 0 then io_ctx else Some (new_io_ctx e) in
      if r <? 0 then
        emit (E_SPDK_ERRLOG "Failed to create ioctx") ;;
        emit (E_rados_shutdown cluster) ;;
        ret (-1, cluster, io_ctx)
      else
        ret (0, cluster, io_ctx).

(** [blockdev_rbd_init(rbd_pool_name, rbd_name, info)]: the return value
    and the final contents of [*info]. *)
Definition blockdev_rbd_init (e : rados_env) (rbd_pool_name rbd_name : string)
  (info : rbd_image_info_t) : M (Z * rbd_image_info_t) :=
  x <- blockdev_rados_context_init e rbd_pool_name None None ;;
  let '(r, cluster, io_ctx) := x in
  if r <? 0 then
    emit (E_SPDK_ERRLOG "Failed to create rados context for rbd_pool=%s") ;;
    ret (-1, info)
  else
    emit (E_rbd_open io_ctx rbd_name) ;;
    let r := rbd_open_ret e in
    let image := if r <? 0 then None else Some (new_image e) in
    if r <? 0 then
      emit (E_SPDK_ERRLOG "Failed to open specified rbd device") ;;
      (* err: *)
      emit (E_rados_ioctx_destroy io_ctx) ;;
      emit (E_rados_shutdown cluster) ;;
      ret (-1, info)
    else
      emit (E_rbd_stat image) ;;
      let r := rbd_stat_ret e in
      let info := if r <? 0 then info else mk_info (rbd_stat_size e) in
      emit (E_rbd_close image) ;;
      if r <? 0 then
        emit (E_SPDK_ERRLOG "Failed to stat specified rbd device") ;;
        (* err: *)
        emit (E_rados_ioctx_destroy io_ctx) ;;
        emit (E_rados_shutdown cluster) ;;
        ret (-1, info)
      else
        ret (0, info).

(** [blockdev_rbd_exit(image)] *)
Definition blockdev_rbd_exit (image : option handle) : M unit :=
  emit (E_rbd_flush image) ;;
  emit (E_rbd_close image).

(** ** Channel life cycle *)

Definition ch_set_conn (cl ctx img : option handle)
  (c : blockdev_rbd_io_channel) : blockdev_rbd_io_channel :=
  mk_ch ctx cl img (req_head c) (ch_disk c) (poller c).

(** [blockdev_rbd_create_cb(io_device, priority, ctx_buf, unique_ctx)].
    [new_poller] is the handle that [spdk_poller_register] stores in
    [ch->poller]. *)
Definition blockdev_rbd_create_cb (e : rados_env) (new_poller : handle)
  (io_device : blockdev_rbd) (ctx_buf : addr) : M Z :=
  c <- load_ch (Some ctx_buf) ;;
  let c := mk_ch None (cluster c) None None (Some io_device) (poller c) in
  let pool_info := pool_info io_device in
  store_ch ctx_buf c ;;
  x <- blockdev_rados_context_init e (pool_name pool_info)
         (cluster c) (io_ctx c) ;;
  let '(r, cl, ctx) := x in
  let c := ch_set_conn cl ctx (image c) c in
  store_ch ctx_buf c ;;
  if r <? 0 then
    emit (E_SPDK_ERRLOG "Failed to create rados context for rbd_pool=%s") ;;
    ret (-1)
  else
    emit (E_rbd_open (io_ctx c) (rbd_name io_device)) ;;
    let r := rbd_open_ret e in
    let c := if r <? 0 then c
             else ch_set_conn (cluster c) (io_ctx c) (Some (new_image e)) c in
    store_ch ctx_buf c ;;
    if r <? 0 then
      emit (E_SPDK_ERRLOG "Failed to open specified rbd device") ;;
      ret (-1)
    else
      emit (E_pthread_mutex_init ctx_buf) ;;
      emit (E_spdk_poller_register ctx_buf) ;;
      store_ch ctx_buf (mk_ch (io_ctx c) (cluster c) (image c) (req_head c)
                              (ch_disk c) (Some new_poller)) ;;
      ret 0.

(** [blockdev_rbd_destroy_cb(io_device, ctx_buf)] *)
Definition blockdev_rbd_destroy_cb (ctx_buf : addr) : M unit :=
  io_channel <- load_ch (Some ctx_buf) ;;
  (if non_null (image io_channel) then blockdev_rbd_exit (image io_channel) else ret tt) ;;
  (if non_null (io_ctx io_channel) then emit (E_rados_ioctx_destroy (io_ctx io_channel))
   else ret tt) ;;
  (if non_null (cluster io_channel) then emit (E_rados_shutdown (cluster io_channel))
   else ret tt) ;;
  emit (E_spdk_poller_unregister ctx_buf).

(** ** Submission *)

(** What librbd answers to the calls of one submission. *)
Record aio_env : Set := mk_aio_env {
  rbd_aio_create_completion_ret : Z;
  new_completion : handle;
  rbd_aio_read_ret : Z;
  rbd_aio_write_ret : Z;
}.

(** [blockdev_rbd_start_aio(image, cmd, buf, offset, len)].  The data
    buffer is not modelled. *)
Definition blockdev_rbd_start_aio (e : aio_env) (image : option handle)
  (cmd : addr) (offset len : Z) : M Z :=
  emit (E_rbd_aio_create_completion cmd) ;;
  let r := rbd_aio_create_completion_ret e in
  if r <? 0 then ret (-1)
  else
    c <- load_io (Some cmd) ;;
    let c := io_set_completion (Some (new_completion e)) c in
    store_io cmd c ;;
    r <- match direction c with
         | BLOCKDEV_RBD_READ =>
             emit (E_rbd_aio_read image offset len (completion c)) ;;
             ret (rbd_aio_read_ret e)
         | BLOCKDEV_RBD_WRITE =>
             emit (E_rbd_aio_write image offset len (completion c)) ;;
             ret (rbd_aio_write_ret e)
         end ;;
    if r <? 0 then
      emit (E_rbd_aio_release (completion c)) ;;
      ret (-1)
    else ret 0.

(** [blockdev_rbd_read(disk, ch, cmd, buf, nbytes, offset)]; [chp] is the
    channel context that [spdk_io_channel_get_ctx(ch)] returns. *)
Definition blockdev_rbd_read (e : aio_env) (chp : addr) (cmd : addr)
  (nbytes offset : Z) : M Z :=
  rbdio_ch <- load_ch (Some chp) ;;
  c <- load_io (Some cmd) ;;
  store_io cmd (io_set_len nbytes
                  (io_set_direction BLOCKDEV_RBD_READ
                     (io_set_ch (Some chp) c))) ;;
  blockdev_rbd_start_aio e (image rbdio_ch) cmd offset nbytes.

(** [struct iovec] *)
Record iovec : Set := mk_iovec {
  iov_base : Z;
  iov_len : Z;                  (* size_t *)
}.

(** [blockdev_rbd_writev(disk, ch, cmd, iov, iovcnt, len, offset)].  The
    array [iov] is the list of its elements; [iov->iov_len] reads the
    first one and is only evaluated when [iovcnt != 1] is false. *)
Definition blockdev_rbd_writev (e : aio_env) (chp : addr) (cmd : addr)
  (iov : list iovec) (iovcnt : Z) (len offset : Z) : M Z :=
  if negb (iovcnt =? 1) then ret (-1)
  else
    match iov with
    | [] => fail NullDeref
    | iov0 :: _ =>
        if negb (iov_len iov0 =? len) then ret (-1)
        else
          rbdio_ch <- load_ch (Some chp) ;;
          c <- load_io (Some cmd) ;;
          store_io cmd (io_set_direction BLOCKDEV_RBD_WRITE
                          (io_set_ch (Some chp) c)) ;;
          blockdev_rbd_start_aio e (image rbdio_ch) cmd offset len
    end.

(** [enum spdk_bdev_io_type] (spdk/bdev.h). *)
Inductive spdk_bdev_io_type : Set :=
| SPDK_BDEV_IO_TYPE_READ
| SPDK_BDEV_IO_TYPE_WRITE
| SPDK_BDEV_IO_TYPE_UNMAP
| SPDK_BDEV_IO_TYPE_FLUSH
| SPDK_BDEV_IO_TYPE_RESET.

(** [struct spdk_bdev_io], the fields the adapter reads.  [driver_ctx]
    is the address of the request context embedded in the operation;
    [spdk_bdev_io_from_ctx] is its inverse, so the framework is told
    about an operation through that address. *)
Record spdk_bdev_io : Set := mk_bdev_io {
  io_type : spdk_bdev_io_type;
  io_ch : addr;
  driver_ctx : addr;
  u_read_nbytes : Z;
  u_read_offset : Z;
  u_write_iovs : list iovec;
  u_write_iovcnt : Z;           (* int *)
  u_write_len : Z;
  u_write_offset : Z;
}.

(** [blockdev_rbd_get_rbuf_cb(bdev_io)] *)
Definition blockdev_rbd_get_rbuf_cb (e : aio_env) (bdev_io : spdk_bdev_io)
  : M unit :=
  r <- blockdev_rbd_read e (io_ch bdev_io) (driver_ctx bdev_io)
         (u_read_nbytes bdev_io) (u_read_offset bdev_io) ;;
  let r := to_int r in
  if negb (r =? 0) then
    emit (E_spdk_bdev_io_complete (driver_ctx bdev_io) SPDK_BDEV_IO_STATUS_FAILED)
  else ret tt.

(** [_blockdev_rbd_submit_request(bdev_io)] *)
Definition _blockdev_rbd_submit_request (e : aio_env) (bdev_io : spdk_bdev_io)
  : M Z :=
  match io_type bdev_io with
  | SPDK_BDEV_IO_TYPE_READ =>
      emit (E_spdk_bdev_io_get_rbuf (driver_ctx bdev_io)) ;;
      ret 0
  | SPDK_BDEV_IO_TYPE_WRITE =>
      r <- blockdev_rbd_writev e (io_ch bdev_io) (driver_ctx bdev_io)
             (u_write_iovs bdev_io) (u_write_iovcnt bdev_io)
             (u_write_len bdev_io) (u_write_offset bdev_io) ;;
      ret (to_int r)
  | _ => ret (-1)
  end.

(** [blockdev_rbd_submit_request(bdev_io)] *)
Definition blockdev_rbd_submit_request (e : aio_env) (bdev_io : spdk_bdev_io)
  : M unit :=
  r <- _blockdev_rbd_submit_request e bdev_io ;;
  if r <? 0 then
    emit (E_spdk_bdev_io_complete (driver_ctx bdev_io) SPDK_BDEV_IO_STATUS_FAILED)
  else ret tt.

(** [blockdev_rbd_io_type_supported(bdev, io_type)] *)
Definition blockdev_rbd_io_type_supported (t : spdk_bdev_io_type) : bool :=
  match t with
  | SPDK_BDEV_IO_TYPE_READ | SPDK_BDEV_IO_TYPE_WRITE => true
  | _ => false
  end.


(** ** Configuration and device initialisation *)

(** The [[Ceph]] section of the configuration: its items named [Ceph],
    each with its list of values (pool name, volume name, optional block
    size).  [spdk_conf_section_get_nmval(sp, "Ceph", i, j)] (spdk/conf.h)
    is the [j]-th value of the [i]-th item, [NULL] when there is none, and
    [spdk_conf_section_get_nval(sp, "Ceph", i)] is its value 0. *)
Definition spdk_conf_section : Set := list (list string).

Definition spdk_conf_section_get_nmval (sp : spdk_conf_section) (i j : nat)
  : option string :=
  match sp !! i with
  | Some vals => vals !! j
  | None => None
  end.

Definition spdk_conf_section_get_nval (sp : spdk_conf_section) (i : nat)
  : option string :=
  spdk_conf_section_get_nmval sp i 0.

(** [isspace] in the C locale. *)
Definition isspace (c : ascii) : bool :=
  let n := nat_of_ascii c in
  Nat.eqb n 32 || (Nat.leb 9 n && Nat.leb n 13).

Definition digit_of (c : ascii) : option Z :=
  let n := Z.of_nat (nat_of_ascii c) in
  if (48 <=? n) && (n <=? 57) then Some (n - 48) else None.

Fixpoint skip_space (s : string) : string :=
  match s with
  | String c s' => if isspace c then skip_space s' else s
  | EmptyString => s
  end.

Fixpoint strtol_digits (acc : Z) (s : string) : Z :=
  match s with
  | String c s' =>
      match digit_of c with
      | Some d => strtol_digits (acc * 10 + d) s'
      | None => acc
      end
  | EmptyString => acc
  end.

(** [strtol(s, NULL, 10)] of the C library: white space, an optional
    sign, the longest run of decimal digits (0 when there is none), and
    saturation at [LONG_MIN] / [LONG_MAX]. *)
Definition strtol (s : string) : Z :=
  let s := skip_space s in
  let '(neg, s) :=
    match s with
    | String "-" s' => (true, s')
    | String "+" s' => (false, s')
    | _ => (false, s)
    end in
  let v := strtol_digits 0 s in
  let v := if neg : bool then - v else v in
  Z.max LONG_MIN (Z.min LONG_MAX v).

(** Lines 538-549 of [blockdev_rbd_library_init]: the block size of a
    device from value 2 of its configuration item; [None] is the
    [goto cleanup] of a rejected value. *)
Definition conf_block_size (val : option string) : option Z :=
  match val with
  | None => Some 512
  | Some v =>
      let block_size := to_uint32 (to_int (strtol v)) in
      if negb (Z.land block_size 0x1ff =? 0) then None
      else Some block_size
  end.

(** [blockdev_rbd_library_fini()] *)
Definition blockdev_rbd_library_fini : M unit :=
  modify (set_g_rbds []) ;;
  modify (set_g_rbd_pools []).

(** [blockdev_rbd_pool_info_init(rbd_pool_name)]; [calloc_ok] tells
    whether the allocation of a new record succeeds. *)
Definition blockdev_rbd_pool_info_init (calloc_ok : bool)
  (rbd_pool_name : string) : M (option blockdev_rbd_pool_info) :=
  pools <- get g_rbd_pools ;;
  match List.find (fun p => String.eqb (pool_name p) rbd_pool_name) pools with
  | Some p => ret (Some p)
  | None =>
      if negb calloc_ok then
        emit (E_SPDK_ERRLOG "Failed to allocate blockdev_rbd_pool_info struct") ;;
        ret None
      else
        let p := mk_pool_info rbd_pool_name in
        modify (set_g_rbd_pools (pools ++ [p])) ;;
        ret (Some p)
  end.

(** What happens around one configuration item: whether its two
    allocations succeed and what the cluster answers to its bootstrap. *)
Record init_env : Set := mk_init_env {
  pool_calloc_ok : bool;
  rbd_calloc_ok : bool;
  backend : rados_env;
}.

Section DeviceInit.

(** Buffer sizes of [struct spdk_bdev] (spdk/bdev.h). *)
Variable SPDK_BDEV_MAX_NAME_LENGTH : nat.
Variable SPDK_BDEV_MAX_PRODUCT_NAME_LENGTH : nat.

(** [snprintf(buf, size, ...)] keeps at most [size - 1] characters. *)
Definition snprintf (size : nat) (s : string) : string :=
  substring 0 (size - 1) s.

(** [blockdev_create_rbd_disk(disk, block_size)]: the return value and
    the final contents of [*disk].  The unsigned division faults on a
    zero divisor. *)
Definition blockdev_create_rbd_disk (d : blockdev_rbd) (block_size : Z)
  : M (Z * blockdev_rbd) :=
  n <- get blockdev_rbd_count ;;
  let nm := snprintf SPDK_BDEV_MAX_NAME_LENGTH ("Ceph" +:+ pretty n) in
  let pn := snprintf SPDK_BDEV_MAX_PRODUCT_NAME_LENGTH "Ceph rbd" in
  modify (set_blockdev_rbd_count (to_int (n + 1))) ;;
  let blocklen := block_size in
  if blocklen =? 0 then fail DivisionByZero
  else
    let blockcnt := info_size (info d) / blocklen in
    ret (0, mk_rbd (mk_bdev nm pn 0 blocklen blockcnt)
                   (rbd_name d) (info d) (pool_info d)).

(** How one turn of the [for] loop of [blockdev_rbd_library_init] ends. *)
Inductive loop_exit : Set :=
| Continue                      (* next item *)
| Break                         (* no item left *)
| Cleanup.                      (* goto cleanup *)

(** The body of the [for] loop for item [i]. *)
Definition library_init_item (sp : spdk_conf_section) (e : init_env) (i : nat)
  : M loop_exit :=
  match spdk_conf_section_get_nval sp i with
  | None => ret Break
  | Some _ =>
  match spdk_conf_section_get_nmval sp i 0 with
  | None =>
      emit (E_SPDK_ERRLOG "Ceph%d: rbd pool name needs to be provided") ;;
      ret Cleanup
  | Some val =>
  pool_info <- blockdev_rbd_pool_info_init (pool_calloc_ok e) val ;;
  match pool_info with
  | None =>
      emit (E_SPDK_ERRLOG "Ceph%d: failed to create blockdev_rbd_pool_info") ;;
      ret Cleanup
  | Some pool_info =>
  match spdk_conf_section_get_nmval sp i 1 with
  | None =>
      emit (E_SPDK_ERRLOG "Ceph%d: format error") ;;
      ret Cleanup
  | Some rbd_name =>
  match conf_block_size (spdk_conf_section_get_nmval sp i 2) with
  | None =>
      emit (E_SPDK_ERRLOG "current block_size = %d, it should be multiple of 512") ;;
      ret Cleanup
  | Some block_size =>
  if negb (rbd_calloc_ok e) then
    emit (E_SPDK_ERRLOG "Failed to allocate blockdev_rbd struct") ;;
    ret Cleanup
  else
    let rbd := mk_rbd (mk_bdev "" "" 0 0 0) rbd_name (mk_info 0) pool_info in
    x <- blockdev_rbd_init (backend e) (pool_name pool_info) rbd_name (info rbd) ;;
    let '(r, inf) := x in
    let rbd := mk_rbd (disk rbd) rbd_name inf pool_info in
    if r <? 0 then
      emit (E_SPDK_ERRLOG "Failed to init rbd device") ;;
      ret Cleanup
    else
      x <- blockdev_create_rbd_disk rbd block_size ;;
      let '(r, rbd) := x in
      if r <? 0 then
        emit (E_SPDK_ERRLOG "Failed to create rbd disk") ;;
        ret Cleanup
      else
        emit (E_SPDK_NOTICELOG "Add %s rbd disk to lun") ;;
        rbds <- get g_rbds ;;
        modify (set_g_rbds (rbds ++ [rbd])) ;;
        emit (E_spdk_io_device_register (name (disk rbd))) ;;
        emit (E_spdk_bdev_register (name (disk rbd))) ;;
        ret Continue
  end end end end end.

(** The [for (i = 0; ; i++)] loop from item [i] on, with the [cleanup]
    label.  Every turn that continues has found item [i], so
    [length sp - i + 1] turns always suffice. *)
Fixpoint library_init_loop (fuel : nat) (sp : spdk_conf_section)
  (env : nat -> init_env) (i : nat) : M Z :=
  match fuel with
  | O => fail OutOfFuel
  | S fuel' =>
      x <- library_init_item sp (env i) i ;;
      match x with
      | Continue => library_init_loop fuel' sp env (S i)
      | Break => ret 0
      | Cleanup => blockdev_rbd_library_fini ;; ret (-1)
      end
  end.

(** [blockdev_rbd_library_init()].  [conf] is what
    [spdk_conf_find_section(NULL, "Ceph")] returns and [env i] what
    happens around item [i]. *)
Definition blockdev_rbd_library_init (conf : option spdk_conf_section)
  (env : nat -> init_env) : M Z :=
  match conf with
  | None => ret 0
  | Some sp => library_init_loop (S (length sp)) sp env 0
  end.

End DeviceInit.

(** The names under which devices were registered with the framework,
    in order. *)
Fixpoint registered_devices (t : list event) : list string :=
  match t with
  | [] => []
  | E_spdk_bdev_register d :: t' => d :: registered_devices t'
  | _ :: t' => registered_devices t'
  end.

(** ** Vocabulary of the properties *)

(** The [status] field of the request at [a], 0 for a dangling address. *)
Definition req_status (m : gmap nat blockdev_rbd_io) (a : addr) : Z :=
  match m !! a with
  | Some r => status r
  | None => 0
  end.

(** The status that the completion callback stores for the request at
    [a] when its operation returned [retval]. *)
Definition finalized (m : gmap nat blockdev_rbd_io) (a : addr) (retval : Z) : Z :=
  match m !! a with
  | Some r => finish_status (direction r) (len r) retval
  | None => -1
  end.

(** The delivery that the poller owes for a finished operation. *)
Definition delivery_of (m : gmap nat blockdev_rbd_io) (c : addr * Z)
  : addr * spdk_bdev_io_status :=
  (c.1, io_status_of (finalized m c.1 c.2)).

(** The framework completions of a walk over the requests [l]. *)
Definition walk_events (m : gmap nat blockdev_rbd_io) (l : list addr)
  : list event :=
  map (fun a => E_spdk_bdev_io_complete a (io_status_of (req_status m a))) l.

(** The trace and the result of a computation started in the empty
    world. *)
Definition run_trace {A} (m : M A) : list event :=
  match m empty_world with
  | Ok (_, w') => trace w'
  | Fault _ => []
  end.

Definition run_value {A} (m : M A) (d : A) : A :=
  match m empty_world with
  | Ok (a, _) => a
  | Fault _ => d
  end.

(** The return value and the calls of [blockdev_rbd_init] against the
    backend [e]. *)
Definition rbd_init_ret (e : rados_env) (pool vol : string) : Z :=
  (run_value (blockdev_rbd_init e pool vol (mk_info 0)) (0, mk_info 0)).1.

Definition rbd_init_events (e : rados_env) (pool vol : string) : list event :=
  run_trace (blockdev_rbd_init e pool vol (mk_info 0)).

(** Whether an event hands the cluster session [h] to librados. *)
Definition uses_cluster (h : option handle) (ev : event) : bool :=
  match ev with
  | E_rados_conf_read_file c | E_rados_connect c
  | E_rados_ioctx_create c _ | E_rados_shutdown c => bool_decide (c = h)
  | _ => false
  end.

Definition shuts_down (h : option handle) (ev : event) : bool :=
  match ev with
  | E_rados_shutdown c => bool_decide (c = h)
  | _ => false
  end.

(** Whether a trace hands the session [h] to librados after having shut
    it down; [down] tells whether it is shut down at the start. *)
Fixpoint used_after_shutdown (h : option handle) (down : bool)
  (t : list event) : bool :=
  match t with
  | [] => false
  | ev :: t' =>
      (down && uses_cluster h ev)
      || used_after_shutdown h (down || shuts_down h ev) t'
  end.

(** The events that close (part of) a backend connection. *)
Definition closes_connection (ev : event) : bool :=
  match ev with
  | E_rbd_flush _ | E_rbd_close _ | E_rados_ioctx_destroy _
  | E_rados_shutdown _ => true
  | _ => false
  end.

(** Whether, in a trace, the poller is unregistered before anything of
    the connection is closed. *)
Fixpoint unregisters_poller_first (t : list event) : bool :=
  match t with
  | [] => true
  | E_spdk_poller_unregister _ :: _ => true
  | ev :: t' => negb (closes_connection ev) && unregisters_poller_first t'
  end.

(** The calls that [blockdev_rbd_destroy_cb] makes to close the
    connection of a channel. *)
Definition close_events (c : blockdev_rbd_io_channel) : list event :=
  (if non_null (image c) then [E_rbd_flush (image c); E_rbd_close (image c)]
   else [])
  ++ (if non_null (io_ctx c) then [E_rados_ioctx_destroy (io_ctx c)] else [])
  ++ (if non_null (cluster c) then [E_rados_shutdown (cluster c)] else []).

(** A configuration item that goes all the way to a registered device:
    pool and volume names are there, the block size is accepted and is
    not zero, both allocations succeed and so does [blockdev_rbd_init]. *)
Definition item_ok (sp : spdk_conf_section) (e : init_env) (i : nat) : Prop :=
  exists pool vol rest bs,
    sp !! i = Some (pool :: vol :: rest) /\
    conf_block_size (rest !! 0%nat) = Some bs /\ bs <> 0 /\
    pool_calloc_ok e = true /\ rbd_calloc_ok e = true /\
    rbd_init_ret (backend e) pool vol = 0.

(** A configuration item that reaches [blockdev_rbd_init] and whose
    backend connection fails there. *)
Definition item_conn_fails (sp : spdk_conf_section) (e : init_env) (i : nat)
  : Prop :=
  exists pool vol rest bs,
    sp !! i = Some (pool :: vol :: rest) /\
    conf_block_size (rest !! 0%nat) = Some bs /\
    pool_calloc_ok e = true /\ rbd_calloc_ok e = true /\
    rbd_init_ret (backend e) pool vol < 0.

(** The two allocations of an item succeed and so does
    [blockdev_rbd_init] on its pool and volume: only the block size is
    left to decide whether the device is created. *)
Definition backend_ready (e : init_env) (pool vol : string) : Prop :=
  pool_calloc_ok e = true /\ rbd_calloc_ok e = true /\
  rbd_init_ret (backend e) pool vol = 0.

(** The turn of item [i] rejects the block size of the item: it logs the
    error of line 545 and nothing else, leaves the loop through
    [cleanup], and no device has been created. *)
Definition block_size_rejected (name_len product_name_len : nat)
  (sp : spdk_conf_section) (e : init_env) (i : nat) (w : world) : Prop :=
  exists w',
    library_init_item name_len product_name_len sp e i w = Ok (Cleanup, w') /\
    trace w' = trace w ++
      [E_SPDK_ERRLOG "current block_size = %d, it should be multiple of 512"] /\
    g_rbds w' = g_rbds w /\
    blockdev_rbd_count w' = blockdev_rbd_count w.

(** The turn of item [i] accepts the item with block size [bs]: it goes
    on to the next item, having created one device of that block size,
    with as many blocks as fit the volume, and registered it. *)
Definition block_size_accepted (name_len product_name_len : nat)
  (sp : spdk_conf_section) (e : init_env) (i : nat) (w : world) (bs : Z)
  : Prop :=
  exists w' d,
    library_init_item name_len product_name_len sp e i w = Ok (Continue, w') /\
    g_rbds w' = g_rbds w ++ [d] /\
    blocklen (disk d) = bs /\
    blockcnt (disk d) = rbd_stat_size (backend e) / bs /\
    registered_devices (trace w') =
      registered_devices (trace w) ++ [name (disk d)].

(** ** Sample data *)

(** A channel with an open connection and an empty inbox, at address 1,
    and two requests of that channel, at addresses 10 and 11. *)
Definition sample_channel : blockdev_rbd_io_channel :=
  mk_ch (Some 2%nat) (Some 1%nat) (Some 3%nat) None None (Some 4%nat).

Definition sample_world : world :=
  mk_world
    {[ 10%nat := mk_io BLOCKDEV_RBD_READ 0 4096 (Some 5%nat) (Some 1%nat) None;
       11%nat := mk_io BLOCKDEV_RBD_WRITE 0 0 (Some 6%nat) (Some 1%nat) None ]}
    {[ 1%nat := sample_channel ]} [] [] 0 [].

(** The read at 10 returned 4096 bytes, the write at 11 returned -5. *)
Definition sample_batch : list (addr * Z) := [(10%nat, 4096); (11%nat, -5)].

(** The same channel with the request at 10 queued. *)
Definition sample_queued : world :=
  mk_world
    {[ 10%nat := mk_io BLOCKDEV_RBD_READ 0 4096 None (Some 1%nat) None ]}
    {[ 1%nat := ch_set_req_head (Some 10%nat) sample_channel ]} [] [] 0 [].

(** A backend that accepts every asynchronous call. *)
Definition aio_ok : aio_env := mk_aio_env 0 7%nat 0 0.

(** A cluster that answers every call with success and holds a volume
    of [sz] bytes. *)
Definition healthy (sz : Z) : rados_env :=
  mk_rados_env 0 1%nat 0 0 0 2%nat 0 3%nat 0 sz.

(** A cluster whose [rados_connect] fails, everything else succeeding. *)
Definition connect_fails : rados_env :=
  mk_rados_env 0 1%nat 0 (-1) 0 2%nat 0 3%nat 0 1048576.

(** A cluster whose [rados_connect] and [rados_ioctx_create] fail. *)
Definition connect_and_ioctx_fail : rados_env :=
  mk_rados_env 0 1%nat 0 (-1) (-1) 2%nat 0 3%nat 0 1048576.

(** A write of 8192 bytes in two segments of 4096 bytes, on the request
    at 11 of the sample channel. *)
Definition two_segment_write : spdk_bdev_io :=
  mk_bdev_io SPDK_BDEV_IO_TYPE_WRITE 1%nat 11%nat 0 0
    [mk_iovec 4096 4096; mk_iovec 16384 4096] 2 8192 0.

(** A cluster on which the volume cannot be opened. *)
Definition open_fails : rados_env :=
  mk_rados_env 0 1%nat 0 0 0 2%nat (-2) 3%nat 0 0.

(** Three configured devices; the volume of the second one cannot be
    opened, the other two are healthy volumes of 1 MiB. *)
Definition sample_conf : spdk_conf_section :=
  [["rbd"; "vol0"]; ["rbd"; "missing"]; ["rbd"; "vol2"; "4096"]].

Definition sample_env (i : nat) : init_env :=
  mk_init_env true true (if Nat.eqb i 1 then open_fails else healthy 1048576).

(** One configured device whose block size, 2 ^ 63, does not fit a
    [long], and one whose block size lies below [LONG_MIN]. *)
Definition oversized_conf : spdk_conf_section :=
  [["rbd"; "vol0"; "9223372036854775808"]].

Definition undersized_conf : spdk_conf_section :=
  [["rbd"; "vol0"; "-9223372036854775809"]].

(** ** Vocabulary of the further properties *)

(** Rounds of the completion path on channel [c]: in every round the
    callbacks of a batch of finished operations run, then the poller
    drains the inbox, with as many loop turns as the batch is long. *)
Fixpoint run_rounds (c : addr) (rounds : list (list (addr * Z))) : M unit :=
  match rounds with
  | [] => ret tt
  | cs :: rest =>
      run_callbacks cs ;;
      blockdev_rbd_io_poll (length cs) c ;;
      run_rounds c rest
  end.

(** What a backend connection holds: the cluster session, the pool
    context and the open image. *)
Inductive resource : Set :=
| Session (h : handle)
| PoolContext (h : handle)
| Image (h : handle).

Definition resource_eqb (a b : resource) : bool :=
  match a, b with
  | Session x, Session y => Nat.eqb x y
  | PoolContext x, PoolContext y => Nat.eqb x y
  | Image x, Image y => Nat.eqb x y
  | _, _ => false
  end.

Definition release (r : resource) (held : list resource) : list resource :=
  List.filter (fun x => negb (resource_eqb r x)) held.

(** The effect of one call on what is held, against the backend [e]: a
    creating call that [e] answers with success acquires the handle that
    [e] hands out, a closing call releases its handle. *)
Definition held_step (e : rados_env) (held : list resource) (ev : event)
  : list resource :=
  match ev with
  | E_rados_create =>
      if rados_create_ret e <? 0 then held
      else held ++ [Session (new_cluster e)]
  | E_rados_ioctx_create _ _ =>
      if rados_ioctx_create_ret e <? 0 then held
      else held ++ [PoolContext (new_io_ctx e)]
  | E_rbd_open _ _ =>
      if rbd_open_ret e <? 0 then held
      else held ++ [Image (new_image e)]
  | E_rados_shutdown (Some h) => release (Session h) held
  | E_rados_ioctx_destroy (Some h) => release (PoolContext h) held
  | E_rbd_close (Some h) => release (Image h) held
  | _ => held
  end.

(** What is held after the calls of a trace, starting with nothing. *)
Definition held_after (e : rados_env) (t : list event) : list resource :=
  fold_left (held_step e) t [].

(** The channels whose poller a trace registers, in order. *)
Fixpoint registered_pollers (t : list event) : list addr :=
  match t with
  | [] => []
  | E_spdk_poller_register c :: t' => c :: registered_pollers t'
  | _ :: t' => registered_pollers t'
  end.

(** Whether every call of the backend [e] but [rbd_open] and [rbd_stat]
    succeeds. *)
Definition context_ok (e : rados_env) : Prop :=
  0 <= rados_create_ret e /\ 0 <= rados_conf_read_file_ret e /\
  0 <= rados_connect_ret e /\ 0 <= rados_ioctx_create_ret e.

(** The device that a sound configuration item yields when it is the
    [n]-th device created: named after [n], with the block size of the
    item and as many blocks of that size as fit the volume. *)
Definition device_of_item (name_len product_name_len : nat) (e : init_env)
  (n : Z) (vals : list string) : list blockdev_rbd :=
  match vals with
  | pool :: vol :: rest =>
      match conf_block_size (rest !! 0%nat) with
      | Some bs =>
          [mk_rbd (mk_bdev (snprintf name_len ("Ceph" +:+ pretty n))
                           (snprintf product_name_len "Ceph rbd") 0 bs
                           (rbd_stat_size (backend e) / bs))
                  vol (mk_info (rbd_stat_size (backend e)))
                  (mk_pool_info pool)]
      | None => []
      end
  | _ => []
  end.

(** The devices of the configuration items [items], which start at
    index [i], the device counter being [n]. *)
Fixpoint expected_devices (name_len product_name_len : nat)
  (env : nat -> init_env) (i : nat) (n : Z) (items : list (list string))
  : list blockdev_rbd :=
  match items with
  | [] => []
  | vals :: items' =>
      device_of_item name_len product_name_len (env i) n vals
      ++ expected_devices name_len product_name_len env (S i) (n + 1) items'
  end.

(** The two invariants of the registry: no two pool records carry the
    same name, and the pool record of every device is in the pool list. *)
Definition registry_ok (w : world) : Prop :=
  NoDup (map pool_name (g_rbd_pools w)) /\
  forall d, d ∈ g_rbds w -> pool_info d ∈ g_rbd_pools w.

(** A backend on which every volume is healthy and 1 MiB large. *)
Definition all_healthy (i : nat) : init_env :=
  mk_init_env true true (healthy 1048576).

(** A channel buffer as the framework hands it to
    [blockdev_rbd_create_cb]: zeroed. *)
Definition blank_channel : blockdev_rbd_io_channel :=
  mk_ch None None None None None None.

(** The device of the sample channel. *)
Definition sample_device : blockdev_rbd :=
  mk_rbd (mk_bdev "Ceph0" "Ceph rbd" 0 512 2048) "vol0" (mk_info 1048576)
         (mk_pool_info "rbd").

(** A read of 4096 bytes at offset 8192 on the request at 10, and a
    write of 4096 bytes in one segment on the request at 11, both on the
    sample channel. *)
Definition sample_read : spdk_bdev_io :=
  mk_bdev_io SPDK_BDEV_IO_TYPE_READ 1%nat 10%nat 4096 8192 [] 0 0 0.

Definition sample_write : spdk_bdev_io :=
  mk_bdev_io SPDK_BDEV_IO_TYPE_WRITE 1%nat 11%nat 0 0
    [mk_iovec 65536 4096] 1 4096 8192.

(** A backend that refuses to create completion objects, and one that
    refuses the asynchronous calls. *)
Definition aio_no_completion : aio_env := mk_aio_env (-12) 7%nat 0 0.
Definition aio_refused : aio_env := mk_aio_env 0 7%nat (-5) (-5).

(** * Properties *)

(** ** Machine integers *)

Lemma to_int_id (x : Z) : INT_MIN <= x <= INT_MAX -> to_int x = x.
Proof.
  unfold INT_MIN, INT_MAX, to_int, wrap_signed. intros H.
  destruct (Z.ltb_spec (x mod 2 ^ 32) (2 ^ (32 - 1))) as [Hlt|Hge].
  - destruct (Z_lt_le_dec x 0) as [Hneg|Hpos].
    + exfalso. replace x with (x + 1 * 2 ^ 32 - 2 ^ 32) in Hlt by lia.
      replace (x + 1 * 2 ^ 32 - 2 ^ 32) with ((x + 2 ^ 32) + (-1) * 2 ^ 32) in Hlt by lia.
      rewrite Z.mod_add in Hlt by lia.
      rewrite Z.mod_small in Hlt; lia.
    + apply Z.mod_small. lia.
  - destruct (Z_lt_le_dec x 0) as [Hneg|Hpos].
    + replace x with ((x + 2 ^ 32) + (-1) * 2 ^ 32) at 1 by lia.
      rewrite Z.mod_add by lia. rewrite Z.mod_small; lia.
    + rewrite Z.mod_small in Hge; lia.
Qed.

Lemma to_int_range (x : Z) : INT_MIN <= to_int x <= INT_MAX.
Proof.
  unfold INT_MIN, INT_MAX, to_int, wrap_signed.
  pose proof (Z.mod_pos_bound x (2 ^ 32) ltac:(lia)) as Hb.
  destruct (Z.ltb_spec (x mod 2 ^ 32) (2 ^ (32 - 1))); lia.
Qed.

(** Both conversions keep the residue modulo [2 ^ 32]. *)
Lemma to_uint32_to_int (x : Z) : to_uint32 (to_int x) = x mod 2 ^ 32.
Proof.
  unfold to_uint32, wrap_unsigned, to_int, wrap_signed.
  destruct (Z.ltb_spec (x mod 2 ^ 32) (2 ^ (32 - 1))).
  - apply Z.mod_mod. lia.
  - replace (x mod 2 ^ 32 - 2 ^ 32) with (x mod 2 ^ 32 + (-1) * 2 ^ 32) by lia.
    rewrite Z.mod_add by lia. apply Z.mod_mod. lia.
Qed.

(** ** The monad *)

Lemma bind_Ok {A B} (m : M A) (k : A -> M B) (w w' : world) (a : A) :
  m w = Ok (a, w') -> bind m k w = k a w'.
Proof. unfold bind. intros ->. reflexivity. Qed.

Lemma bind_Fault {A B} (m : M A) (k : A -> M B) (w : world) (f : fault) :
  m w = Fault f -> bind m k w = Fault f.
Proof. unfold bind. intros ->. reflexivity. Qed.

Lemma load_io_Some (w : world) (a : addr) (r : blockdev_rbd_io) :
  ios w !! a = Some r -> load_io (Some a) w = Ok (r, w).
Proof. unfold load_io. intros ->. reflexivity. Qed.

Lemma load_ch_Some (w : world) (a : addr) (c : blockdev_rbd_io_channel) :
  chans w !! a = Some c -> load_ch (Some a) w = Ok (c, w).
Proof. unfold load_ch. intros ->. reflexivity. Qed.

(** ** Classification of a finished operation *)

Lemma finish_status_two_valued d l st :
  finish_status d l st = 0 \/ finish_status d l st = -1.
Proof.
  unfold finish_status. destruct d.
  - destruct (to_int l =? st); auto.
  - destruct (st =? 0); auto.
Qed.

Lemma finish_status_write l st :
  finish_status BLOCKDEV_RBD_WRITE l st = 0 <-> st = 0.
Proof.
  unfold finish_status. destruct (Z.eqb_spec st 0); split; intros; try lia; congruence.
Qed.

(** For a length that fits an [int] the read test is the one intended. *)
Lemma finish_status_read_small l st :
  0 <= l <= INT_MAX -> (finish_status BLOCKDEV_RBD_READ l st = 0 <-> st = l).
Proof.
  intros Hl. unfold finish_status.
  rewrite to_int_id by (unfold INT_MIN, INT_MAX in *; lia).
  destruct (Z.eqb_spec l st); split; intros; try lia; congruence.
Qed.

Lemma io_status_of_success s :
  io_status_of s = SPDK_BDEV_IO_STATUS_SUCCESS <-> s = 0.
Proof.
  unfold io_status_of. destruct (Z.eqb_spec s 0); split; intros; congruence.
Qed.

(** ** The inbox as a linked list *)

(** What one run of the completion callback does to the world. *)
Lemma blockdev_rbd_finish_aiocb_run (w : world) (a c : addr)
  (r : blockdev_rbd_io) (cc : blockdev_rbd_io_channel) (retval : Z) :
  ios w !! a = Some r -> ch r = Some c -> chans w !! c = Some cc ->
  blockdev_rbd_finish_aiocb retval a w =
  Ok (tt, mk_world
            (<[a := mk_io (direction r)
                      (finish_status (direction r) (len r) retval)
                      (len r) (completion r) (ch r) (req_head cc)]> (ios w))
            (<[c := ch_set_req_head (Some a) cc]> (chans w))
            (g_rbd_pools w) (g_rbds w) (blockdev_rbd_count w)
            (trace w ++ [E_rbd_aio_release (completion r);
                         E_pthread_mutex_lock c;
                         E_pthread_mutex_unlock c])).
Proof.
  intros Ha Hc Hcc. unfold blockdev_rbd_finish_aiocb.
  rewrite (bind_Ok _ _ _ _ _ (load_io_Some w a r Ha)).
  cbn [io_set_status ch direction len completion].
  rewrite Hc.
  unfold bind at 1. cbn [store_io modify].
  unfold bind at 1. cbn [emit].
  unfold bind at 1. cbn [emit].
  erewrite bind_Ok; [|apply load_ch_Some; exact Hcc].
  unfold bind, store_io, store_ch, modify, emit, set_ios, set_chans, set_trace,
    io_set_next, io_set_status.
  cbn. rewrite insert_insert_eq. rewrite <- !app_assoc. rewrite ?Hc. reflexivity.
Qed.

Lemma inbox_chain_insert (m : gmap nat blockdev_rbd_io) (h : option addr)
  (l : list addr) (a : addr) (r : blockdev_rbd_io) :
  a ∉ l -> inbox_chain m h l -> inbox_chain (<[a := r]> m) h l.
Proof.
  revert h. induction l as [|b l IH]; intros h Hnin Hc; cbn in *.
  - exact Hc.
  - destruct Hc as (-> & rb & Hb & Hrest). split; [reflexivity|].
    exists rb. split.
    + rewrite lookup_insert_ne; [exact Hb|]. intros ->. apply Hnin. left.
    + apply IH; [|exact Hrest]. intros Hin. apply Hnin. right. exact Hin.
Qed.

(** Following [next] is deterministic: a head has one list. *)
Lemma inbox_chain_functional (m : gmap nat blockdev_rbd_io) (h : option addr)
  (l1 l2 : list addr) :
  inbox_chain m h l1 -> inbox_chain m h l2 -> l1 = l2.
Proof.
  revert h l2. induction l1 as [|a l1 IH]; intros h [|b l2] H1 H2; cbn in *.
  - reflexivity.
  - destruct H2 as (-> & _). discriminate.
  - destruct H1 as (-> & _). discriminate.
  - destruct H1 as (-> & r1 & Hr1 & H1). destruct H2 as (Heq & r2 & Hr2 & H2).
    injection Heq as <-. rewrite Hr1 in Hr2. injection Hr2 as <-.
    f_equal. eapply IH; eassumption.
Qed.

Lemma inbox_chain_suffix (m : gmap nat blockdev_rbd_io) (h : option addr)
  (l1 l2 : list addr) (a : addr) :
  inbox_chain m h (l1 ++ a :: l2) -> inbox_chain m (Some a) (a :: l2).
Proof.
  revert h. induction l1 as [|b l1 IH]; intros h H; cbn in *.
  - destruct H as (_ & H). split; [reflexivity | exact H].
  - destruct H as (_ & r & _ & H). eapply IH. exact H.
Qed.

(** A list that ends in [NULL] visits no request twice. *)
Lemma inbox_chain_NoDup (m : gmap nat blockdev_rbd_io) (h : option addr)
  (l : list addr) :
  inbox_chain m h l -> NoDup l.
Proof.
  revert h. induction l as [|a l IH]; intros h H.
  - constructor.
  - cbn in H. destruct H as (-> & r & Hr & H). constructor.
    + intros Hin. apply list_elem_of_split in Hin as (l1 & l2 & ->).
      pose proof (inbox_chain_suffix _ _ _ _ _ H) as Hs.
      assert (Hfull : inbox_chain m (Some a) (a :: l1 ++ a :: l2)).
      { cbn. split; [reflexivity|]. exists r. split; assumption. }
      pose proof (inbox_chain_functional _ _ _ _ Hs Hfull) as Heq.
      apply (f_equal length) in Heq. cbn in Heq.
      rewrite length_app in Heq. cbn in Heq. lia.
    + eapply IH. exact H.
Qed.

(** The loop of the poller on a well-formed inbox: it ends, within as
    many turns as the list is long, having completed every request of
    the list once, in list order, with the status that its [status]
    field commands. *)
Lemma io_poll_loop_run (fuel : nat) (w : world) (h : option addr)
  (l : list addr) :
  inbox_chain (ios w) h l -> (length l <= fuel)%nat ->
  io_poll_loop fuel h w =
  Ok (tt, set_trace (trace w ++ walk_events (ios w) l) w).
Proof.
  revert w h l. induction fuel as [|fuel IH]; intros w h l Hc Hlen.
  - destruct l; [|cbn in Hlen; lia]. cbn in Hc. subst h. cbn.
    unfold ret, set_trace. rewrite app_nil_r. destruct w; reflexivity.
  - destruct l as [|a l].
    + cbn in Hc. subst h. cbn.
      unfold ret, set_trace. rewrite app_nil_r. destruct w; reflexivity.
    + cbn in Hc. destruct Hc as (-> & r & Hr & Hc). cbn [io_poll_loop].
      erewrite bind_Ok; [|apply load_io_Some; exact Hr].
      unfold bind at 1. cbn [emit].
      rewrite (IH _ _ l); [|exact Hc|cbn in Hlen; lia].
      unfold set_trace, walk_events, req_status. cbn. rewrite Hr.
      rewrite <- app_assoc. reflexivity.
Qed.

(** One drain of a well-formed inbox. *)
Lemma blockdev_rbd_io_poll_run (fuel : nat) (w : world) (c : addr)
  (cc : blockdev_rbd_io_channel) (l : list addr) :
  chans w !! c = Some cc -> inbox_chain (ios w) (req_head cc) l ->
  (length l <= fuel)%nat ->
  blockdev_rbd_io_poll fuel c w =
  Ok (tt, mk_world (ios w) (<[c := ch_set_req_head None cc]> (chans w))
            (g_rbd_pools w) (g_rbds w) (blockdev_rbd_count w)
            (trace w ++ [E_pthread_mutex_lock c] ++ walk_events (ios w) l
               ++ [E_pthread_mutex_unlock c])).
Proof.
  intros Hcc Hc Hlen. unfold blockdev_rbd_io_poll.
  unfold bind at 1. cbn [emit].
  erewrite bind_Ok; [|apply load_ch_Some; exact Hcc].
  unfold bind at 1. cbn [store_ch modify].
  erewrite bind_Ok; [|apply (io_poll_loop_run fuel _ _ l); [exact Hc|exact Hlen]].
  unfold emit, set_trace, set_chans. cbn.
  rewrite <- !app_assoc. reflexivity.
Qed.

Lemma completions_of_app (t1 t2 : list event) :
  completions_of (t1 ++ t2) = completions_of t1 ++ completions_of t2.
Proof.
  induction t1 as [|e t1 IH]; [reflexivity|].
  destruct e; cbn; rewrite IH; reflexivity.
Qed.

Lemma completions_of_walk (m : gmap nat blockdev_rbd_io) (l : list addr) :
  completions_of (walk_events m l) =
  map (fun a => (a, io_status_of (req_status m a))) l.
Proof.
  unfold walk_events. induction l as [|a l IH]; [reflexivity|].
  cbn. f_equal. exact IH.
Qed.

(** A batch of completion callbacks for distinct requests of channel [c],
    none of them queued already: every callback returns, the inbox is
    the old one with the batch in front, most recent first, every
    request of the batch carries its final status, and nothing was
    delivered to the framework. *)
Lemma run_callbacks_run (cs : list (addr * Z)) :
  forall (w : world) (c : addr) (cc : blockdev_rbd_io_channel) (l0 : list addr),
  chans w !! c = Some cc ->
  inbox_chain (ios w) (req_head cc) l0 ->
  NoDup cs.*1 ->
  (forall a, a ∈ cs.*1 -> a ∉ l0) ->
  (forall a, a ∈ cs.*1 -> exists r, ios w !! a = Some r /\ ch r = Some c) ->
  exists w1 cc1,
    run_callbacks cs w = Ok (tt, w1) /\
    chans w1 !! c = Some cc1 /\
    inbox_chain (ios w1) (req_head cc1) (rev cs.*1 ++ l0) /\
    (forall a retval, (a, retval) ∈ cs ->
       req_status (ios w1) a = finalized (ios w) a retval) /\
    (forall a, a ∉ cs.*1 -> ios w1 !! a = ios w !! a) /\
    completions_of (trace w1) = completions_of (trace w).
Proof.
  induction cs as [|[a retval] cs IH]; intros w c cc l0 Hcc Hl0 Hnd Hfresh Hreq.
  - exists w, cc. cbn. repeat split; try assumption; try reflexivity.
    intros a retval Hin. inversion Hin.
  - cbn in Hnd. apply NoDup_cons in Hnd as [Ha Hnd].
    destruct (Hreq a) as (r & Hr & Hch); [cbn; left|].
    pose proof (blockdev_rbd_finish_aiocb_run w a c r cc retval Hr Hch Hcc) as Hrun.
    set (r' := mk_io (direction r) (finish_status (direction r) (len r) retval)
                 (len r) (completion r) (ch r) (req_head cc)) in *.
    match type of Hrun with _ = Ok (_, ?w0) => set (w' := w0) in * end.
    destruct (IH w' c (ch_set_req_head (Some a) cc) (a :: l0)) as
      (w1 & cc1 & Hrun1 & Hcc1 & Hchain1 & Hst1 & Hfr1 & Htr1).
    + subst w'. cbn. apply lookup_insert_eq.
    + subst w'. cbn. split; [reflexivity|]. exists r'. split.
      * apply lookup_insert_eq.
      * subst r'. cbn. apply inbox_chain_insert; [|exact Hl0].
        apply Hfresh. cbn. left.
    + exact Hnd.
    + intros b Hb Hin. apply elem_of_cons in Hin as [->|Hin].
      * contradiction.
      * apply (Hfresh b); [cbn; right; exact Hb|exact Hin].
    + intros b Hb. destruct (Hreq b) as (rb & Hrb & Hchb); [cbn; right; exact Hb|].
      exists rb. split; [|exact Hchb]. subst w'. cbn.
      rewrite lookup_insert_ne; [exact Hrb|]. intros ->. contradiction.
    + exists w1, cc1. split; [|split; [|split; [|split; [|split]]]].
      * cbn [run_callbacks]. erewrite bind_Ok; [|exact Hrun]. exact Hrun1.
      * exact Hcc1.
      * cbn [fmap list_fmap fst rev]. cbn. rewrite <- app_assoc. exact Hchain1.
      * intros b rb Hin. apply elem_of_cons in Hin as [Heq|Hin].
        -- injection Heq as -> ->. unfold req_status, finalized.
           rewrite (Hfr1 a Ha). subst w'. cbn. rewrite lookup_insert_eq.
           rewrite Hr. reflexivity.
        -- rewrite (Hst1 b rb Hin). unfold finalized. subst w'. cbn.
           rewrite lookup_insert_ne; [reflexivity|]. intros ->.
           apply Ha. apply list_elem_of_fmap. exists (b, rb). split; [reflexivity|exact Hin].
      * intros b Hb. rewrite Hfr1.
        -- subst w'. cbn. apply lookup_insert_ne. intros ->. apply Hb. cbn. left.
        -- intros Hin. apply Hb. cbn. right. exact Hin.
      * rewrite Htr1. subst w'. cbn. rewrite completions_of_app. cbn.
        apply app_nil_r.
Qed.

(** ** Delivery of finished requests *)

(** C1.  Start from a channel [c] whose inbox is empty and let the
    completion callback run for a batch [cs] of finished operations on
    distinct requests of that channel.  Every callback returns without
    delivering anything; one drain, with as many loop turns as the batch
    is long, then returns and hands the framework exactly the requests of
    the batch, one delivery per request, most recent first.  Each request
    is delivered with the status field the callback has written before,
    as success if and only if that field is 0.  The drain leaves the
    inbox empty. *)
Theorem poll_delivers_each_finished_request_once
  (w : world) (c : addr) (cc : blockdev_rbd_io_channel) (cs : list (addr * Z)) :
  chans w !! c = Some cc ->
  req_head cc = None ->
  NoDup cs.*1 ->
  (forall a, a ∈ cs.*1 -> exists r, ios w !! a = Some r /\ ch r = Some c) ->
  exists w1 w2,
    run_callbacks cs w = Ok (tt, w1) /\
    completions_of (trace w1) = completions_of (trace w) /\
    (forall a retval, (a, retval) ∈ cs ->
       req_status (ios w1) a = finalized (ios w) a retval) /\
    blockdev_rbd_io_poll (length cs) c w1 = Ok (tt, w2) /\
    completions_of (trace w2) =
      completions_of (trace w) ++ rev (map (delivery_of (ios w)) cs) /\
    NoDup (rev (map (delivery_of (ios w)) cs)).*1 /\
    (forall a s, (a, s) ∈ rev (map (delivery_of (ios w)) cs) ->
       a ∈ cs.*1 /\
       (s = SPDK_BDEV_IO_STATUS_SUCCESS <-> req_status (ios w1) a = 0)) /\
    (exists cc2, chans w2 !! c = Some cc2 /\ req_head cc2 = None).
Proof.
  intros Hcc Hempty Hnd Hreq.
  assert (Hchain0 : inbox_chain (ios w) (req_head cc) []) by exact Hempty.
  assert (Hfresh : forall a, a ∈ cs.*1 -> a ∉ ([] : list addr)).
  { intros a _ Hin. inversion Hin. }
  destruct (run_callbacks_run cs w c cc [] Hcc Hchain0 Hnd Hfresh Hreq) as
    (w1 & cc1 & Hrun & Hcc1 & Hchain & Hst & _ & Htr).
  rewrite app_nil_r in Hchain.
  assert (Hlen : (length (rev cs.*1) <= length cs)%nat).
  { rewrite length_rev, length_fmap. lia. }
  pose proof (blockdev_rbd_io_poll_run (length cs) w1 c cc1 (rev cs.*1)
                Hcc1 Hchain Hlen) as Hpoll.
  match type of Hpoll with _ = Ok (_, ?w0) => set (w2 := w0) in * end.
  assert (Hdel : map (fun a => (a, io_status_of (req_status (ios w1) a))) cs.*1
                 = map (delivery_of (ios w)) cs).
  { rewrite <- list_fmap_compose. apply map_ext_in. intros [a retval] Hin.
    unfold delivery_of. cbn. f_equal. f_equal. apply Hst.
    apply list_elem_of_In. exact Hin. }
  assert (Hfst : (map (delivery_of (ios w)) cs).*1 = cs.*1).
  { rewrite <- list_fmap_compose. apply map_ext. intros [a retval]. reflexivity. }
  exists w1, w2. split; [exact Hrun|]. split; [exact Htr|]. split; [exact Hst|].
  split; [exact Hpoll|]. split; [|split; [|split]].
  - subst w2. cbn [trace]. rewrite !completions_of_app, completions_of_walk.
    cbn. rewrite app_nil_r, Htr. f_equal.
    rewrite map_rev. f_equal. exact Hdel.
  - change (NoDup (map fst (rev (map (delivery_of (ios w)) cs)))).
    rewrite map_rev. change (NoDup (rev (map (delivery_of (ios w)) cs).*1)).
    rewrite Hfst. apply NoDup_ListNoDup, List.NoDup_rev, NoDup_ListNoDup. exact Hnd.
  - intros a s Hin. apply list_elem_of_In, in_rev, list_elem_of_In in Hin.
    apply list_elem_of_fmap in Hin as ([b retval] & Heq & Hin).
    unfold delivery_of in Heq. cbn in Heq. injection Heq as -> ->.
    split.
    + apply list_elem_of_fmap. exists (b, retval). split; [reflexivity|exact Hin].
    + rewrite (Hst b retval Hin). apply io_status_of_success.
  - exists (ch_set_req_head None cc1). split; [|reflexivity].
    subst w2. cbn. apply lookup_insert_eq.
Qed.

Lemma poll_delivers_each_finished_request_once_sample :
  exists w1 w2,
    run_callbacks sample_batch sample_world = Ok (tt, w1) /\
    completions_of (trace w1) = completions_of (trace sample_world) /\
    (forall a retval, (a, retval) ∈ sample_batch ->
       req_status (ios w1) a = finalized (ios sample_world) a retval) /\
    blockdev_rbd_io_poll (length sample_batch) 1%nat w1 = Ok (tt, w2) /\
    completions_of (trace w2) =
      completions_of (trace sample_world)
        ++ rev (map (delivery_of (ios sample_world)) sample_batch) /\
    NoDup (rev (map (delivery_of (ios sample_world)) sample_batch)).*1 /\
    (forall a s, (a, s) ∈ rev (map (delivery_of (ios sample_world)) sample_batch) ->
       a ∈ sample_batch.*1 /\
       (s = SPDK_BDEV_IO_STATUS_SUCCESS <-> req_status (ios w1) a = 0)) /\
    (exists cc2, chans w2 !! 1%nat = Some cc2 /\ req_head cc2 = None).
Proof.
  apply (poll_delivers_each_finished_request_once sample_world 1%nat
           sample_channel sample_batch).
  - reflexivity.
  - reflexivity.
  - cbn. apply NoDup_cons. split.
    + intros Hin. apply list_elem_of_singleton in Hin. discriminate.
    + apply NoDup_singleton.
  - intros a Hin. cbn in Hin.
    apply elem_of_cons in Hin as [->|Hin].
    + eexists. split; reflexivity.
    + apply list_elem_of_singleton in Hin as ->. eexists. split; reflexivity.
Defined.

(** The deliveries of the sample batch: the failed write first, then the
    successful read. *)
Example sample_batch_deliveries :
  rev (map (delivery_of (ios sample_world)) sample_batch) =
  [(11%nat, SPDK_BDEV_IO_STATUS_FAILED); (10%nat, SPDK_BDEV_IO_STATUS_SUCCESS)].
Proof. reflexivity. Qed.

(** A drain of an empty inbox delivers nothing. *)
Lemma blockdev_rbd_io_poll_empty (fuel : nat) (w : world) (c : addr)
  (cc : blockdev_rbd_io_channel) :
  chans w !! c = Some cc -> req_head cc = None ->
  exists w', blockdev_rbd_io_poll fuel c w = Ok (tt, w') /\
             completions_of (trace w') = completions_of (trace w).
Proof.
  intros Hcc Hempty.
  eexists. split.
  - apply (blockdev_rbd_io_poll_run fuel w c cc []); [exact Hcc|exact Hempty|cbn; lia].
  - cbn. rewrite !completions_of_app. cbn. rewrite !app_nil_r. reflexivity.
Qed.

(** C2.  The read test compares [status] with [(int)cmd->len], so a
    length of [2 ^ 32] counts as 0: a read of 4294967296 bytes whose
    operation returned 0 bytes is submitted, finished and delivered as a
    success, and so is a read of 4294967295 bytes whose operation
    returned the error code -1. *)
Theorem read_length_compared_as_int :
  finish_status BLOCKDEV_RBD_READ 4294967296 0 = 0 /\
  finish_status BLOCKDEV_RBD_READ 4294967295 (-1) = 0 /\
  exists w',
    (blockdev_rbd_read aio_ok 1%nat 10%nat 4294967296 0 ;;
     blockdev_rbd_finish_aiocb 0 10%nat ;;
     blockdev_rbd_io_poll 1 1%nat) sample_world = Ok (tt, w') /\
    (exists r, ios w' !! 10%nat = Some r /\ len r = 4294967296 /\ status r = 0) /\
    completions_of (trace w') = [(10%nat, SPDK_BDEV_IO_STATUS_SUCCESS)].
Proof.
  split; [reflexivity|]. split; [reflexivity|].
  eexists. split; [vm_compute; reflexivity|]. split.
  - eexists. split; [vm_compute; reflexivity|]. split; reflexivity.
  - reflexivity.
Qed.

(** Whatever the length, a finished operation is either a success or a
    failure, a write is a success exactly when its operation returned 0,
    and a read of at most [INT_MAX] bytes is a success exactly when its
    operation returned the length. *)
Lemma finish_status_in_range d l st :
  0 <= l <= INT_MAX ->
  (finish_status d l st = 0 \/ finish_status d l st = -1) /\
  (d = BLOCKDEV_RBD_READ -> (finish_status d l st = 0 <-> st = l)) /\
  (d = BLOCKDEV_RBD_WRITE -> (finish_status d l st = 0 <-> st = 0)).
Proof.
  intros Hl. split; [apply finish_status_two_valued|]. split; intros ->.
  - apply finish_status_read_small. exact Hl.
  - apply finish_status_write.
Qed.

(** ** The lock during a drain *)

(** C5, as stated, fails: with one request queued, the drain calls the
    framework between taking and releasing the channel lock. *)
Lemma poll_completes_under_lock :
  exists w',
    blockdev_rbd_io_poll 1 1%nat sample_queued = Ok (tt, w') /\
    trace w' = [E_pthread_mutex_lock 1%nat;
                E_spdk_bdev_io_complete 10%nat SPDK_BDEV_IO_STATUS_SUCCESS;
                E_pthread_mutex_unlock 1%nat] /\
    completes_unlocked 1%nat false (trace w') = false.
Proof.
  eexists. split; [vm_compute; reflexivity|]. split; reflexivity.
Qed.

Lemma completes_unlocked_held_walk (c : addr) (m : gmap nat blockdev_rbd_io)
  (l : list addr) (t : list event) :
  l <> [] -> completes_unlocked c true (walk_events m l ++ t) = false.
Proof.
  destruct l as [|a l]; [congruence|]. intros _. reflexivity.
Qed.

(** C5, amended.  One drain of a well-formed inbox takes the channel
    lock, detaches the list, completes every request of the list to the
    framework and only then releases the lock: no event of the drain
    follows the release, and when the inbox is not empty the framework is
    called while the lock is held. *)
Theorem poll_holds_lock_through_walk
  (w : world) (c : addr) (cc : blockdev_rbd_io_channel) (l : list addr) :
  chans w !! c = Some cc ->
  inbox_chain (ios w) (req_head cc) l ->
  exists w',
    blockdev_rbd_io_poll (length l) c w = Ok (tt, w') /\
    trace w' = trace w ++ [E_pthread_mutex_lock c] ++ walk_events (ios w) l
                 ++ [E_pthread_mutex_unlock c] /\
    (l <> [] ->
     completes_unlocked c false
       ([E_pthread_mutex_lock c] ++ walk_events (ios w) l
          ++ [E_pthread_mutex_unlock c]) = false).
Proof.
  intros Hcc Hchain. eexists. split; [|split].
  - apply (blockdev_rbd_io_poll_run (length l) w c cc l Hcc Hchain). lia.
  - reflexivity.
  - intros Hl. cbn [app completes_unlocked]. rewrite Nat.eqb_refl.
    apply completes_unlocked_held_walk. exact Hl.
Qed.

Lemma poll_holds_lock_through_walk_sample :
  exists w',
    blockdev_rbd_io_poll 1 1%nat sample_queued = Ok (tt, w') /\
    trace w' = trace sample_queued ++ [E_pthread_mutex_lock 1%nat]
                 ++ walk_events (ios sample_queued) [10%nat]
                 ++ [E_pthread_mutex_unlock 1%nat] /\
    ([10%nat] <> [] ->
     completes_unlocked 1%nat false
       ([E_pthread_mutex_lock 1%nat]
          ++ walk_events (ios sample_queued) [10%nat]
          ++ [E_pthread_mutex_unlock 1%nat]) = false).
Proof.
  apply (poll_holds_lock_through_walk sample_queued 1%nat
           (ch_set_req_head (Some 10%nat) sample_channel) [10%nat]).
  - reflexivity.
  - cbn. split; [reflexivity|]. eexists. split; reflexivity.
Defined.

(** ** Bootstrap of a backend connection *)

Ltac run_monad :=
  unfold bind, emit, ret, modify, get, set_trace; cbn;
  rewrite <- ?app_assoc; cbn.

(** A failure of [rados_create] returns at once: nothing is acquired. *)
Lemma context_init_create_fails e pool cl ctx w :
  rados_create_ret e < 0 ->
  blockdev_rados_context_init e pool cl ctx w =
  Ok ((-1, cl, ctx),
      set_trace (trace w ++ [E_rados_create;
                             E_SPDK_ERRLOG "Failed to create rados_t struct"]) w).
Proof.
  intros H. apply Z.ltb_lt in H. unfold blockdev_rados_context_init.
  rewrite !H. run_monad. reflexivity.
Qed.

(** A failure of [rados_conf_read_file] shuts the session down and
    returns. *)
Lemma context_init_conf_read_fails e pool cl ctx w :
  0 <= rados_create_ret e -> rados_conf_read_file_ret e < 0 ->
  blockdev_rados_context_init e pool cl ctx w =
  Ok ((-1, Some (new_cluster e), ctx),
      set_trace (trace w ++ [E_rados_create;
                             E_rados_conf_read_file (Some (new_cluster e));
                             E_SPDK_ERRLOG "Failed to read conf file";
                             E_rados_shutdown (Some (new_cluster e))]) w).
Proof.
  intros H1 H2. apply Z.ltb_ge in H1. apply Z.ltb_lt in H2.
  unfold blockdev_rados_context_init.
  rewrite !H1, !H2. run_monad. reflexivity.
Qed.

(** A failure of [rados_ioctx_create] after a successful connect shuts
    the session down and returns. *)
Lemma context_init_ioctx_create_fails e pool cl ctx w :
  0 <= rados_create_ret e -> 0 <= rados_conf_read_file_ret e ->
  0 <= rados_connect_ret e -> rados_ioctx_create_ret e < 0 ->
  blockdev_rados_context_init e pool cl ctx w =
  Ok ((-1, Some (new_cluster e), ctx),
      set_trace (trace w ++ [E_rados_create;
                             E_rados_conf_read_file (Some (new_cluster e));
                             E_rados_connect (Some (new_cluster e));
                             E_rados_ioctx_create (Some (new_cluster e)) pool;
                             E_SPDK_ERRLOG "Failed to create ioctx";
                             E_rados_shutdown (Some (new_cluster e))]) w).
Proof.
  intros H1 H2 H3 H4.
  apply Z.ltb_ge in H1. apply Z.ltb_ge in H2. apply Z.ltb_ge in H3.
  apply Z.ltb_lt in H4. unfold blockdev_rados_context_init.
  rewrite !H1, !H2, !H3, !H4. run_monad. reflexivity.
Qed.

(** A failure of [rados_connect] shuts the session down and goes on: the
    pool context is created on the session that was shut down, and when
    that call reports success so does the bootstrap. *)
Lemma context_init_connect_fails e pool cl ctx w :
  0 <= rados_create_ret e -> 0 <= rados_conf_read_file_ret e ->
  rados_connect_ret e < 0 -> 0 <= rados_ioctx_create_ret e ->
  blockdev_rados_context_init e pool cl ctx w =
  Ok ((0, Some (new_cluster e), Some (new_io_ctx e)),
      set_trace (trace w ++ [E_rados_create;
                             E_rados_conf_read_file (Some (new_cluster e));
                             E_rados_connect (Some (new_cluster e));
                             E_SPDK_ERRLOG "Failed to connect rbd_pool";
                             E_rados_shutdown (Some (new_cluster e));
                             E_rados_ioctx_create (Some (new_cluster e)) pool]) w).
Proof.
  intros H1 H2 H3 H4.
  apply Z.ltb_ge in H1. apply Z.ltb_ge in H2. apply Z.ltb_lt in H3.
  apply Z.ltb_ge in H4. unfold blockdev_rados_context_init.
  rewrite !H1, !H2, !H3, !H4. run_monad. reflexivity.
Qed.

(** C3.  With a cluster whose [rados_connect] fails, the bootstrap shuts
    the session down and then creates the pool context on it and opens,
    stats and closes the volume through it, and returns success; when the
    pool-context creation fails as well, the session is shut down a second
    time. *)
Theorem connect_failure_does_not_stop_bootstrap :
  blockdev_rados_context_init connect_fails "rbd" None None empty_world =
  Ok ((0, Some 1%nat, Some 2%nat),
      set_trace [E_rados_create;
                 E_rados_conf_read_file (Some 1%nat);
                 E_rados_connect (Some 1%nat);
                 E_SPDK_ERRLOG "Failed to connect rbd_pool";
                 E_rados_shutdown (Some 1%nat);
                 E_rados_ioctx_create (Some 1%nat) "rbd"] empty_world) /\
  blockdev_rbd_init connect_fails "rbd" "vol0" (mk_info 0) empty_world =
  Ok ((0, mk_info 1048576),
      set_trace [E_rados_create;
                 E_rados_conf_read_file (Some 1%nat);
                 E_rados_connect (Some 1%nat);
                 E_SPDK_ERRLOG "Failed to connect rbd_pool";
                 E_rados_shutdown (Some 1%nat);
                 E_rados_ioctx_create (Some 1%nat) "rbd";
                 E_rbd_open (Some 2%nat) "vol0";
                 E_rbd_stat (Some 3%nat);
                 E_rbd_close (Some 3%nat)] empty_world) /\
  used_after_shutdown (Some 1%nat) false
    (run_trace (blockdev_rbd_init connect_fails "rbd" "vol0" (mk_info 0))) = true /\
  run_trace (blockdev_rados_context_init connect_and_ioctx_fail "rbd" None None) =
  [E_rados_create;
   E_rados_conf_read_file (Some 1%nat);
   E_rados_connect (Some 1%nat);
   E_SPDK_ERRLOG "Failed to connect rbd_pool";
   E_rados_shutdown (Some 1%nat);
   E_rados_ioctx_create (Some 1%nat) "rbd";
   E_SPDK_ERRLOG "Failed to create ioctx";
   E_rados_shutdown (Some 1%nat)].
Proof.
  split; [reflexivity|]. split; [reflexivity|]. split; reflexivity.
Qed.

(** Whatever the world, [blockdev_rbd_init] returns what it returns from
    the empty world, 0 or -1, and only adds its calls to the trace; when
    it returns 0 the image info carries the size that [rbd_stat] gave. *)
Lemma blockdev_rbd_init_frame e pool vol inf w :
  exists inf',
    blockdev_rbd_init e pool vol inf w =
    Ok ((rbd_init_ret e pool vol, inf'),
        set_trace (trace w ++ rbd_init_events e pool vol) w) /\
    (rbd_init_ret e pool vol = 0 -> inf' = mk_info (rbd_stat_size e)) /\
    (rbd_init_ret e pool vol = 0 \/ rbd_init_ret e pool vol = -1).
Proof.
  unfold rbd_init_ret, rbd_init_events, run_value, run_trace,
    blockdev_rbd_init, blockdev_rados_context_init.
  destruct (rados_create_ret e <? 0) eqn:H1.
  { eexists. run_monad. split; [reflexivity|]. split; [discriminate|right; reflexivity]. }
  destruct (rados_conf_read_file_ret e <? 0) eqn:H2.
  { eexists. run_monad. split; [reflexivity|]. split; [discriminate|right; reflexivity]. }
  destruct (rados_connect_ret e <? 0) eqn:H3;
    (destruct (rados_ioctx_create_ret e <? 0) eqn:H4;
     [ eexists; run_monad; split; [reflexivity|]; split; [discriminate|right; reflexivity] |];
     destruct (rbd_open_ret e <? 0) eqn:H5;
     [ eexists; run_monad; rewrite ?H5; run_monad;
       split; [reflexivity|]; split; [discriminate|right; reflexivity] |];
     destruct (rbd_stat_ret e <? 0) eqn:H6;
     [ eexists; run_monad; rewrite ?H5, ?H6; run_monad;
       split; [reflexivity|]; split; [discriminate|right; reflexivity] |];
     eexists; run_monad; rewrite ?H5, ?H6; run_monad;
     split; [reflexivity|]; split; [reflexivity|left; reflexivity]).
Qed.

(** A failure to open the volume, or to stat it, releases the pool
    context and the session. *)
Lemma rbd_init_open_or_stat_fails e pool vol inf w :
  0 <= rados_create_ret e -> 0 <= rados_conf_read_file_ret e ->
  0 <= rados_connect_ret e -> 0 <= rados_ioctx_create_ret e ->
  rbd_open_ret e < 0 \/ rbd_stat_ret e < 0 ->
  exists t,
    blockdev_rbd_init e pool vol inf w =
    Ok ((-1, inf),
        set_trace (trace w ++ t ++ [E_rados_ioctx_destroy (Some (new_io_ctx e));
                                    E_rados_shutdown (Some (new_cluster e))]) w) /\
    used_after_shutdown (Some (new_cluster e)) false
      (t ++ [E_rados_ioctx_destroy (Some (new_io_ctx e));
             E_rados_shutdown (Some (new_cluster e))]) = false.
Proof.
  intros H1 H2 H3 H4 H56.
  apply Z.ltb_ge in H1. apply Z.ltb_ge in H2. apply Z.ltb_ge in H3.
  apply Z.ltb_ge in H4.
  unfold blockdev_rbd_init, blockdev_rados_context_init.
  rewrite !H1, !H2, !H3, !H4.
  destruct (rbd_open_ret e <? 0) eqn:H5.
  - eexists [_; _; _; _; _; _]. run_monad. rewrite ?H5. run_monad.
    split; [reflexivity|]. cbn. rewrite ?bool_decide_eq_true_2 by reflexivity.
    reflexivity.
  - destruct H56 as [H5'|H6]; [apply Z.ltb_lt in H5'; congruence|].
    apply Z.ltb_lt in H6.
    eexists [_; _; _; _; _; _; _; _]. run_monad. rewrite ?H5, ?H6. run_monad.
    split; [reflexivity|]. cbn. reflexivity.
Qed.

(** ** Destruction of a channel *)

(** C7, as stated, fails: for a channel with an open connection the
    poller is unregistered after the volume, the pool context and the
    session have been closed. *)
Lemma destroy_closes_connection_first :
  exists w',
    blockdev_rbd_destroy_cb 1%nat sample_world = Ok (tt, w') /\
    trace w' = [E_rbd_flush (Some 3%nat);
                E_rbd_close (Some 3%nat);
                E_rados_ioctx_destroy (Some 2%nat);
                E_rados_shutdown (Some 1%nat);
                E_spdk_poller_unregister 1%nat] /\
    unregisters_poller_first (trace w') = false.
Proof.
  eexists. split; [vm_compute; reflexivity|]. split; reflexivity.
Qed.

(** C7, amended.  Channel destruction first closes the backend
    connection (flush and close of the volume, destruction of the pool
    context, shutdown of the session, each for a handle that is not
    [NULL]) and unregisters the poller last. *)
Theorem destroy_unregisters_poller_last
  (w : world) (c : addr) (cc : blockdev_rbd_io_channel) :
  chans w !! c = Some cc ->
  blockdev_rbd_destroy_cb c w =
    Ok (tt, set_trace (trace w ++ close_events cc
                         ++ [E_spdk_poller_unregister c]) w) /\
  forallb closes_connection (close_events cc) = true.
Proof.
  intros Hcc. split.
  - unfold blockdev_rbd_destroy_cb.
    erewrite bind_Ok; [|apply load_ch_Some; exact Hcc].
    unfold close_events, blockdev_rbd_exit.
    destruct (image cc), (io_ctx cc), (cluster cc); run_monad;
      rewrite ?app_nil_r; reflexivity.
  - unfold close_events.
    destruct (image cc), (io_ctx cc), (cluster cc); reflexivity.
Qed.

Lemma destroy_unregisters_poller_last_sample :
  blockdev_rbd_destroy_cb 1%nat sample_world =
    Ok (tt, set_trace (trace sample_world ++ close_events sample_channel
                         ++ [E_spdk_poller_unregister 1%nat]) sample_world) /\
  forallb closes_connection (close_events sample_channel) = true.
Proof.
  apply (destroy_unregisters_poller_last sample_world 1%nat sample_channel).
  reflexivity.
Defined.

(** ** Rejected writes *)

(** C6.  A write whose segment count is not 1, or whose first segment
    is not as long as the write, makes [blockdev_rbd_writev] return -1
    with the world as it was (no request field written, no call made, so
    no completion object and no asynchronous write); the submission then
    completes the operation to the framework as failed, at once, and
    that completion is the only event of the submission. *)
Theorem write_with_bad_segments_fails_at_once
  (e : aio_env) (bdev_io : spdk_bdev_io) (w : world) :
  io_type bdev_io = SPDK_BDEV_IO_TYPE_WRITE ->
  u_write_iovcnt bdev_io <> 1 \/
  (exists iov0 rest, u_write_iovs bdev_io = iov0 :: rest /\
                     iov_len iov0 <> u_write_len bdev_io) ->
  blockdev_rbd_writev e (io_ch bdev_io) (driver_ctx bdev_io)
    (u_write_iovs bdev_io) (u_write_iovcnt bdev_io)
    (u_write_len bdev_io) (u_write_offset bdev_io) w = Ok (-1, w) /\
  _blockdev_rbd_submit_request e bdev_io w = Ok (-1, w) /\
  blockdev_rbd_submit_request e bdev_io w =
    Ok (tt, set_trace (trace w ++ [E_spdk_bdev_io_complete (driver_ctx bdev_io)
                                     SPDK_BDEV_IO_STATUS_FAILED]) w).
Proof.
  intros Hty Hbad.
  assert (Hw : blockdev_rbd_writev e (io_ch bdev_io) (driver_ctx bdev_io)
                 (u_write_iovs bdev_io) (u_write_iovcnt bdev_io)
                 (u_write_len bdev_io) (u_write_offset bdev_io) w = Ok (-1, w)).
  { unfold blockdev_rbd_writev.
    destruct (Z.eqb_spec (u_write_iovcnt bdev_io) 1) as [Hcnt|Hcnt]; cbn [negb].
    - destruct Hbad as [Hbad|(iov0 & rest & Hiov & Hlen)]; [contradiction|].
      rewrite Hiov. destruct (Z.eqb_spec (iov_len iov0) (u_write_len bdev_io));
        [contradiction|reflexivity].
    - reflexivity. }
  assert (Hs : _blockdev_rbd_submit_request e bdev_io w = Ok (-1, w)).
  { unfold _blockdev_rbd_submit_request. rewrite Hty.
    erewrite bind_Ok; [|exact Hw]. reflexivity. }
  split; [exact Hw|]. split; [exact Hs|].
  unfold blockdev_rbd_submit_request. erewrite bind_Ok; [|exact Hs].
  reflexivity.
Qed.

Lemma write_with_bad_segments_fails_at_once_sample :
  blockdev_rbd_writev aio_ok (io_ch two_segment_write)
    (driver_ctx two_segment_write) (u_write_iovs two_segment_write)
    (u_write_iovcnt two_segment_write) (u_write_len two_segment_write)
    (u_write_offset two_segment_write) sample_world = Ok (-1, sample_world) /\
  _blockdev_rbd_submit_request aio_ok two_segment_write sample_world =
    Ok (-1, sample_world) /\
  blockdev_rbd_submit_request aio_ok two_segment_write sample_world =
    Ok (tt, set_trace (trace sample_world
                         ++ [E_spdk_bdev_io_complete (driver_ctx two_segment_write)
                               SPDK_BDEV_IO_STATUS_FAILED]) sample_world).
Proof.
  apply (write_with_bad_segments_fails_at_once aio_ok two_segment_write
           sample_world).
  - reflexivity.
  - left. cbn. lia.
Defined.

(** A well-formed write, by contrast, reaches the backend. *)
Example single_segment_write_is_issued :
  exists w',
    blockdev_rbd_submit_request aio_ok
      (mk_bdev_io SPDK_BDEV_IO_TYPE_WRITE 1%nat 11%nat 0 0
         [mk_iovec 4096 4096] 1 4096 0) sample_world = Ok (tt, w') /\
    trace w' = [E_rbd_aio_create_completion 11%nat;
                E_rbd_aio_write (Some 3%nat) 0 4096 (Some 7%nat)].
Proof.
  eexists. split; [vm_compute; reflexivity|reflexivity].
Qed.

(** ** Block size of a configured device *)

Lemma land_0x1ff (x : Z) : Z.land x 0x1ff = x mod 512.
Proof. change 0x1ff with (Z.ones 9). rewrite Z.land_ones by lia. reflexivity. Qed.

(** The test [block_size & 0x1ff] on the converted value is the test
    "multiple of 512" on the value that [strtol] returned. *)
Lemma conf_block_size_accepts (v : string) :
  is_Some (conf_block_size (Some v)) <-> (512 | strtol v).
Proof.
  unfold conf_block_size. rewrite to_uint32_to_int, land_0x1ff.
  rewrite (Z.mod_mod_divide (strtol v) (2 ^ 32) 512)
    by (exists (2 ^ 23); reflexivity).
  rewrite <- Z.mod_divide by lia.
  destruct (Z.eqb_spec (strtol v mod 512) 0) as [H0|H0]; cbn [negb].
  - split; [intros _; exact H0|intros _; eexists; reflexivity].
  - split; [intros [x Hx]; discriminate|intros H; contradiction].
Qed.

(** An accepted value becomes the block size, modulo [2 ^ 32]. *)
Lemma conf_block_size_value (v : string) (bs : Z) :
  conf_block_size (Some v) = Some bs -> bs = strtol v mod 2 ^ 32.
Proof.
  unfold conf_block_size. rewrite to_uint32_to_int.
  destruct (negb _); [discriminate|]. intros [= <-]. reflexivity.
Qed.

(** *** Decimal values *)

Lemma digit_of_pretty_N_char (k : N) :
  (k < 10)%N -> digit_of (pretty_N_char k) = Some (Z.of_N k).
Proof.
  intros Hk.
  assert (k = 0 \/ k = 1 \/ k = 2 \/ k = 3 \/ k = 4 \/ k = 5 \/ k = 6
          \/ k = 7 \/ k = 8 \/ k = 9)%N as Hcases by lia.
  repeat destruct Hcases as [->|Hcases]; try reflexivity.
  subst k. reflexivity.
Qed.

(** Reading the digits that were written for [x] in front of [s] is
    reading [s] with [x] accumulated. *)
Lemma strtol_digits_pretty_N_go (x : N) :
  forall s, strtol_digits 0 (pretty_N_go x s) = strtol_digits (Z.of_N x) s.
Proof.
  induction (N.lt_wf_0 x) as [x _ IH]. intros s.
  destruct (N.eq_dec x 0%N) as [->|Hx].
  - rewrite pretty_N_go_0. reflexivity.
  - rewrite pretty_N_go_step by lia.
    rewrite IH by (apply N.div_lt; lia).
    cbn [strtol_digits].
    rewrite digit_of_pretty_N_char by (apply N.mod_lt; lia).
    f_equal. assert (H10 : (10 <> 0)%N) by lia. pose proof (N.div_mod x 10%N H10). lia.
Qed.

Lemma pretty_N_go_head (x : N) :
  forall s, (0 < x)%N ->
  exists k s', (k < 10)%N /\ pretty_N_go x s = String (pretty_N_char k) s'.
Proof.
  induction (N.lt_wf_0 x) as [x _ IH]. intros s Hx.
  rewrite pretty_N_go_step by exact Hx.
  destruct (N.eq_dec (x `div` 10)%N 0%N) as [H0|H0].
  - rewrite H0, pretty_N_go_0. eexists _, _. split; [|reflexivity].
    apply N.mod_lt. lia.
  - apply IH; [apply N.div_lt; lia|]. apply N.neq_0_lt_0. exact H0.
Qed.

Lemma strtol_unsigned (c : ascii) (s : string) :
  isspace c = false -> c <> "-"%char -> c <> "+"%char ->
  strtol (String c s) =
  Z.max LONG_MIN (Z.min LONG_MAX (strtol_digits 0 (String c s))).
Proof.
  intros Hsp Hm Hp. unfold strtol. cbn [skip_space]. rewrite Hsp.
  destruct c as [[] [] [] [] [] [] [] []]; try reflexivity; congruence.
Qed.

Lemma strtol_minus (s : string) :
  strtol (String "-" s) = Z.max LONG_MIN (Z.min LONG_MAX (- strtol_digits 0 s)).
Proof. reflexivity. Qed.

Lemma pretty_N_char_plain (k : N) :
  isspace (pretty_N_char k) = false /\
  pretty_N_char k <> "-"%char /\ pretty_N_char k <> "+"%char.
Proof.
  unfold pretty_N_char. repeat case_match; repeat split; try reflexivity; discriminate.
Qed.

(** [strtol] reads back the decimal writing of every [long]. *)
Lemma strtol_pretty (n : Z) :
  LONG_MIN <= n <= LONG_MAX -> strtol (pretty n) = n.
Proof.
  intros Hn. destruct n as [|p|p].
  - reflexivity.
  - unfold pretty, pretty_Z, pretty, pretty_positive, pretty, pretty_N.
    destruct (decide (N.pos p = 0%N)) as [Hd|_]; [discriminate|].
    destruct (pretty_N_go_head (N.pos p) "" ltac:(lia)) as (k & s' & Hk & Heq).
    destruct (pretty_N_char_plain k) as (Hsp & Hm & Hp).
    pose proof (strtol_digits_pretty_N_go (N.pos p) "") as Hd.
    rewrite Heq in Hd |- *.
    rewrite strtol_unsigned by assumption. rewrite Hd. cbn [strtol_digits].
    change (Z.of_N (N.pos p)) with (Z.pos p). lia.
  - unfold pretty, pretty_Z, pretty, pretty_positive, pretty, pretty_N.
    destruct (decide (N.pos p = 0%N)) as [Hd|_]; [discriminate|].
    change ("-" +:+ pretty_N_go (N.pos p) "")
      with (String "-" (pretty_N_go (N.pos p) "")).
    rewrite strtol_minus.
    rewrite strtol_digits_pretty_N_go. cbn [strtol_digits].
    change (Z.of_N (N.pos p)) with (Z.pos p). lia.
Qed.

Lemma registered_devices_app (t1 t2 : list event) :
  registered_devices (t1 ++ t2) = registered_devices t1 ++ registered_devices t2.
Proof.
  induction t1 as [|e t1 IH]; [reflexivity|].
  destruct e; cbn; rewrite IH; reflexivity.
Qed.

Lemma substring_all (s : string) (n : nat) :
  (String.length s <= n)%nat -> substring 0 n s = s.
Proof.
  revert n. induction s as [|c s IH]; intros n Hn.
  - destruct n; reflexivity.
  - destruct n; [cbn in Hn; lia|]. cbn. f_equal. apply IH. cbn in Hn. lia.
Qed.

(** The values of a configuration item with a pool and a volume name. *)
Lemma conf_item_values (sp : spdk_conf_section) (i : nat) (pool vol : string)
  (rest : list string) :
  sp !! i = Some (pool :: vol :: rest) ->
  spdk_conf_section_get_nval sp i = Some pool /\
  spdk_conf_section_get_nmval sp i 0 = Some pool /\
  spdk_conf_section_get_nmval sp i 1 = Some vol /\
  spdk_conf_section_get_nmval sp i 2 = rest !! 0%nat.
Proof.
  intros Hsp. unfold spdk_conf_section_get_nval, spdk_conf_section_get_nmval.
  rewrite Hsp. repeat split; reflexivity.
Qed.

(** [blockdev_rbd_init] registers no device. *)
Lemma rbd_init_registers_nothing (e : rados_env) (pool vol : string) :
  registered_devices (rbd_init_events e pool vol) = [].
Proof.
  unfold rbd_init_events, run_trace, blockdev_rbd_init,
    blockdev_rados_context_init.
  destruct (rados_create_ret e <? 0); [reflexivity|].
  destruct (rados_conf_read_file_ret e <? 0); [reflexivity|].
  destruct (rados_connect_ret e <? 0);
    (destruct (rados_ioctx_create_ret e <? 0); [reflexivity|];
     cbn; destruct (rbd_open_ret e <? 0); [reflexivity|];
     cbn; destruct (rbd_stat_ret e <? 0); reflexivity).
Qed.

(** ** Pool records *)

(** Looking a pool up never touches the devices, the counter or the
    registrations. *)
Lemma pool_info_init_run (ok : bool) (nm : string) (w : world) :
  exists r w',
    blockdev_rbd_pool_info_init ok nm w = Ok (r, w') /\
    g_rbds w' = g_rbds w /\
    blockdev_rbd_count w' = blockdev_rbd_count w /\
    registered_devices (trace w') = registered_devices (trace w) /\
    (ok = true -> trace w' = trace w /\ exists p, r = Some p /\ pool_name p = nm).
Proof.
  unfold blockdev_rbd_pool_info_init, bind, get.
  destruct (find _ (g_rbd_pools w)) as [p|] eqn:Hfind.
  - exists (Some p), w. repeat split; try reflexivity.
    exists p. split; [reflexivity|].
    apply find_some in Hfind as [_ Heq]. apply String.eqb_eq. exact Heq.
  - destruct ok; cbn.
    + eexists _, _. split; [reflexivity|]. cbn. repeat split; try reflexivity.
      eexists. split; reflexivity.
    + eexists _, _. split; [reflexivity|]. cbn. repeat split; try reflexivity.
      * rewrite registered_devices_app. cbn. apply app_nil_r.
      * discriminate.
      * discriminate.
Qed.

(** ** Initialisation of the configured devices *)

Section DeviceInitProperties.

Variable NAME_LEN : nat.
Variable PRODUCT_NAME_LEN : nat.

Local Abbreviation create_rbd_disk :=
  (blockdev_create_rbd_disk NAME_LEN PRODUCT_NAME_LEN).
Local Abbreviation init_item := (library_init_item NAME_LEN PRODUCT_NAME_LEN).
Local Abbreviation init_loop := (library_init_loop NAME_LEN PRODUCT_NAME_LEN).
Local Abbreviation library_init :=
  (blockdev_rbd_library_init NAME_LEN PRODUCT_NAME_LEN).

(** The device name given to the [n]-th device created. *)
Local Abbreviation ceph_name n := (snprintf NAME_LEN ("Ceph" +:+ pretty n)).

Lemma create_rbd_disk_run (d : blockdev_rbd) (bs : Z) (w : world) :
  bs <> 0 ->
  create_rbd_disk d bs w =
  Ok ((0, mk_rbd (mk_bdev (ceph_name (blockdev_rbd_count w))
                    (snprintf PRODUCT_NAME_LEN "Ceph rbd") 0 bs
                    (info_size (info d) / bs))
                 (rbd_name d) (info d) (pool_info d)),
      set_blockdev_rbd_count (to_int (blockdev_rbd_count w + 1)) w).
Proof.
  intros Hbs. unfold blockdev_create_rbd_disk.
  unfold bind at 1. cbn [get]. unfold bind at 1. cbn [modify].
  destruct (Z.eqb_spec bs 0); [contradiction|]. reflexivity.
Qed.

(** The turn of the loop for an item that goes all the way. *)
Lemma init_item_success (sp : spdk_conf_section) (e : init_env) (i : nat)
  (pool vol : string) (rest : list string) (bs : Z) (w : world) :
  sp !! i = Some (pool :: vol :: rest) ->
  conf_block_size (rest !! 0%nat) = Some bs -> bs <> 0 ->
  pool_calloc_ok e = true -> rbd_calloc_ok e = true ->
  rbd_init_ret (backend e) pool vol = 0 ->
  exists w' p,
    init_item sp e i w = Ok (Continue, w') /\
    pool_name p = pool /\
    g_rbds w' =
      g_rbds w ++
      [mk_rbd (mk_bdev (ceph_name (blockdev_rbd_count w))
                 (snprintf PRODUCT_NAME_LEN "Ceph rbd") 0 bs
                 (rbd_stat_size (backend e) / bs))
              vol (mk_info (rbd_stat_size (backend e))) p] /\
    blockdev_rbd_count w' = to_int (blockdev_rbd_count w + 1) /\
    registered_devices (trace w') =
      registered_devices (trace w) ++ [ceph_name (blockdev_rbd_count w)].
Proof.
  intros Hsp Hbs Hnz Hpc Hrc Hret.
  destruct (pool_info_init_run (pool_calloc_ok e) pool w) as
    (r & w1 & Hpool & Hg1 & Hc1 & _ & Hok).
  destruct (Hok Hpc) as (Ht1 & p & -> & Hp).
  destruct (blockdev_rbd_init_frame (backend e) (pool_name p) vol (mk_info 0) w1)
    as (inf' & Hinit & Hinf & _).
  rewrite Hp in Hinit, Hinf. rewrite Hret in Hinit. specialize (Hinf Hret). subst inf'.
  destruct (conf_item_values sp i pool vol rest Hsp) as (Hv & Hv0 & Hv1 & Hv2).
  unfold library_init_item. rewrite Hv, Hv0, Hv1, Hv2.
  erewrite bind_Ok; [|exact Hpool].
  rewrite Hbs, Hrc. cbn [negb].
  cbn [info]. rewrite Hp.
  erewrite bind_Ok; [|exact Hinit].
  cbn [Z.ltb Z.compare].
  erewrite bind_Ok; [|apply create_rbd_disk_run; exact Hnz].
  cbn [Z.ltb Z.compare].
  eexists _, p. split; [run_monad; reflexivity|].
  split; [exact Hp|]. cbn.
  rewrite Hg1, Hc1, Ht1. split; [reflexivity|]. split; [reflexivity|].
  rewrite !registered_devices_app. cbn.
  rewrite rbd_init_registers_nothing. reflexivity.
Qed.

(** C9.  An item with a pool name, a volume name and no block size, whose
    allocations and [blockdev_rbd_init] succeed, creates one device: its
    block size is 512, its block count is the size that [rbd_stat]
    reported divided by 512, and its name is [Ceph<n>] where [n] is the
    value of the process-wide counter, which the creation increments by
    one (the name buffer being long enough for the name, and the counter
    below [INT_MAX]).  The device is appended to the device list and
    registered under that name. *)
Theorem device_without_block_size
  (sp : spdk_conf_section) (e : init_env) (i : nat) (pool vol : string)
  (w : world) :
  sp !! i = Some [pool; vol] ->
  pool_calloc_ok e = true -> rbd_calloc_ok e = true ->
  rbd_init_ret (backend e) pool vol = 0 ->
  0 <= blockdev_rbd_count w < INT_MAX ->
  (String.length ("Ceph" +:+ pretty (blockdev_rbd_count w)) < NAME_LEN)%nat ->
  exists w' d,
    init_item sp e i w = Ok (Continue, w') /\
    g_rbds w' = g_rbds w ++ [d] /\
    rbd_name d = vol /\ pool_name (pool_info d) = pool /\
    blocklen (disk d) = 512 /\
    blockcnt (disk d) = rbd_stat_size (backend e) / 512 /\
    name (disk d) = "Ceph" +:+ pretty (blockdev_rbd_count w) /\
    blockdev_rbd_count w' = blockdev_rbd_count w + 1 /\
    registered_devices (trace w') =
      registered_devices (trace w) ++ ["Ceph" +:+ pretty (blockdev_rbd_count w)].
Proof.
  intros Hsp Hpc Hrc Hret Hcnt Hlen.
  destruct (init_item_success sp e i pool vol [] 512 w Hsp) as
    (w' & p & Hrun & Hp & Hg & Hc & Hreg); try assumption; try reflexivity.
  { lia. }
  assert (Hname : ceph_name (blockdev_rbd_count w)
                  = "Ceph" +:+ pretty (blockdev_rbd_count w)).
  { unfold snprintf. apply substring_all. lia. }
  rewrite Hname in Hg, Hreg.
  eexists w', _. split; [exact Hrun|]. split; [exact Hg|]. cbn.
  repeat split; try reflexivity; try assumption.
  rewrite Hc. apply to_int_id. unfold INT_MIN, INT_MAX in *. lia.
Qed.

(** C10.  The value 0 passes the block-size test, and creating a disk
    with block size 0 divides by zero: an item whose block size is
    configured as ["0"] and whose volume could be opened makes the whole
    initialisation fault. *)
Theorem zero_block_size_divides_by_zero :
  Z.land 0 0x1ff = 0 /\
  conf_block_size (Some "0") = Some 0 /\
  (forall d w, create_rbd_disk d 0 w = Fault DivisionByZero) /\
  (forall sp e i pool vol rest w,
     sp !! i = Some (pool :: vol :: "0" :: rest) ->
     pool_calloc_ok e = true -> rbd_calloc_ok e = true ->
     rbd_init_ret (backend e) pool vol = 0 ->
     init_item sp e i w = Fault DivisionByZero) /\
  (forall env pool vol w,
     pool_calloc_ok (env 0%nat) = true -> rbd_calloc_ok (env 0%nat) = true ->
     rbd_init_ret (backend (env 0%nat)) pool vol = 0 ->
     library_init (Some [[pool; vol; "0"]]) env w = Fault DivisionByZero).
Proof.
  assert (Hdisk : forall d w, create_rbd_disk d 0 w = Fault DivisionByZero).
  { intros d w. reflexivity. }
  assert (Hitem : forall sp e i pool vol rest w,
     sp !! i = Some (pool :: vol :: "0" :: rest) ->
     pool_calloc_ok e = true -> rbd_calloc_ok e = true ->
     rbd_init_ret (backend e) pool vol = 0 ->
     init_item sp e i w = Fault DivisionByZero).
  { intros sp e i pool vol rest w Hsp Hpc Hrc Hret.
    destruct (pool_info_init_run (pool_calloc_ok e) pool w) as
      (r & w1 & Hpool & _ & _ & _ & Hok).
    destruct (Hok Hpc) as (_ & p & -> & Hp).
    destruct (blockdev_rbd_init_frame (backend e) (pool_name p) vol (mk_info 0) w1)
      as (inf' & Hinit & _ & _).
    rewrite Hp in Hinit. rewrite Hret in Hinit.
    destruct (conf_item_values sp i pool vol _ Hsp) as (Hv & Hv0 & Hv1 & Hv2).
    unfold library_init_item. rewrite Hv, Hv0, Hv1, Hv2.
    erewrite bind_Ok; [|exact Hpool].
    cbn [lookup list_lookup].
    change (conf_block_size (Some "0")) with (Some 0).
    rewrite Hrc. cbn [negb info]. rewrite Hp.
    erewrite bind_Ok; [|exact Hinit].
    cbn [Z.ltb Z.compare].
    apply bind_Fault. apply Hdisk. }
  split; [reflexivity|]. split; [reflexivity|]. split; [exact Hdisk|].
  split; [exact Hitem|].
  intros env pool vol w Hpc Hrc Hret.
  unfold blockdev_rbd_library_init. cbn [length library_init_loop].
  apply bind_Fault. apply (Hitem _ _ _ pool vol []); try assumption. reflexivity.
Qed.

(** *** Acceptance and rejection of a block size *)

(** The turn of the loop for an item whose block size fails the test of
    line 544: the allocation of the device and the backend are not reached. *)
Lemma init_item_block_size_rejected (sp : spdk_conf_section) (e : init_env)
  (i : nat) (pool vol v : string) (rest : list string) (w : world) :
  sp !! i = Some (pool :: vol :: v :: rest) ->
  conf_block_size (Some v) = None ->
  pool_calloc_ok e = true ->
  block_size_rejected NAME_LEN PRODUCT_NAME_LEN sp e i w.
Proof.
  intros Hsp Hrej Hpc.
  destruct (conf_item_values sp i pool vol _ Hsp) as (Hv & Hv0 & Hv1 & Hv2).
  destruct (pool_info_init_run (pool_calloc_ok e) pool w) as
    (r & w1 & Hpool & Hg & Hc & _ & Hok).
  destruct (Hok Hpc) as (Ht & p & -> & _).
  unfold block_size_rejected, library_init_item. rewrite Hv, Hv0, Hv1, Hv2.
  erewrite bind_Ok; [|exact Hpool].
  cbn [lookup list_lookup]. rewrite Hrej.
  eexists. split; [run_monad; reflexivity|]. cbn.
  rewrite Ht, Hg, Hc. repeat split; reflexivity.
Qed.

(** The turn of the loop for an item whose block size passes the test
    and is not zero, on a ready backend. *)
Lemma init_item_block_size_accepted (sp : spdk_conf_section) (e : init_env)
  (i : nat) (pool vol : string) (rest : list string) (bs : Z) (w : world) :
  sp !! i = Some (pool :: vol :: rest) ->
  conf_block_size (rest !! 0%nat) = Some bs -> bs <> 0 ->
  backend_ready e pool vol ->
  block_size_accepted NAME_LEN PRODUCT_NAME_LEN sp e i w bs.
Proof.
  intros Hsp Hbs Hnz (Hpc & Hrc & Hret).
  destruct (init_item_success sp e i pool vol rest bs w Hsp Hbs Hnz Hpc Hrc Hret)
    as (w' & p & Hrun & _ & Hg & _ & Hreg).
  exists w'. eexists. split; [exact Hrun|]. split; [exact Hg|].
  cbn [disk blocklen blockcnt name]. split; [reflexivity|].
  split; [reflexivity|exact Hreg].
Qed.

(** The turn of the loop for an item whose block size passes the test
    and is zero, on a ready backend: the division of line 447. *)
Lemma init_item_block_size_zero (sp : spdk_conf_section) (e : init_env)
  (i : nat) (pool vol : string) (rest : list string) (w : world) :
  sp !! i = Some (pool :: vol :: rest) ->
  conf_block_size (rest !! 0%nat) = Some 0 ->
  backend_ready e pool vol ->
  init_item sp e i w = Fault DivisionByZero.
Proof.
  intros Hsp Hbs (Hpc & Hrc & Hret).
  destruct (pool_info_init_run (pool_calloc_ok e) pool w) as
    (r & w1 & Hpool & _ & _ & _ & Hok).
  destruct (Hok Hpc) as (_ & p & -> & Hp).
  destruct (blockdev_rbd_init_frame (backend e) (pool_name p) vol (mk_info 0) w1)
    as (inf' & Hinit & _ & _).
  rewrite Hp in Hinit. rewrite Hret in Hinit.
  destruct (conf_item_values sp i pool vol _ Hsp) as (Hv & Hv0 & Hv1 & Hv2).
  unfold library_init_item. rewrite Hv, Hv0, Hv1, Hv2.
  erewrite bind_Ok; [|exact Hpool].
  rewrite Hbs, Hrc. cbn [negb info]. rewrite Hp.
  erewrite bind_Ok; [|exact Hinit].
  cbn [Z.ltb Z.compare].
  apply bind_Fault. reflexivity.
Qed.

(** What the turn of the loop does with a block size written in decimal
    that fits a [long]: one of three things, by the value alone. *)
Lemma init_item_decimal_block_size (sp : spdk_conf_section) (e : init_env)
  (i : nat) (pool vol : string) (rest : list string) (n : Z) (w : world) :
  LONG_MIN <= n <= LONG_MAX ->
  sp !! i = Some (pool :: vol :: pretty n :: rest) ->
  backend_ready e pool vol ->
  (~ (512 | n) /\ block_size_rejected NAME_LEN PRODUCT_NAME_LEN sp e i w) \/
  ((512 | n) /\ n mod 2 ^ 32 <> 0 /\
   block_size_accepted NAME_LEN PRODUCT_NAME_LEN sp e i w (n mod 2 ^ 32)) \/
  ((512 | n) /\ n mod 2 ^ 32 = 0 /\ init_item sp e i w = Fault DivisionByZero).
Proof.
  intros Hn Hsp Hready.
  pose proof (conf_block_size_accepts (pretty n)) as Hacc.
  rewrite strtol_pretty in Hacc by exact Hn.
  destruct (conf_block_size (Some (pretty n))) as [bs|] eqn:Hbs.
  - assert (Hdiv : (512 | n)) by (apply Hacc; eexists; reflexivity).
    pose proof (conf_block_size_value _ _ Hbs) as Hval.
    rewrite strtol_pretty in Hval by exact Hn. subst bs.
    right. destruct (Z.eq_dec (n mod 2 ^ 32) 0) as [Hz|Hz].
    + right. split; [exact Hdiv|]. split; [exact Hz|].
      apply (init_item_block_size_zero sp e i pool vol (pretty n :: rest));
        [exact Hsp| |exact Hready].
      cbn [lookup list_lookup]. rewrite Hbs, Hz. reflexivity.
    + left. split; [exact Hdiv|]. split; [exact Hz|].
      apply (init_item_block_size_accepted sp e i pool vol (pretty n :: rest));
        [exact Hsp|exact Hbs|exact Hz|exact Hready].
  - left. split.
    + intros Hdiv. apply Hacc in Hdiv. destruct Hdiv as [x Hx]. discriminate.
    + destruct Hready as (Hpc & _).
      exact (init_item_block_size_rejected sp e i pool vol _ rest w Hsp Hbs Hpc).
Qed.

(** C8, amended.  For every configured block size written in decimal
    that fits a [long], on a backend whose allocations and bootstrap
    succeed, the turn of the device rejects the value (error logged,
    [cleanup], no device created) exactly when it is not a multiple of
    512, and accepts it (the device is created and registered with the
    value modulo [2 ^ 32] as block size) exactly when it is a multiple
    of 512 and not of [2 ^ 32]; a value between 1 and [2 ^ 32 - 1] is
    accepted with itself as block size exactly when it is a multiple of
    512; a multiple of [2 ^ 32] passes the test and the creation of the
    disk divides by zero.  The test itself accepts a
    configured string exactly when the value that [strtol] reads from it
    is a multiple of 512.  In particular 511 and 1023 are rejected, 512
    and 4096 are accepted with these block sizes, and an item without
    block size gets 512. *)
Theorem block_size_multiple_of_512 :
  (forall v, is_Some (conf_block_size (Some v)) <-> (512 | strtol v)) /\
  (forall sp e i pool vol rest n w,
     LONG_MIN <= n <= LONG_MAX ->
     sp !! i = Some (pool :: vol :: pretty n :: rest) ->
     backend_ready e pool vol ->
     (is_Some (conf_block_size (Some (pretty n))) <-> (512 | n)) /\
     (block_size_rejected NAME_LEN PRODUCT_NAME_LEN sp e i w <-> ~ (512 | n)) /\
     (block_size_accepted NAME_LEN PRODUCT_NAME_LEN sp e i w (n mod 2 ^ 32) <->
      (512 | n) /\ n mod 2 ^ 32 <> 0) /\
     (0 < n < 2 ^ 32 ->
      (block_size_accepted NAME_LEN PRODUCT_NAME_LEN sp e i w n <-> (512 | n))) /\
     ((512 | n) -> n mod 2 ^ 32 = 0 ->
      init_item sp e i w = Fault DivisionByZero)) /\
  (forall sp e i pool vol rest w,
     sp !! i = Some (pool :: vol :: "511" :: rest) ->
     pool_calloc_ok e = true ->
     block_size_rejected NAME_LEN PRODUCT_NAME_LEN sp e i w) /\
  (forall sp e i pool vol rest w,
     sp !! i = Some (pool :: vol :: "1023" :: rest) ->
     pool_calloc_ok e = true ->
     block_size_rejected NAME_LEN PRODUCT_NAME_LEN sp e i w) /\
  (forall sp e i pool vol rest w,
     sp !! i = Some (pool :: vol :: "512" :: rest) ->
     backend_ready e pool vol ->
     block_size_accepted NAME_LEN PRODUCT_NAME_LEN sp e i w 512) /\
  (forall sp e i pool vol rest w,
     sp !! i = Some (pool :: vol :: "4096" :: rest) ->
     backend_ready e pool vol ->
     block_size_accepted NAME_LEN PRODUCT_NAME_LEN sp e i w 4096) /\
  (forall sp e i pool vol w,
     sp !! i = Some [pool; vol] ->
     backend_ready e pool vol ->
     block_size_accepted NAME_LEN PRODUCT_NAME_LEN sp e i w 512).
Proof.
  split; [exact conf_block_size_accepts|].
  split.
  { intros sp e i pool vol rest n w Hn Hsp Hready.
    split.
    { rewrite conf_block_size_accepts, strtol_pretty by exact Hn. reflexivity. }
    pose proof (init_item_decimal_block_size sp e i pool vol rest n w
                  Hn Hsp Hready) as Hcases.
    split; [|split; [|split]].
    - split.
      + intros (w1 & Hrun & _).
        destruct Hcases as [(Hnd & _)|[(_ & _ & (w2 & d & Hrun2 & _))|(_ & _ & Hf)]].
        * exact Hnd.
        * congruence.
        * congruence.
      + intros Hnd.
        destruct Hcases as [(_ & Hrej)|[(Hd & _)|(Hd & _)]];
          [exact Hrej|contradiction|contradiction].
    - split.
      + intros (w1 & d & Hrun & _).
        destruct Hcases as [(_ & (w2 & Hrun2 & _))|[(Hd & Hz & _)|(_ & _ & Hf)]].
        * congruence.
        * split; assumption.
        * congruence.
      + intros (Hd & Hz).
        destruct Hcases as [(Hnd & _)|[(_ & _ & Hacc)|(_ & Hz' & _)]];
          [contradiction|exact Hacc|contradiction].
    - intros Hr.
      assert (Hsmall : n mod 2 ^ 32 = n) by (apply Z.mod_small; lia).
      split.
      + intros (w1 & d & Hrun & _).
        destruct Hcases as [(_ & (w2 & Hrun2 & _))|[(Hd & _)|(_ & _ & Hf)]].
        * congruence.
        * exact Hd.
        * congruence.
      + intros Hd.
        destruct Hcases as [(Hnd & _)|[(_ & _ & Hacc)|(_ & Hz' & _)]].
        * contradiction.
        * rewrite Hsmall in Hacc. exact Hacc.
        * lia.
    - intros Hd Hz.
      destruct Hcases as [(Hnd & _)|[(_ & Hz' & _)|(_ & _ & Hf)]];
        [contradiction|contradiction|exact Hf]. }
  split.
  { intros sp e i pool vol rest w Hsp Hpc.
    apply (init_item_block_size_rejected sp e i pool vol "511" rest w Hsp);
      [reflexivity|exact Hpc]. }
  split.
  { intros sp e i pool vol rest w Hsp Hpc.
    apply (init_item_block_size_rejected sp e i pool vol "1023" rest w Hsp);
      [reflexivity|exact Hpc]. }
  split.
  { intros sp e i pool vol rest w Hsp Hready.
    apply (init_item_block_size_accepted sp e i pool vol ("512" :: rest) 512 w Hsp);
      [reflexivity|discriminate|exact Hready]. }
  split.
  { intros sp e i pool vol rest w Hsp Hready.
    apply (init_item_block_size_accepted sp e i pool vol ("4096" :: rest) 4096 w Hsp);
      [reflexivity|discriminate|exact Hready]. }
  intros sp e i pool vol w Hsp Hready.
  apply (init_item_block_size_accepted sp e i pool vol [] 512 w Hsp);
    [reflexivity|discriminate|exact Hready].
Qed.

(** A turn of the loop looks at its own item only. *)
Lemma init_item_ext (sp sp' : spdk_conf_section) (e : init_env) (i : nat) :
  sp' !! i = sp !! i -> init_item sp' e i = init_item sp e i.
Proof.
  intros H. unfold library_init_item, spdk_conf_section_get_nval,
    spdk_conf_section_get_nmval. rewrite H. reflexivity.
Qed.

Lemma item_ok_run (sp : spdk_conf_section) (e : init_env) (i : nat) (w : world) :
  item_ok sp e i ->
  exists w',
    init_item sp e i w = Ok (Continue, w') /\
    length (registered_devices (trace w')) =
      S (length (registered_devices (trace w))).
Proof.
  intros (pool & vol & rest & bs & Hsp & Hbs & Hnz & Hpc & Hrc & Hret).
  destruct (init_item_success sp e i pool vol rest bs w Hsp Hbs Hnz Hpc Hrc Hret)
    as (w' & p & Hrun & _ & _ & _ & Hreg).
  exists w'. split; [exact Hrun|]. rewrite Hreg, length_app. cbn. lia.
Qed.

(** The turn of the loop for an item whose backend connection fails:
    [goto cleanup], with no device created or registered. *)
Lemma item_conn_fails_run (sp : spdk_conf_section) (e : init_env) (i : nat)
  (w : world) :
  item_conn_fails sp e i ->
  exists w',
    init_item sp e i w = Ok (Cleanup, w') /\
    g_rbds w' = g_rbds w /\
    registered_devices (trace w') = registered_devices (trace w).
Proof.
  intros (pool & vol & rest & bs & Hsp & Hbs & Hpc & Hrc & Hret).
  destruct (pool_info_init_run (pool_calloc_ok e) pool w) as
    (r & w1 & Hpool & Hg1 & _ & Hreg1 & Hok).
  destruct (Hok Hpc) as (_ & p & -> & Hp).
  destruct (blockdev_rbd_init_frame (backend e) (pool_name p) vol (mk_info 0) w1)
    as (inf' & Hinit & _ & Hval).
  rewrite Hp in Hinit.
  destruct Hval as [Hval|Hval]; rewrite Hp in Hval; [lia|].
  rewrite Hval in Hinit.
  destruct (conf_item_values sp i pool vol rest Hsp) as (Hv & Hv0 & Hv1 & Hv2).
  unfold library_init_item. rewrite Hv, Hv0, Hv1, Hv2.
  erewrite bind_Ok; [|exact Hpool].
  rewrite Hbs, Hrc. cbn [negb info]. rewrite Hp.
  erewrite bind_Ok; [|exact Hinit].
  eexists. split; [run_monad; reflexivity|]. cbn.
  split; [exact Hg1|].
  rewrite !registered_devices_app, rbd_init_registers_nothing, Hreg1.
  cbn. rewrite !app_nil_r. reflexivity.
Qed.

(** The loop, entered at item [k] with the items from [k] up to [i]
    going through and the connection of item [i] failing: it tears the
    lists down and returns -1 after [i - k] more registrations, and it
    does the same on any configuration with the same items up to [i]. *)
Lemma init_loop_stops_at (sp : spdk_conf_section) (env : nat -> init_env)
  (i : nat) :
  (forall j, (j < i)%nat -> item_ok sp (env j) j) ->
  item_conn_fails sp (env i) i ->
  forall (n k : nat) (w : world) (fuel fuel' : nat) (sp' : spdk_conf_section),
    (k + n = i)%nat -> (n < fuel)%nat -> (n < fuel')%nat ->
    (forall j, (j <= i)%nat -> sp' !! j = sp !! j) ->
    exists w',
      init_loop fuel sp env k w = Ok (-1, w') /\
      init_loop fuel' sp' env k w = Ok (-1, w') /\
      g_rbds w' = [] /\ g_rbd_pools w' = [] /\
      length (registered_devices (trace w')) =
        (length (registered_devices (trace w)) + n)%nat.
Proof.
  intros Hok Hfail. induction n as [|n IH];
    intros k w fuel fuel' sp' Hk Hf Hf' Hagree.
  - assert (k = i) by lia. subst k.
    destruct fuel as [|fuel]; [lia|]. destruct fuel' as [|fuel']; [lia|].
    destruct (item_conn_fails_run sp (env i) i w Hfail) as (w1 & Hrun & _ & Hreg).
    exists (set_g_rbd_pools [] (set_g_rbds [] w1)).
    cbn [library_init_loop].
    rewrite (init_item_ext sp sp') by (apply Hagree; lia).
    erewrite !bind_Ok; [|exact Hrun|exact Hrun].
    split; [reflexivity|]. split; [reflexivity|]. cbn.
    split; [reflexivity|]. split; [reflexivity|]. rewrite Hreg. lia.
  - destruct fuel as [|fuel]; [lia|]. destruct fuel' as [|fuel']; [lia|].
    destruct (item_ok_run sp (env k) k w) as (w1 & Hrun & Hreg);
      [apply Hok; lia|].
    destruct (IH (S k) w1 fuel fuel' sp') as (w' & H1 & H2 & Hg & Hp & Hlen);
      try lia; [exact Hagree|].
    exists w'. cbn [library_init_loop].
    rewrite (init_item_ext sp sp') by (apply Hagree; lia).
    erewrite !bind_Ok; [|exact Hrun|exact Hrun].
    split; [exact H1|]. split; [exact H2|]. split; [exact Hg|].
    split; [exact Hp|]. rewrite Hlen, Hreg. lia.
Qed.

(** C4, amended.  When the backend connection fails for item [i] of the
    configuration, the items before it having gone through, the device
    of item [i] is not registered and initialisation stops there: the
    device list and the pool list are emptied and the result is -1, after
    exactly the [i] registrations of the earlier items.  No later item is
    processed: the outcome is that of the configuration cut after item
    [i]. *)
Theorem library_init_stops_at_failed_connection
  (sp : spdk_conf_section) (env : nat -> init_env) (i : nat) (w : world) :
  (forall j, (j < i)%nat -> item_ok sp (env j) j) ->
  item_conn_fails sp (env i) i ->
  exists w',
    library_init (Some sp) env w = Ok (-1, w') /\
    g_rbds w' = [] /\ g_rbd_pools w' = [] /\
    length (registered_devices (trace w')) =
      (length (registered_devices (trace w)) + i)%nat /\
    library_init (Some (take (S i) sp)) env w = Ok (-1, w').
Proof.
  intros Hok Hfail.
  assert (Hi : (i < length sp)%nat).
  { destruct Hfail as (pool & vol & rest & bs & Hsp & _).
    eapply lookup_lt_Some. exact Hsp. }
  destruct (init_loop_stops_at sp env i Hok Hfail i 0%nat w
              (S (length sp)) (S (length (take (S i) sp))) (take (S i) sp))
    as (w' & H1 & H2 & Hg & Hp & Hlen).
  - lia.
  - lia.
  - rewrite length_take. lia.
  - intros j Hj. apply lookup_take_lt. lia.
  - exists w'. unfold blockdev_rbd_library_init.
    split; [exact H1|]. split; [exact Hg|]. split; [exact Hp|].
    split; [exact Hlen|exact H2].
Qed.

End DeviceInitProperties.

(** ** The sample configuration *)

(** C8, as stated, fails beyond the range of [long].  2 ^ 63 is a
    multiple of 512, but [strtol] saturates at [LONG_MAX], whose
    conversion fails the test: on a ready backend the item is rejected
    and initialisation returns -1 with no device registered.  The other
    way round, [- 2 ^ 63 - 1] is no multiple of 512, but [strtol]
    saturates at [LONG_MIN], whose conversion, 0, passes the test. *)
Lemma block_size_beyond_long_range :
  pretty (2 ^ 63) = "9223372036854775808" /\
  (512 | 2 ^ 63) /\
  strtol "9223372036854775808" = LONG_MAX /\
  conf_block_size (Some "9223372036854775808") = None /\
  backend_ready (sample_env 0%nat) "rbd" "vol0" /\
  block_size_rejected 16 50 oversized_conf (sample_env 0%nat) 0%nat
    empty_world /\
  (exists w',
     blockdev_rbd_library_init 16 50 (Some oversized_conf) sample_env
       empty_world = Ok (-1, w') /\
     g_rbds w' = [] /\ registered_devices (trace w') = []) /\
  pretty (- 2 ^ 63 - 1) = "-9223372036854775809" /\
  ~ (512 | - 2 ^ 63 - 1) /\
  strtol "-9223372036854775809" = LONG_MIN /\
  conf_block_size (Some "-9223372036854775809") = Some 0 /\
  library_init_item 16 50 undersized_conf (sample_env 0%nat) 0%nat empty_world
    = Fault DivisionByZero /\
  ~ (forall n : Z, is_Some (conf_block_size (Some (pretty n))) <-> (512 | n)).
Proof.
  assert (Hdiv : (512 | 2 ^ 63)) by (exists (2 ^ 54); reflexivity).
  assert (Hrej : conf_block_size (Some "9223372036854775808") = None)
    by (vm_compute; reflexivity).
  split; [vm_compute; reflexivity|]. split; [exact Hdiv|].
  split; [vm_compute; reflexivity|]. split; [exact Hrej|].
  split; [repeat split; vm_compute; reflexivity|].
  split; [eexists; repeat split; vm_compute; reflexivity|].
  split; [eexists; repeat split; vm_compute; reflexivity|].
  split; [vm_compute; reflexivity|].
  split; [intros [k Hk]; lia|].
  split; [vm_compute; reflexivity|].
  split; [vm_compute; reflexivity|].
  split; [vm_compute; reflexivity|].
  intros Hall. apply (Hall (2 ^ 63)) in Hdiv.
  change (pretty (2 ^ 63)) with "9223372036854775808" in Hdiv.
  rewrite Hrej in Hdiv. destruct Hdiv as [x Hx]. discriminate.
Qed.

(** The third item of the sample configuration, with block size 4096 on
    a healthy volume. *)
Lemma block_size_multiple_of_512_sample :
  (512 | 4096) /\
  block_size_accepted 16 50 sample_conf (sample_env 2%nat) 2%nat empty_world
    4096.
Proof.
  assert (Hdiv : (512 | 4096)) by (exists 8; reflexivity).
  split; [exact Hdiv|].
  destruct (block_size_multiple_of_512 16 50) as (_ & Hdec & _).
  destruct (Hdec sample_conf (sample_env 2%nat) 2%nat "rbd" "vol2" [] 4096
              empty_world) as (_ & _ & _ & Hsame & _).
  - unfold LONG_MIN, LONG_MAX. lia.
  - reflexivity.
  - repeat split; reflexivity.
  - apply Hsame; [lia|exact Hdiv].
Defined.

(** C4, as stated, fails: the volume of item 1 cannot be opened and item
    2 is sound, yet initialisation ends at item 1 with -1; the trace
    holds nothing of item 2, and the device of item 0, registered as
    [Ceph0], is gone from the device list. *)
Lemma failed_connection_stops_library_init :
  item_ok sample_conf (sample_env 0%nat) 0%nat /\
  item_conn_fails sample_conf (sample_env 1%nat) 1%nat /\
  item_ok sample_conf (sample_env 2%nat) 2%nat /\
  exists w',
    blockdev_rbd_library_init 16 50 (Some sample_conf) sample_env empty_world
      = Ok (-1, w') /\
    g_rbds w' = [] /\
    registered_devices (trace w') = ["Ceph0"] /\
    trace w' =
      [E_rados_create; E_rados_conf_read_file (Some 1%nat);
       E_rados_connect (Some 1%nat);
       E_rados_ioctx_create (Some 1%nat) "rbd";
       E_rbd_open (Some 2%nat) "vol0"; E_rbd_stat (Some 3%nat);
       E_rbd_close (Some 3%nat);
       E_SPDK_NOTICELOG "Add %s rbd disk to lun";
       E_spdk_io_device_register "Ceph0"; E_spdk_bdev_register "Ceph0";
       E_rados_create; E_rados_conf_read_file (Some 1%nat);
       E_rados_connect (Some 1%nat);
       E_rados_ioctx_create (Some 1%nat) "rbd";
       E_rbd_open (Some 2%nat) "missing";
       E_SPDK_ERRLOG "Failed to open specified rbd device";
       E_rados_ioctx_destroy (Some 2%nat); E_rados_shutdown (Some 1%nat);
       E_SPDK_ERRLOG "Failed to init rbd device"].
Proof.
  split; [|split; [|split]].
  - exists "rbd", "vol0", [], 512. repeat split; try reflexivity. lia.
  - exists "rbd", "missing", [], 512. repeat split; reflexivity.
  - exists "rbd", "vol2", ["4096"], 4096. repeat split; try reflexivity. lia.
  - eexists. split; [vm_compute; reflexivity|]. repeat split; reflexivity.
Qed.

Lemma library_init_stops_at_failed_connection_sample :
  exists w',
    blockdev_rbd_library_init 16 50 (Some sample_conf) sample_env empty_world
      = Ok (-1, w') /\
    g_rbds w' = [] /\ g_rbd_pools w' = [] /\
    length (registered_devices (trace w')) =
      (length (registered_devices (trace empty_world)) + 1)%nat /\
    blockdev_rbd_library_init 16 50 (Some (take 2 sample_conf)) sample_env
      empty_world = Ok (-1, w').
Proof.
  apply (library_init_stops_at_failed_connection 16 50 sample_conf sample_env
           1%nat empty_world).
  - intros j Hj. assert (j = 0%nat) as -> by lia.
    exists "rbd", "vol0", [], 512. repeat split; try reflexivity. lia.
  - exists "rbd", "missing", [], 512. repeat split; reflexivity.
Defined.

Lemma device_without_block_size_sample :
  exists w' d,
    library_init_item 16 50 sample_conf (sample_env 0%nat) 0%nat empty_world
      = Ok (Continue, w') /\
    g_rbds w' = g_rbds empty_world ++ [d] /\
    rbd_name d = "vol0" /\ pool_name (pool_info d) = "rbd" /\
    blocklen (disk d) = 512 /\
    blockcnt (disk d) = rbd_stat_size (backend (sample_env 0%nat)) / 512 /\
    name (disk d) = "Ceph" +:+ pretty (blockdev_rbd_count empty_world) /\
    blockdev_rbd_count w' = blockdev_rbd_count empty_world + 1 /\
    registered_devices (trace w') =
      registered_devices (trace empty_world)
        ++ ["Ceph" +:+ pretty (blockdev_rbd_count empty_world)].
Proof.
  apply (device_without_block_size 16 50 sample_conf (sample_env 0%nat) 0%nat
           "rbd" "vol0" empty_world).
  - reflexivity.
  - reflexivity.
  - reflexivity.
  - reflexivity.
  - unfold INT_MAX. cbn. lia.
  - vm_compute. lia.
Defined.

(** With all three volumes healthy the devices are numbered in the order
    of the configuration, with the geometry of their items. *)
Example sample_conf_all_healthy :
  exists w',
    blockdev_rbd_library_init 16 50 (Some sample_conf)
      (fun _ => mk_init_env true true (healthy 1048576)) empty_world
      = Ok (0, w') /\
    registered_devices (trace w') = ["Ceph0"; "Ceph1"; "Ceph2"] /\
    map (fun d => (name (disk d), blocklen (disk d), blockcnt (disk d)))
        (g_rbds w') =
      [("Ceph0", 512, 2048); ("Ceph1", 512, 2048); ("Ceph2", 4096, 256)] /\
    blockdev_rbd_count w' = 3.
Proof.
  eexists. split; [vm_compute; reflexivity|]. repeat split; reflexivity.
Qed.

(** Without a [[Ceph]] section nothing is initialised. *)
Example no_ceph_section (env : nat -> init_env) (w : world) :
  blockdev_rbd_library_init 16 50 None env w = Ok (0, w).
Proof. reflexivity. Qed.

(** ** The loop bound of the initialisation *)

Section LoopBound.

Variable NAME_LEN : nat.
Variable PRODUCT_NAME_LEN : nat.

(** Only an item that exists lets the loop go on. *)
Lemma init_item_continue_lt (sp : spdk_conf_section) (e : init_env) (i : nat)
  (w w' : world) :
  library_init_item NAME_LEN PRODUCT_NAME_LEN sp e i w = Ok (Continue, w') ->
  (i < length sp)%nat.
Proof.
  unfold library_init_item, spdk_conf_section_get_nval,
    spdk_conf_section_get_nmval.
  destruct (sp !! i) as [vals|] eqn:Hsp.
  - intros _. eapply lookup_lt_Some. exact Hsp.
  - cbn. unfold ret. intros [=].
Qed.

(** The bound that [blockdev_rbd_library_init] gives its loop is never
    reached: the initialisation never stops for lack of fuel. *)
Lemma init_loop_fuel_suffices (sp : spdk_conf_section) (env : nat -> init_env) :
  forall (fuel i : nat) (w : world),
    (i <= length sp)%nat -> (length sp < fuel + i)%nat ->
    library_init_loop NAME_LEN PRODUCT_NAME_LEN fuel sp env i w
      <> Fault OutOfFuel.
Proof.
  induction fuel as [|fuel IH]; intros i w Hi Hf; [lia|].
  cbn [library_init_loop]. unfold bind at 1.
  destruct (library_init_item NAME_LEN PRODUCT_NAME_LEN sp (env i) i w)
    as [[x w1]|f] eqn:Hitem.
  - destruct x.
    + apply init_item_continue_lt in Hitem. apply IH; lia.
    + discriminate.
    + discriminate.
  - intros [= ->]. revert Hitem.
    unfold library_init_item.
    destruct (spdk_conf_section_get_nval sp i); [|discriminate].
    destruct (spdk_conf_section_get_nmval sp i 0); [|discriminate].
    unfold bind at 1.
    destruct (pool_info_init_run (pool_calloc_ok (env i)) s0 w)
      as (r & w2 & -> & _).
    destruct r; [|discriminate].
    destruct (spdk_conf_section_get_nmval sp i 1); [|discriminate].
    destruct (conf_block_size _); [|discriminate].
    destruct (negb _); [discriminate|].
    unfold bind at 1.
    destruct (blockdev_rbd_init_frame (backend (env i)) (pool_name b) s1
                (info (mk_rbd (mk_bdev "" "" 0 0 0) s1 (mk_info 0) b)) w2)
      as (inf' & -> & _).
    destruct (_ <? 0); [discriminate|].
    unfold bind at 1, blockdev_create_rbd_disk.
    unfold bind at 1. cbn [get]. unfold bind at 1. cbn [modify].
    destruct (z =? 0); [discriminate|]. cbn.
    destruct (0 <? 0); discriminate.
Qed.

Lemma library_init_never_out_of_fuel (conf : option spdk_conf_section)
  (env : nat -> init_env) (w : world) :
  blockdev_rbd_library_init NAME_LEN PRODUCT_NAME_LEN conf env w
    <> Fault OutOfFuel.
Proof.
  destruct conf as [sp|]; [|discriminate].
  apply init_loop_fuel_suffices; lia.
Qed.

End LoopBound.

(** ** Creation of a channel *)

(** A channel that was created starts with an empty inbox. *)
Lemma create_cb_empty_inbox (e : rados_env) (new_poller : handle)
  (io_device : blockdev_rbd) (c : addr) (w w' : world) :
  blockdev_rbd_create_cb e new_poller io_device c w = Ok (0, w') ->
  exists cc, chans w' !! c = Some cc /\ req_head cc = None.
Proof.
  unfold blockdev_rbd_create_cb, blockdev_rados_context_init.
  unfold bind at 1. unfold load_ch.
  destruct (chans w !! c) as [cc|]; [|discriminate].
  destruct (rados_create_ret e <? 0); [run_monad; intros [=]|].
  destruct (rados_conf_read_file_ret e <? 0); [run_monad; intros [=]|].
  destruct (rados_connect_ret e <? 0);
    (destruct (rados_ioctx_create_ret e <? 0); [run_monad; intros [=]|];
     run_monad; destruct (rbd_open_ret e <? 0); run_monad; intros [=]; subst w';
     cbn; eexists; rewrite lookup_insert_eq; split; reflexivity).
Qed.

(** ** Two scenarios of the submission path *)

(** A read of 4096 bytes at offset 0 on a backend that returns exactly
    4096 bytes is delivered as a success. *)
Example read_4096_succeeds :
  exists w',
    (blockdev_rbd_get_rbuf_cb aio_ok
       (mk_bdev_io SPDK_BDEV_IO_TYPE_READ 1%nat 10%nat 4096 0 [] 0 0 0) ;;
     blockdev_rbd_finish_aiocb 4096 10%nat ;;
     blockdev_rbd_io_poll 1 1%nat) sample_world = Ok (tt, w') /\
    trace w' =
      [E_rbd_aio_create_completion 10%nat;
       E_rbd_aio_read (Some 3%nat) 0 4096 (Some 7%nat);
       E_rbd_aio_release (Some 7%nat);
       E_pthread_mutex_lock 1%nat; E_pthread_mutex_unlock 1%nat;
       E_pthread_mutex_lock 1%nat;
       E_spdk_bdev_io_complete 10%nat SPDK_BDEV_IO_STATUS_SUCCESS;
       E_pthread_mutex_unlock 1%nat].
Proof.
  eexists. split; [vm_compute; reflexivity|reflexivity].
Qed.

(** Only reads and writes are supported, and any other operation is
    failed at submission. *)
Lemma unsupported_io_type_fails_at_once (e : aio_env) (bdev_io : spdk_bdev_io)
  (w : world) :
  blockdev_rbd_io_type_supported (io_type bdev_io) = false ->
  blockdev_rbd_submit_request e bdev_io w =
    Ok (tt, set_trace (trace w ++ [E_spdk_bdev_io_complete (driver_ctx bdev_io)
                                     SPDK_BDEV_IO_STATUS_FAILED]) w).
Proof.
  unfold blockdev_rbd_submit_request, _blockdev_rbd_submit_request.
  destruct (io_type bdev_io); cbn; intros H; try discriminate; reflexivity.
Qed.

(** * Further properties *)

(** ** The completion path over several drains *)

(** What a batch of completion callbacks leaves alone: the other
    channels, the requests outside the batch, the direction, length,
    channel and completion handle of every request, and the device
    lists.  The callbacks return whatever the state of the inbox. *)
Lemma run_callbacks_frame (cs : list (addr * Z)) :
  forall (w : world) (c : addr),
  is_Some (chans w !! c) ->
  (forall a, a ∈ cs.*1 -> exists r, ios w !! a = Some r /\ ch r = Some c) ->
  exists w1,
    run_callbacks cs w = Ok (tt, w1) /\
    is_Some (chans w1 !! c) /\
    (forall c', c' <> c -> chans w1 !! c' = chans w !! c') /\
    (forall a, a ∉ cs.*1 -> ios w1 !! a = ios w !! a) /\
    (forall a r, ios w !! a = Some r ->
       exists r', ios w1 !! a = Some r' /\ direction r' = direction r /\
                  len r' = len r /\ ch r' = ch r /\
                  completion r' = completion r) /\
    g_rbds w1 = g_rbds w /\ g_rbd_pools w1 = g_rbd_pools w /\
    blockdev_rbd_count w1 = blockdev_rbd_count w.
Proof.
  induction cs as [|[a retval] cs IH]; intros w c Hc Hreq.
  - exists w. cbn. repeat split; try reflexivity; try assumption.
    intros a r Hr. exists r. repeat split; assumption.
  - destruct (Hreq a) as (r & Hr & Hch); [cbn; left|].
    destruct Hc as [cc Hcc].
    pose proof (blockdev_rbd_finish_aiocb_run w a c r cc retval Hr Hch Hcc) as Hrun.
    match type of Hrun with _ = Ok (_, ?w0) => set (w' := w0) in * end.
    destruct (IH w' c) as (w1 & Hrun1 & Hc1 & Hoth & Hfr & Hshape & Hg & Hp & Hn).
    + subst w'. cbn. rewrite lookup_insert_eq. eauto.
    + intros b Hb. subst w'. cbn.
      destruct (decide (a = b)) as [<-|Hne].
      * rewrite lookup_insert_eq. eexists. split; [reflexivity|exact Hch].
      * rewrite lookup_insert_ne by exact Hne. apply Hreq. cbn. right. exact Hb.
    + exists w1. split; [|split; [exact Hc1|split; [|split; [|split]]]].
      * cbn [run_callbacks]. erewrite bind_Ok; [|exact Hrun]. exact Hrun1.
      * intros c' Hc'. rewrite (Hoth c' Hc'). subst w'. cbn.
        apply lookup_insert_ne. congruence.
      * intros b Hb. rewrite Hfr.
        -- subst w'. cbn. apply lookup_insert_ne. intros ->. apply Hb. cbn. left.
        -- intros Hin. apply Hb. cbn. right. exact Hin.
      * intros b rb Hrb.
        destruct (decide (a = b)) as [<-|Hne].
        -- destruct (Hshape a (mk_io (direction r)
                      (finish_status (direction r) (len r) retval)
                      (len r) (completion r) (ch r) (req_head cc)))
             as (r' & Hr' & Hd & Hl & Hc' & Hco).
           { subst w'. cbn. apply lookup_insert_eq. }
           rewrite Hr in Hrb. injection Hrb as <-.
           exists r'. repeat split; assumption.
        -- apply Hshape. subst w'. cbn. rewrite lookup_insert_ne by exact Hne.
           exact Hrb.
      * repeat split; assumption.
Qed.

(** Rounds of callbacks and drains, the requests of the rounds having
    in [w] the direction and length they have in the store [m0]. *)
Lemma run_rounds_run (rounds : list (list (addr * Z)))
  (m0 : gmap nat blockdev_rbd_io) (c : addr) :
  forall (w : world) (cc : blockdev_rbd_io_channel),
  chans w !! c = Some cc -> req_head cc = None ->
  Forall (fun cs : list (addr * Z) => NoDup cs.*1) rounds ->
  (forall cs a, cs ∈ rounds -> a ∈ cs.*1 ->
     exists r0 r, m0 !! a = Some r0 /\ ios w !! a = Some r /\ ch r = Some c /\
                  direction r = direction r0 /\ len r = len r0) ->
  exists w',
    run_rounds c rounds w = Ok (tt, w') /\
    completions_of (trace w') =
      completions_of (trace w)
        ++ concat (map (fun cs => rev (map (delivery_of m0) cs)) rounds) /\
    (exists cc', chans w' !! c = Some cc' /\ req_head cc' = None).
Proof.
  induction rounds as [|cs rounds IH]; intros w cc Hcc Hempty Hnd Hreq.
  - exists w. cbn. rewrite app_nil_r. split; [reflexivity|]. split; [reflexivity|].
    exists cc. split; assumption.
  - apply Forall_cons in Hnd as [Hnd1 Hnd].
    assert (Hreq1 : forall a, a ∈ cs.*1 ->
                      exists r, ios w !! a = Some r /\ ch r = Some c).
    { intros a Ha. destruct (Hreq cs a) as (r0 & r & _ & Hr & Hch & _);
        [left|exact Ha|]. exists r. split; assumption. }
    assert (Hchain0 : inbox_chain (ios w) (req_head cc) []) by exact Hempty.
    assert (Hfresh : forall a, a ∈ cs.*1 -> a ∉ ([] : list addr)).
    { intros a _ Hin. inversion Hin. }
    destruct (run_callbacks_run cs w c cc [] Hcc Hchain0 Hnd1 Hfresh Hreq1) as
      (w1 & cc1 & Hrun & Hcc1 & Hchain & Hst & _ & Htr).
    destruct (run_callbacks_frame cs w c (ex_intro _ cc Hcc) Hreq1) as
      (w1' & Hrun' & _ & _ & _ & Hshape & _).
    rewrite Hrun in Hrun'. injection Hrun' as <-.
    rewrite app_nil_r in Hchain.
    assert (Hlen : (length (rev cs.*1) <= length cs)%nat).
    { rewrite length_rev, length_fmap. lia. }
    pose proof (blockdev_rbd_io_poll_run (length cs) w1 c cc1 (rev cs.*1)
                  Hcc1 Hchain Hlen) as Hpoll.
    match type of Hpoll with _ = Ok (_, ?w0) => set (w2 := w0) in * end.
    destruct (IH w2 (ch_set_req_head None cc1)) as (w' & Hrest & Hcomp & Hhead).
    + subst w2. cbn. apply lookup_insert_eq.
    + reflexivity.
    + exact Hnd.
    + intros cs' a Hcs' Ha.
      destruct (Hreq cs' a) as (r0 & r & Hr0 & Hr & Hch & Hd & Hl);
        [right; exact Hcs'|exact Ha|].
      destruct (Hshape a r Hr) as (r' & Hr' & Hd' & Hl' & Hch' & _).
      exists r0, r'. subst w2. cbn. repeat split; try assumption; congruence.
    + exists w'. split; [|split; [|exact Hhead]].
      * cbn [run_rounds]. erewrite bind_Ok; [|exact Hrun].
        erewrite bind_Ok; [|exact Hpoll]. exact Hrest.
      * rewrite Hcomp. subst w2. cbn [trace].
        rewrite !completions_of_app, completions_of_walk. cbn.
        rewrite app_nil_r, Htr, <- app_assoc. f_equal. f_equal.
        rewrite map_rev. f_equal.
        rewrite <- list_fmap_compose. apply map_ext_in. intros [a retval] Hin.
        apply list_elem_of_In in Hin.
        unfold delivery_of. cbn. f_equal. f_equal.
        rewrite (Hst a retval Hin).
        destruct (Hreq cs a) as (r0 & r & Hr0 & Hr & _ & Hd & Hl); [left| |].
        { apply list_elem_of_fmap. exists (a, retval). split; [reflexivity|exact Hin]. }
        unfold finalized. rewrite Hr, Hr0, Hd, Hl. reflexivity.
Qed.

Lemma sample_batch_NoDup : NoDup sample_batch.*1.
Proof.
  cbn. apply NoDup_cons. split.
  - intros Hin. apply list_elem_of_singleton in Hin. discriminate.
  - apply NoDup_singleton.
Qed.

Lemma sample_batch_requests (a : addr) :
  a ∈ sample_batch.*1 ->
  exists r, ios sample_world !! a = Some r /\ ch r = Some 1%nat.
Proof.
  cbn. intros Hin. apply elem_of_cons in Hin as [->|Hin].
  - eexists. split; reflexivity.
  - apply list_elem_of_singleton in Hin as ->. eexists. split; reflexivity.
Qed.

(** X1.  Over any number of rounds, each made of the completion
    callbacks of a batch of distinct requests of one channel followed by
    one drain, every finished operation is delivered exactly once, in the
    drain of its round, most recent first, with the status that its
    return value commands.  A request may take part in several rounds:
    once delivered it can finish again. *)
Theorem rounds_deliver_each_operation_once
  (w : world) (c : addr) (cc : blockdev_rbd_io_channel)
  (rounds : list (list (addr * Z))) :
  chans w !! c = Some cc -> req_head cc = None ->
  Forall (fun cs : list (addr * Z) => NoDup cs.*1) rounds ->
  (forall cs a, cs ∈ rounds -> a ∈ cs.*1 ->
     exists r, ios w !! a = Some r /\ ch r = Some c) ->
  exists w',
    run_rounds c rounds w = Ok (tt, w') /\
    completions_of (trace w') =
      completions_of (trace w)
        ++ concat (map (fun cs => rev (map (delivery_of (ios w)) cs)) rounds) /\
    (exists cc', chans w' !! c = Some cc' /\ req_head cc' = None).
Proof.
  intros Hcc Hempty Hnd Hreq.
  apply (run_rounds_run rounds (ios w) c w cc Hcc Hempty Hnd).
  intros cs a Hcs Ha. destruct (Hreq cs a Hcs Ha) as (r & Hr & Hch).
  exists r, r. repeat split; assumption.
Qed.

Lemma rounds_deliver_each_operation_once_sample :
  exists w',
    run_rounds 1%nat [sample_batch; [(10%nat, 0)]] sample_world = Ok (tt, w') /\
    completions_of (trace w') =
      completions_of (trace sample_world)
        ++ concat (map (fun cs => rev (map (delivery_of (ios sample_world)) cs))
                       [sample_batch; [(10%nat, 0)]]) /\
    (exists cc', chans w' !! 1%nat = Some cc' /\ req_head cc' = None).
Proof.
  apply (rounds_deliver_each_operation_once sample_world 1%nat sample_channel
           [sample_batch; [(10%nat, 0)]]).
  - reflexivity.
  - reflexivity.
  - apply Forall_cons. split; [exact sample_batch_NoDup|].
    apply Forall_cons. split; [apply NoDup_singleton|apply Forall_nil_2].
  - intros cs a Hcs Ha. apply elem_of_cons in Hcs as [->|Hcs].
    + apply sample_batch_requests. exact Ha.
    + apply list_elem_of_singleton in Hcs as ->. cbn in Ha.
      apply list_elem_of_singleton in Ha as ->. eexists. split; reflexivity.
Defined.

(** The deliveries of the two sample rounds: the request at 10 succeeds
    in the first round and fails in the second. *)
Example sample_rounds_deliveries :
  concat (map (fun cs => rev (map (delivery_of (ios sample_world)) cs))
              [sample_batch; [(10%nat, 0)]]) =
  [(11%nat, SPDK_BDEV_IO_STATUS_FAILED); (10%nat, SPDK_BDEV_IO_STATUS_SUCCESS);
   (10%nat, SPDK_BDEV_IO_STATUS_FAILED)].
Proof. reflexivity. Qed.

(** X2.  One drain of a well-formed inbox, whatever it holds, delivers
    its requests in list order, each with the status of its [status]
    field, and changes no request; a second drain that follows at once
    delivers nothing, whatever its loop bound. *)
Theorem drain_then_drain_again
  (w : world) (c : addr) (cc : blockdev_rbd_io_channel) (l : list addr)
  (fuel : nat) :
  chans w !! c = Some cc ->
  inbox_chain (ios w) (req_head cc) l ->
  exists w1 w2,
    blockdev_rbd_io_poll (length l) c w = Ok (tt, w1) /\
    completions_of (trace w1) =
      completions_of (trace w)
        ++ map (fun a => (a, io_status_of (req_status (ios w) a))) l /\
    ios w1 = ios w /\
    blockdev_rbd_io_poll fuel c w1 = Ok (tt, w2) /\
    completions_of (trace w2) = completions_of (trace w1).
Proof.
  intros Hcc Hchain.
  pose proof (blockdev_rbd_io_poll_run (length l) w c cc l Hcc Hchain
                (Nat.le_refl _)) as Hpoll.
  match type of Hpoll with _ = Ok (_, ?w0) => set (w1 := w0) in * end.
  destruct (blockdev_rbd_io_poll_empty fuel w1 c (ch_set_req_head None cc))
    as (w2 & Hpoll2 & Hcomp2).
  { subst w1. cbn. apply lookup_insert_eq. }
  { reflexivity. }
  exists w1, w2. split; [exact Hpoll|]. split; [|split; [reflexivity|]].
  - subst w1. cbn [trace]. rewrite !completions_of_app, completions_of_walk.
    cbn. rewrite app_nil_r. reflexivity.
  - split; assumption.
Qed.

Lemma drain_then_drain_again_sample :
  exists w1 w2,
    blockdev_rbd_io_poll (length [10%nat]) 1%nat sample_queued = Ok (tt, w1) /\
    completions_of (trace w1) =
      completions_of (trace sample_queued)
        ++ map (fun a => (a, io_status_of (req_status (ios sample_queued) a)))
               [10%nat] /\
    ios w1 = ios sample_queued /\
    blockdev_rbd_io_poll 5 1%nat w1 = Ok (tt, w2) /\
    completions_of (trace w2) = completions_of (trace w1).
Proof.
  apply (drain_then_drain_again sample_queued 1%nat
           (ch_set_req_head (Some 10%nat) sample_channel) [10%nat] 5).
  - reflexivity.
  - cbn. split; [reflexivity|]. eexists. split; reflexivity.
Defined.

(** A request whose [next] is itself keeps the loop of the poller going
    for ever. *)
Lemma io_poll_loop_cycle (fuel : nat) :
  forall (w : world) (a : addr) (r : blockdev_rbd_io),
  ios w !! a = Some r -> next r = Some a ->
  io_poll_loop fuel (Some a) w = Fault OutOfFuel.
Proof.
  induction fuel as [|fuel IH]; intros w a r Hr Hnext; [reflexivity|].
  cbn [io_poll_loop].
  erewrite bind_Ok; [|apply load_io_Some; exact Hr].
  unfold bind at 1. cbn [emit]. rewrite Hnext.
  apply (IH _ a r); [exact Hr|exact Hnext].
Qed.

(** X3.  When the completion callback runs twice for one request
    without a drain in between, the request becomes its own successor in
    the inbox, and the next drain never ends: it exhausts every loop
    bound. *)
Theorem double_completion_hangs_the_poller
  (w : world) (a c : addr) (r : blockdev_rbd_io) (cc : blockdev_rbd_io_channel)
  (retval1 retval2 : Z) (fuel : nat) :
  ios w !! a = Some r -> ch r = Some c -> chans w !! c = Some cc ->
  (run_callbacks [(a, retval1); (a, retval2)] ;;
   blockdev_rbd_io_poll fuel c) w = Fault OutOfFuel.
Proof.
  intros Hr Hch Hcc.
  pose proof (blockdev_rbd_finish_aiocb_run w a c r cc retval1 Hr Hch Hcc) as H1.
  match type of H1 with _ = Ok (_, ?w0) => set (w1 := w0) in * end.
  pose proof (blockdev_rbd_finish_aiocb_run w1 a c
                (mk_io (direction r) (finish_status (direction r) (len r) retval1)
                   (len r) (completion r) (ch r) (req_head cc))
                (ch_set_req_head (Some a) cc) retval2) as H2.
  match type of H2 with _ -> _ -> _ -> _ = Ok (_, ?w0) => set (w2 := w0) in * end.
  assert (H2' : blockdev_rbd_finish_aiocb retval2 a w1 = Ok (tt, w2)).
  { apply H2; subst w1; cbn; [apply lookup_insert_eq|exact Hch|apply lookup_insert_eq]. }
  erewrite bind_Ok.
  2:{ cbn [run_callbacks]. erewrite bind_Ok; [|exact H1].
      erewrite bind_Ok; [|exact H2']. reflexivity. }
  unfold blockdev_rbd_io_poll.
  unfold bind at 1. cbn [emit].
  erewrite bind_Ok.
  2:{ apply load_ch_Some. subst w2. cbn. apply lookup_insert_eq. }
  unfold bind at 1. cbn [store_ch modify].
  apply bind_Fault. cbn [ch_set_req_head req_head].
  eapply io_poll_loop_cycle.
  - subst w2. cbn. apply lookup_insert_eq.
  - reflexivity.
Qed.

Lemma double_completion_hangs_the_poller_sample :
  (run_callbacks [(10%nat, 4096); (10%nat, 4096)] ;;
   blockdev_rbd_io_poll 1000 1%nat) sample_world = Fault OutOfFuel.
Proof.
  apply (double_completion_hangs_the_poller sample_world 10%nat 1%nat
           (mk_io BLOCKDEV_RBD_READ 0 4096 (Some 5%nat) (Some 1%nat) None)
           sample_channel 4096 4096 1000).
  - reflexivity.
  - reflexivity.
  - reflexivity.
Defined.

(** X4.  The completion path of a channel is its own: the callbacks of a
    batch of requests of channel [c] and a drain of [c] leave every other
    channel and every request outside the batch as they were, change of
    the requests of the batch neither direction, length nor channel, and
    do not touch the device list, the pool list or the device counter. *)
Theorem completion_path_is_per_channel
  (w : world) (c : addr) (cc : blockdev_rbd_io_channel) (cs : list (addr * Z)) :
  chans w !! c = Some cc -> req_head cc = None ->
  NoDup cs.*1 ->
  (forall a, a ∈ cs.*1 -> exists r, ios w !! a = Some r /\ ch r = Some c) ->
  exists w',
    (run_callbacks cs ;; blockdev_rbd_io_poll (length cs) c) w = Ok (tt, w') /\
    (forall c', c' <> c -> chans w' !! c' = chans w !! c') /\
    (forall a, a ∉ cs.*1 -> ios w' !! a = ios w !! a) /\
    (forall a r, ios w !! a = Some r ->
       exists r', ios w' !! a = Some r' /\ direction r' = direction r /\
                  len r' = len r /\ ch r' = ch r) /\
    g_rbds w' = g_rbds w /\ g_rbd_pools w' = g_rbd_pools w /\
    blockdev_rbd_count w' = blockdev_rbd_count w.
Proof.
  intros Hcc Hempty Hnd Hreq.
  assert (Hchain0 : inbox_chain (ios w) (req_head cc) []) by exact Hempty.
  assert (Hfresh : forall a, a ∈ cs.*1 -> a ∉ ([] : list addr)).
  { intros a _ Hin. inversion Hin. }
  destruct (run_callbacks_run cs w c cc [] Hcc Hchain0 Hnd Hfresh Hreq) as
    (w1 & cc1 & Hrun & Hcc1 & Hchain & _).
  destruct (run_callbacks_frame cs w c (ex_intro _ cc Hcc) Hreq) as
    (w1' & Hrun' & _ & Hoth & Hfr & Hshape & Hg & Hp & Hn).
  rewrite Hrun in Hrun'. injection Hrun' as <-.
  rewrite app_nil_r in Hchain.
  assert (Hlen : (length (rev cs.*1) <= length cs)%nat).
  { rewrite length_rev, length_fmap. lia. }
  pose proof (blockdev_rbd_io_poll_run (length cs) w1 c cc1 (rev cs.*1)
                Hcc1 Hchain Hlen) as Hpoll.
  match type of Hpoll with _ = Ok (_, ?w0) => set (w2 := w0) in * end.
  exists w2. split; [|split; [|split; [|split]]].
  - erewrite bind_Ok; [|exact Hrun]. exact Hpoll.
  - intros c' Hc'. subst w2. cbn. rewrite lookup_insert_ne by congruence.
    apply Hoth. exact Hc'.
  - exact Hfr.
  - intros a r Hr. destruct (Hshape a r Hr) as (r' & Hr' & Hd & Hl & Hch & _).
    exists r'. repeat split; assumption.
  - repeat split; assumption.
Qed.

Lemma completion_path_is_per_channel_sample :
  exists w',
    (run_callbacks sample_batch ;;
     blockdev_rbd_io_poll (length sample_batch) 1%nat) sample_world
      = Ok (tt, w') /\
    (forall c', c' <> 1%nat -> chans w' !! c' = chans sample_world !! c') /\
    (forall a, a ∉ sample_batch.*1 -> ios w' !! a = ios sample_world !! a) /\
    (forall a r, ios sample_world !! a = Some r ->
       exists r', ios w' !! a = Some r' /\ direction r' = direction r /\
                  len r' = len r /\ ch r' = ch r) /\
    g_rbds w' = g_rbds sample_world /\
    g_rbd_pools w' = g_rbd_pools sample_world /\
    blockdev_rbd_count w' = blockdev_rbd_count sample_world.
Proof.
  apply (completion_path_is_per_channel sample_world 1%nat sample_channel
           sample_batch).
  - reflexivity.
  - reflexivity.
  - exact sample_batch_NoDup.
  - exact sample_batch_requests.
Defined.

(** ** The submission path *)

(** [blockdev_rbd_start_aio] on a request that exists: nothing but the
    call when no completion object could be created; otherwise the
    completion handle is stored in the request and one asynchronous call
    is made, in the direction of the request, and when that call fails
    the completion object is released. *)
Lemma blockdev_rbd_start_aio_run (e : aio_env) (img : option handle)
  (a : addr) (off n : Z) (w : world) (r : blockdev_rbd_io) :
  ios w !! a = Some r ->
  blockdev_rbd_start_aio e img a off n w =
  if rbd_aio_create_completion_ret e <? 0 then
    Ok (-1, set_trace (trace w ++ [E_rbd_aio_create_completion a]) w)
  else
    let nc := Some (new_completion e) in
    let call :=
      match direction r with
      | BLOCKDEV_RBD_READ => E_rbd_aio_read img off n nc
      | BLOCKDEV_RBD_WRITE => E_rbd_aio_write img off n nc
      end in
    let answer :=
      match direction r with
      | BLOCKDEV_RBD_READ => rbd_aio_read_ret e
      | BLOCKDEV_RBD_WRITE => rbd_aio_write_ret e
      end in
    let w1 := set_ios (insert a (io_set_completion nc r)) w in
    if answer <? 0 then
      Ok (-1, set_trace (trace w ++ [E_rbd_aio_create_completion a; call;
                                     E_rbd_aio_release nc]) w1)
    else
      Ok (0, set_trace (trace w ++ [E_rbd_aio_create_completion a; call]) w1).
Proof.
  intros Hr. unfold blockdev_rbd_start_aio.
  unfold bind at 1. cbn [emit].
  destruct (rbd_aio_create_completion_ret e <? 0); [reflexivity|].
  erewrite bind_Ok; [|apply load_io_Some; cbn; exact Hr].
  unfold bind at 1. cbn [store_io modify].
  cbn [io_set_completion direction completion].
  destruct (direction r).
  - unfold bind at 1. unfold bind at 1. cbn [emit ret].
    destruct (rbd_aio_read_ret e <? 0); run_monad; reflexivity.
  - unfold bind at 1. unfold bind at 1. cbn [emit ret].
    destruct (rbd_aio_write_ret e <? 0); run_monad; reflexivity.
Qed.

(** [blockdev_rbd_read] fills in channel, direction and length and then
    starts the operation on the image of the channel. *)
Lemma blockdev_rbd_read_run (e : aio_env) (c a : addr) (n off : Z) (w : world)
  (cc : blockdev_rbd_io_channel) (r : blockdev_rbd_io) :
  chans w !! c = Some cc -> ios w !! a = Some r ->
  blockdev_rbd_read e c a n off w =
  blockdev_rbd_start_aio e (image cc) a off n
    (set_ios (insert a (mk_io BLOCKDEV_RBD_READ (status r) n (completion r)
                          (Some c) (next r))) w).
Proof.
  intros Hcc Hr. unfold blockdev_rbd_read.
  erewrite bind_Ok; [|apply load_ch_Some; exact Hcc].
  erewrite bind_Ok; [|apply load_io_Some; exact Hr].
  reflexivity.
Qed.

(** [blockdev_rbd_writev] with one segment of the right length fills in
    channel and direction and then starts the operation. *)
Lemma blockdev_rbd_writev_run (e : aio_env) (c a : addr) (iov0 : iovec)
  (rest : list iovec) (n off : Z) (w : world)
  (cc : blockdev_rbd_io_channel) (r : blockdev_rbd_io) :
  chans w !! c = Some cc -> ios w !! a = Some r -> iov_len iov0 = n ->
  blockdev_rbd_writev e c a (iov0 :: rest) 1 n off w =
  blockdev_rbd_start_aio e (image cc) a off n
    (set_ios (insert a (mk_io BLOCKDEV_RBD_WRITE (status r) (len r)
                          (completion r) (Some c) (next r))) w).
Proof.
  intros Hcc Hr Hlen. unfold blockdev_rbd_writev.
  change (negb (1 =? 1)) with false. cbv iota.
  rewrite Hlen, Z.eqb_refl. cbn [negb].
  erewrite bind_Ok; [|apply load_ch_Some; exact Hcc].
  erewrite bind_Ok; [|apply load_io_Some; exact Hr].
  reflexivity.
Qed.

(** The callback and the drain that follow the submission of the
    request at [a], alone in the inbox of channel [c]. *)
Lemma finish_then_poll_run (w : world) (a c : addr) (r : blockdev_rbd_io)
  (cc : blockdev_rbd_io_channel) (retval : Z) :
  ios w !! a = Some r -> ch r = Some c -> chans w !! c = Some cc ->
  req_head cc = None ->
  exists w',
    (blockdev_rbd_finish_aiocb retval a ;; blockdev_rbd_io_poll 1 c) w
      = Ok (tt, w') /\
    trace w' =
      trace w ++ [E_rbd_aio_release (completion r);
                  E_pthread_mutex_lock c; E_pthread_mutex_unlock c;
                  E_pthread_mutex_lock c;
                  E_spdk_bdev_io_complete a
                    (io_status_of (finish_status (direction r) (len r) retval));
                  E_pthread_mutex_unlock c] /\
    chans w' !! c = Some (ch_set_req_head None cc) /\
    (forall c', c' <> c -> chans w' !! c' = chans w !! c').
Proof.
  intros Hr Hch Hcc Hempty.
  pose proof (blockdev_rbd_finish_aiocb_run w a c r cc retval Hr Hch Hcc) as H1.
  match type of H1 with _ = Ok (_, ?w0) => set (w1 := w0) in * end.
  pose proof (blockdev_rbd_io_poll_run 1 w1 c (ch_set_req_head (Some a) cc) [a])
    as H2.
  match type of H2 with _ -> _ -> _ -> _ = Ok (_, ?w0) => set (w2 := w0) in * end.
  assert (H2' : blockdev_rbd_io_poll 1 c w1 = Ok (tt, w2)).
  { apply H2.
    - subst w1. cbn. apply lookup_insert_eq.
    - cbn. split; [reflexivity|]. eexists. split.
      + subst w1. cbn. apply lookup_insert_eq.
      + cbn. exact Hempty.
    - cbn. lia. }
  exists w2. split; [|split; [|split]].
  - erewrite bind_Ok; [|exact H1]. exact H2'.
  - subst w2 w1. cbn. unfold walk_events, req_status. cbn.
    rewrite lookup_insert_eq. cbn. rewrite <- app_assoc. reflexivity.
  - subst w2 w1. cbn. rewrite lookup_insert_eq. reflexivity.
  - intros c' Hc'. subst w2 w1. cbn.
    rewrite !lookup_insert_ne by congruence. reflexivity.
Qed.

(** X5.  A read from submission to delivery.  With a backend that
    accepts the asynchronous read, [blockdev_rbd_get_rbuf_cb] creates one
    completion object and issues one read of [nbytes] bytes at the
    offset of the operation on the image of the channel, delivering
    nothing; the completion callback releases that completion object and
    queues the request; the drain delivers the request once, as a success
    exactly when the operation returned [nbytes] (for [nbytes] up to
    [INT_MAX]), and leaves the inbox empty. *)
Theorem read_from_submission_to_delivery
  (e : aio_env) (b : spdk_bdev_io) (w : world) (cc : blockdev_rbd_io_channel)
  (r : blockdev_rbd_io) (retval : Z) :
  chans w !! io_ch b = Some cc -> req_head cc = None ->
  ios w !! driver_ctx b = Some r ->
  0 <= rbd_aio_create_completion_ret e -> 0 <= rbd_aio_read_ret e ->
  0 <= u_read_nbytes b <= INT_MAX ->
  exists w' st,
    (blockdev_rbd_get_rbuf_cb e b ;;
     blockdev_rbd_finish_aiocb retval (driver_ctx b) ;;
     blockdev_rbd_io_poll 1 (io_ch b)) w = Ok (tt, w') /\
    trace w' =
      trace w ++ [E_rbd_aio_create_completion (driver_ctx b);
                  E_rbd_aio_read (image cc) (u_read_offset b) (u_read_nbytes b)
                    (Some (new_completion e));
                  E_rbd_aio_release (Some (new_completion e));
                  E_pthread_mutex_lock (io_ch b);
                  E_pthread_mutex_unlock (io_ch b);
                  E_pthread_mutex_lock (io_ch b);
                  E_spdk_bdev_io_complete (driver_ctx b) st;
                  E_pthread_mutex_unlock (io_ch b)] /\
    (st = SPDK_BDEV_IO_STATUS_SUCCESS <-> retval = u_read_nbytes b) /\
    chans w' !! io_ch b = Some (ch_set_req_head None cc).
Proof.
  intros Hcc Hempty Hr Hc Hrd Hn.
  apply Z.ltb_ge in Hc. apply Z.ltb_ge in Hrd.
  set (a := driver_ctx b) in *. set (c := io_ch b) in *.
  set (n := u_read_nbytes b) in *.
  set (r0 := mk_io BLOCKDEV_RBD_READ (status r) n (completion r) (Some c) (next r)).
  set (w0 := set_ios (insert a r0) w).
  assert (Hr0 : ios w0 !! a = Some r0) by (subst w0; cbn; apply lookup_insert_eq).
  pose proof (blockdev_rbd_start_aio_run e (image cc) a (u_read_offset b) n w0 r0 Hr0)
    as Hstart.
  rewrite Hc in Hstart. unfold r0 in Hstart.
  cbn [direction] in Hstart. cbv zeta in Hstart. rewrite Hrd in Hstart.
  fold r0 in Hstart.
  match type of Hstart with _ = Ok (_, ?w0') => set (w1 := w0') in * end.
  assert (Hsub : blockdev_rbd_get_rbuf_cb e b w = Ok (tt, w1)).
  { unfold blockdev_rbd_get_rbuf_cb. fold a c n.
    erewrite bind_Ok.
    2:{ rewrite (blockdev_rbd_read_run e c a n (u_read_offset b) w cc r Hcc Hr).
        exact Hstart. }
    reflexivity. }
  destruct (finish_then_poll_run w1 a c (io_set_completion (Some (new_completion e)) r0)
              cc retval) as (w' & Hrun & Htr & Hhead & _).
  { subst w1 w0. cbn. apply lookup_insert_eq. }
  { reflexivity. }
  { subst w1 w0. cbn. exact Hcc. }
  { exact Hempty. }
  exists w', (io_status_of (finish_status BLOCKDEV_RBD_READ n retval)).
  split; [|split; [|split]].
  - erewrite bind_Ok; [|exact Hsub]. exact Hrun.
  - rewrite Htr. subst w1 w0. cbn. rewrite <- app_assoc. reflexivity.
  - rewrite io_status_of_success, finish_status_read_small by exact Hn.
    reflexivity.
  - exact Hhead.
Qed.

Lemma read_from_submission_to_delivery_sample :
  exists w' st,
    (blockdev_rbd_get_rbuf_cb aio_ok sample_read ;;
     blockdev_rbd_finish_aiocb 4096 (driver_ctx sample_read) ;;
     blockdev_rbd_io_poll 1 (io_ch sample_read)) sample_world = Ok (tt, w') /\
    trace w' =
      trace sample_world
        ++ [E_rbd_aio_create_completion (driver_ctx sample_read);
            E_rbd_aio_read (image sample_channel) (u_read_offset sample_read)
              (u_read_nbytes sample_read) (Some (new_completion aio_ok));
            E_rbd_aio_release (Some (new_completion aio_ok));
            E_pthread_mutex_lock (io_ch sample_read);
            E_pthread_mutex_unlock (io_ch sample_read);
            E_pthread_mutex_lock (io_ch sample_read);
            E_spdk_bdev_io_complete (driver_ctx sample_read) st;
            E_pthread_mutex_unlock (io_ch sample_read)] /\
    (st = SPDK_BDEV_IO_STATUS_SUCCESS <-> 4096 = u_read_nbytes sample_read) /\
    chans w' !! io_ch sample_read = Some (ch_set_req_head None sample_channel).
Proof.
  apply (read_from_submission_to_delivery aio_ok sample_read sample_world
           sample_channel
           (mk_io BLOCKDEV_RBD_READ 0 4096 (Some 5%nat) (Some 1%nat) None) 4096).
  - reflexivity.
  - reflexivity.
  - reflexivity.
  - cbn. lia.
  - cbn. lia.
  - unfold INT_MAX. cbn. lia.
Defined.

(** X6.  A write from submission to delivery.  A write with one segment
    as long as the write, on a backend that accepts the asynchronous
    write, creates one completion object and issues one write of that
    length at the offset of the operation, delivering nothing; callback
    and drain then release the completion object and deliver the request
    once, as a success exactly when the operation returned 0. *)
Theorem write_from_submission_to_delivery
  (e : aio_env) (b : spdk_bdev_io) (w : world) (cc : blockdev_rbd_io_channel)
  (r : blockdev_rbd_io) (iov0 : iovec) (rest : list iovec) (retval : Z) :
  io_type b = SPDK_BDEV_IO_TYPE_WRITE ->
  u_write_iovs b = iov0 :: rest -> u_write_iovcnt b = 1 ->
  iov_len iov0 = u_write_len b ->
  chans w !! io_ch b = Some cc -> req_head cc = None ->
  ios w !! driver_ctx b = Some r ->
  0 <= rbd_aio_create_completion_ret e -> 0 <= rbd_aio_write_ret e ->
  exists w' st,
    (blockdev_rbd_submit_request e b ;;
     blockdev_rbd_finish_aiocb retval (driver_ctx b) ;;
     blockdev_rbd_io_poll 1 (io_ch b)) w = Ok (tt, w') /\
    trace w' =
      trace w ++ [E_rbd_aio_create_completion (driver_ctx b);
                  E_rbd_aio_write (image cc) (u_write_offset b) (u_write_len b)
                    (Some (new_completion e));
                  E_rbd_aio_release (Some (new_completion e));
                  E_pthread_mutex_lock (io_ch b);
                  E_pthread_mutex_unlock (io_ch b);
                  E_pthread_mutex_lock (io_ch b);
                  E_spdk_bdev_io_complete (driver_ctx b) st;
                  E_pthread_mutex_unlock (io_ch b)] /\
    (st = SPDK_BDEV_IO_STATUS_SUCCESS <-> retval = 0) /\
    chans w' !! io_ch b = Some (ch_set_req_head None cc).
Proof.
  intros Hty Hiov Hcnt Hlen Hcc Hempty Hr Hc Hwr.
  apply Z.ltb_ge in Hc. apply Z.ltb_ge in Hwr.
  set (a := driver_ctx b) in *. set (c := io_ch b) in *.
  set (n := u_write_len b) in *.
  set (r0 := mk_io BLOCKDEV_RBD_WRITE (status r) (len r) (completion r)
               (Some c) (next r)).
  set (w0 := set_ios (insert a r0) w).
  assert (Hr0 : ios w0 !! a = Some r0) by (subst w0; cbn; apply lookup_insert_eq).
  pose proof (blockdev_rbd_start_aio_run e (image cc) a (u_write_offset b) n w0 r0 Hr0)
    as Hstart.
  rewrite Hc in Hstart. unfold r0 in Hstart.
  cbn [direction] in Hstart. cbv zeta in Hstart. rewrite Hwr in Hstart.
  fold r0 in Hstart.
  match type of Hstart with _ = Ok (_, ?w0') => set (w1 := w0') in * end.
  assert (Hsub : blockdev_rbd_submit_request e b w = Ok (tt, w1)).
  { unfold blockdev_rbd_submit_request, _blockdev_rbd_submit_request.
    rewrite Hty, Hiov, Hcnt. fold a c n.
    erewrite bind_Ok.
    2:{ erewrite bind_Ok.
        2:{ rewrite (blockdev_rbd_writev_run e c a iov0 rest n (u_write_offset b)
                       w cc r Hcc Hr Hlen).
            exact Hstart. }
        reflexivity. }
    reflexivity. }
  destruct (finish_then_poll_run w1 a c (io_set_completion (Some (new_completion e)) r0)
              cc retval) as (w' & Hrun & Htr & Hhead & _).
  { subst w1 w0. cbn. apply lookup_insert_eq. }
  { reflexivity. }
  { subst w1 w0. cbn. exact Hcc. }
  { exact Hempty. }
  exists w', (io_status_of (finish_status BLOCKDEV_RBD_WRITE (len r) retval)).
  split; [|split; [|split]].
  - erewrite bind_Ok; [|exact Hsub]. exact Hrun.
  - rewrite Htr. subst w1 w0. cbn. rewrite <- app_assoc. reflexivity.
  - rewrite io_status_of_success. apply finish_status_write.
  - exact Hhead.
Qed.

Lemma write_from_submission_to_delivery_sample :
  exists w' st,
    (blockdev_rbd_submit_request aio_ok sample_write ;;
     blockdev_rbd_finish_aiocb 0 (driver_ctx sample_write) ;;
     blockdev_rbd_io_poll 1 (io_ch sample_write)) sample_world = Ok (tt, w') /\
    trace w' =
      trace sample_world
        ++ [E_rbd_aio_create_completion (driver_ctx sample_write);
            E_rbd_aio_write (image sample_channel) (u_write_offset sample_write)
              (u_write_len sample_write) (Some (new_completion aio_ok));
            E_rbd_aio_release (Some (new_completion aio_ok));
            E_pthread_mutex_lock (io_ch sample_write);
            E_pthread_mutex_unlock (io_ch sample_write);
            E_pthread_mutex_lock (io_ch sample_write);
            E_spdk_bdev_io_complete (driver_ctx sample_write) st;
            E_pthread_mutex_unlock (io_ch sample_write)] /\
    (st = SPDK_BDEV_IO_STATUS_SUCCESS <-> 0 = 0) /\
    chans w' !! io_ch sample_write = Some (ch_set_req_head None sample_channel).
Proof.
  apply (write_from_submission_to_delivery aio_ok sample_write sample_world
           sample_channel
           (mk_io BLOCKDEV_RBD_WRITE 0 0 (Some 6%nat) (Some 1%nat) None)
           (mk_iovec 65536 4096) [] 0).
  - reflexivity.
  - reflexivity.
  - reflexivity.
  - reflexivity.
  - reflexivity.
  - reflexivity.
  - reflexivity.
  - cbn. lia.
  - cbn. lia.
Defined.

(** X7.  A read that cannot be issued fails at once.  When the
    completion object cannot be created, or the asynchronous read is
    refused, [blockdev_rbd_get_rbuf_cb] completes the operation to the
    framework as failed, once; a completion object that was created is
    released before, and the inbox of the channel is not touched, so no
    drain will deliver the request a second time. *)
Theorem read_issue_failure_fails_at_once
  (e : aio_env) (b : spdk_bdev_io) (w : world) (cc : blockdev_rbd_io_channel)
  (r : blockdev_rbd_io) :
  chans w !! io_ch b = Some cc -> ios w !! driver_ctx b = Some r ->
  rbd_aio_create_completion_ret e < 0 \/ rbd_aio_read_ret e < 0 ->
  exists w',
    blockdev_rbd_get_rbuf_cb e b w = Ok (tt, w') /\
    trace w' =
      trace w ++ [E_rbd_aio_create_completion (driver_ctx b)]
        ++ (if rbd_aio_create_completion_ret e <? 0 then []
            else [E_rbd_aio_read (image cc) (u_read_offset b) (u_read_nbytes b)
                    (Some (new_completion e));
                  E_rbd_aio_release (Some (new_completion e))])
        ++ [E_spdk_bdev_io_complete (driver_ctx b) SPDK_BDEV_IO_STATUS_FAILED] /\
    chans w' = chans w.
Proof.
  intros Hcc Hr Hfail.
  set (a := driver_ctx b) in *. set (c := io_ch b) in *.
  set (n := u_read_nbytes b) in *.
  set (r0 := mk_io BLOCKDEV_RBD_READ (status r) n (completion r) (Some c) (next r)).
  set (w0 := set_ios (insert a r0) w).
  assert (Hr0 : ios w0 !! a = Some r0) by (subst w0; cbn; apply lookup_insert_eq).
  pose proof (blockdev_rbd_start_aio_run e (image cc) a (u_read_offset b) n w0 r0 Hr0)
    as Hstart.
  unfold blockdev_rbd_get_rbuf_cb. fold a c n.
  destruct (rbd_aio_create_completion_ret e <? 0) eqn:Hc.
  - erewrite bind_Ok.
    2:{ rewrite (blockdev_rbd_read_run e c a n (u_read_offset b) w cc r Hcc Hr).
        exact Hstart. }
    eexists. split; [reflexivity|]. subst w0. cbn.
    rewrite <- app_assoc. split; reflexivity.
  - destruct Hfail as [Hfail|Hfail]; [apply Z.ltb_lt in Hfail; congruence|].
    apply Z.ltb_lt in Hfail. unfold r0 in Hstart. cbn [direction] in Hstart.
    cbv zeta in Hstart. rewrite Hfail in Hstart. fold r0 in Hstart.
    erewrite bind_Ok.
    2:{ rewrite (blockdev_rbd_read_run e c a n (u_read_offset b) w cc r Hcc Hr).
        exact Hstart. }
    eexists. split; [reflexivity|]. subst w0. cbn.
    rewrite <- app_assoc. split; reflexivity.
Qed.

Lemma read_issue_failure_fails_at_once_sample :
  exists w',
    blockdev_rbd_get_rbuf_cb aio_refused sample_read sample_world = Ok (tt, w') /\
    trace w' =
      trace sample_world ++ [E_rbd_aio_create_completion (driver_ctx sample_read)]
        ++ (if rbd_aio_create_completion_ret aio_refused <? 0 then []
            else [E_rbd_aio_read (image sample_channel) (u_read_offset sample_read)
                    (u_read_nbytes sample_read)
                    (Some (new_completion aio_refused));
                  E_rbd_aio_release (Some (new_completion aio_refused))])
        ++ [E_spdk_bdev_io_complete (driver_ctx sample_read)
              SPDK_BDEV_IO_STATUS_FAILED] /\
    chans w' = chans sample_world.
Proof.
  apply (read_issue_failure_fails_at_once aio_refused sample_read sample_world
           sample_channel
           (mk_io BLOCKDEV_RBD_READ 0 4096 (Some 5%nat) (Some 1%nat) None)).
  - reflexivity.
  - reflexivity.
  - right. cbn. lia.
Defined.

(** X8.  A well-formed write that cannot be issued fails at once, in the
    same way: one failed completion from [blockdev_rbd_submit_request],
    after the release of the completion object if one was created, and
    nothing queued. *)
Theorem write_issue_failure_fails_at_once
  (e : aio_env) (b : spdk_bdev_io) (w : world) (cc : blockdev_rbd_io_channel)
  (r : blockdev_rbd_io) (iov0 : iovec) (rest : list iovec) :
  io_type b = SPDK_BDEV_IO_TYPE_WRITE ->
  u_write_iovs b = iov0 :: rest -> u_write_iovcnt b = 1 ->
  iov_len iov0 = u_write_len b ->
  chans w !! io_ch b = Some cc -> ios w !! driver_ctx b = Some r ->
  rbd_aio_create_completion_ret e < 0 \/ rbd_aio_write_ret e < 0 ->
  exists w',
    blockdev_rbd_submit_request e b w = Ok (tt, w') /\
    trace w' =
      trace w ++ [E_rbd_aio_create_completion (driver_ctx b)]
        ++ (if rbd_aio_create_completion_ret e <? 0 then []
            else [E_rbd_aio_write (image cc) (u_write_offset b) (u_write_len b)
                    (Some (new_completion e));
                  E_rbd_aio_release (Some (new_completion e))])
        ++ [E_spdk_bdev_io_complete (driver_ctx b) SPDK_BDEV_IO_STATUS_FAILED] /\
    chans w' = chans w.
Proof.
  intros Hty Hiov Hcnt Hlen Hcc Hr Hfail.
  set (a := driver_ctx b) in *. set (c := io_ch b) in *.
  set (n := u_write_len b) in *.
  set (r0 := mk_io BLOCKDEV_RBD_WRITE (status r) (len r) (completion r)
               (Some c) (next r)).
  set (w0 := set_ios (insert a r0) w).
  assert (Hr0 : ios w0 !! a = Some r0) by (subst w0; cbn; apply lookup_insert_eq).
  pose proof (blockdev_rbd_start_aio_run e (image cc) a (u_write_offset b) n w0 r0 Hr0)
    as Hstart.
  unfold blockdev_rbd_submit_request, _blockdev_rbd_submit_request.
  rewrite Hty, Hiov, Hcnt. fold a c n.
  destruct (rbd_aio_create_completion_ret e <? 0) eqn:Hc.
  - erewrite bind_Ok.
    2:{ erewrite bind_Ok.
        2:{ rewrite (blockdev_rbd_writev_run e c a iov0 rest n (u_write_offset b)
                       w cc r Hcc Hr Hlen).
            exact Hstart. }
        reflexivity. }
    eexists. split; [reflexivity|]. subst w0. cbn.
    rewrite <- app_assoc. split; reflexivity.
  - destruct Hfail as [Hfail|Hfail]; [apply Z.ltb_lt in Hfail; congruence|].
    apply Z.ltb_lt in Hfail. unfold r0 in Hstart. cbn [direction] in Hstart.
    cbv zeta in Hstart. rewrite Hfail in Hstart. fold r0 in Hstart.
    erewrite bind_Ok.
    2:{ erewrite bind_Ok.
        2:{ rewrite (blockdev_rbd_writev_run e c a iov0 rest n (u_write_offset b)
                       w cc r Hcc Hr Hlen).
            exact Hstart. }
        reflexivity. }
    eexists. split; [reflexivity|]. subst w0. cbn.
    rewrite <- app_assoc. split; reflexivity.
Qed.

Lemma write_issue_failure_fails_at_once_sample :
  exists w',
    blockdev_rbd_submit_request aio_no_completion sample_write sample_world
      = Ok (tt, w') /\
    trace w' =
      trace sample_world ++ [E_rbd_aio_create_completion (driver_ctx sample_write)]
        ++ (if rbd_aio_create_completion_ret aio_no_completion <? 0 then []
            else [E_rbd_aio_write (image sample_channel)
                    (u_write_offset sample_write) (u_write_len sample_write)
                    (Some (new_completion aio_no_completion));
                  E_rbd_aio_release (Some (new_completion aio_no_completion))])
        ++ [E_spdk_bdev_io_complete (driver_ctx sample_write)
              SPDK_BDEV_IO_STATUS_FAILED] /\
    chans w' = chans sample_world.
Proof.
  apply (write_issue_failure_fails_at_once aio_no_completion sample_write
           sample_world sample_channel
           (mk_io BLOCKDEV_RBD_WRITE 0 0 (Some 6%nat) (Some 1%nat) None)
           (mk_iovec 65536 4096) []).
  - reflexivity.
  - reflexivity.
  - reflexivity.
  - reflexivity.
  - reflexivity.
  - reflexivity.
  - left. cbn. lia.
Defined.

(** X9.  The dispatch of a submission follows the types the adapter
    says it supports: these are reads and writes and nothing else; an
    operation of any other type is completed as failed at once, with no
    other effect; a read only asks the framework for a buffer. *)
Theorem submit_request_dispatch :
  (forall t, blockdev_rbd_io_type_supported t = true <->
             t = SPDK_BDEV_IO_TYPE_READ \/ t = SPDK_BDEV_IO_TYPE_WRITE) /\
  (forall e b w,
     blockdev_rbd_io_type_supported (io_type b) = false ->
     blockdev_rbd_submit_request e b w =
       Ok (tt, set_trace (trace w ++ [E_spdk_bdev_io_complete (driver_ctx b)
                                        SPDK_BDEV_IO_STATUS_FAILED]) w)) /\
  (forall e b w,
     io_type b = SPDK_BDEV_IO_TYPE_READ ->
     blockdev_rbd_submit_request e b w =
       Ok (tt, set_trace (trace w ++ [E_spdk_bdev_io_get_rbuf (driver_ctx b)]) w)).
Proof.
  split; [|split].
  - intros t. destruct t; cbn; split; intros H; try discriminate; auto;
      destruct H as [H|H]; discriminate.
  - intros e b w. unfold blockdev_rbd_submit_request, _blockdev_rbd_submit_request.
    destruct (io_type b); cbn; intros H; try discriminate; reflexivity.
  - intros e b w Hty.
    unfold blockdev_rbd_submit_request, _blockdev_rbd_submit_request.
    rewrite Hty. reflexivity.
Qed.

(** ** Resources of a backend connection *)

Ltac held_compute :=
  unfold held_after; cbn [fold_left held_step app];
  repeat (match goal with
          | H : (_ <? 0) = _ |- _ => rewrite !H
          end);
  cbn [fold_left held_step app release List.filter resource_eqb negb];
  rewrite ?Nat.eqb_refl;
  cbn [fold_left held_step app release List.filter resource_eqb negb].

Ltac shutdown_compute :=
  cbn [used_after_shutdown uses_cluster shuts_down andb orb];
  rewrite ?bool_decide_eq_true_2 by reflexivity;
  cbn [used_after_shutdown uses_cluster shuts_down andb orb];
  reflexivity.

(** X10.  When [rados_connect] succeeds, a device bootstrap that fails
    holds nothing when it returns: whatever step failed, the image, the
    pool context and the session that had been acquired were released,
    and the session was not used after its shutdown. *)
Theorem rbd_init_failure_releases_everything
  (e : rados_env) (pool vol : string) (inf : rbd_image_info_t) (w : world) :
  0 <= rados_connect_ret e ->
  rbd_init_ret e pool vol = -1 ->
  exists inf' t,
    blockdev_rbd_init e pool vol inf w
      = Ok ((-1, inf'), set_trace (trace w ++ t) w) /\
    held_after e t = [] /\
    used_after_shutdown (Some (new_cluster e)) false t = false.
Proof.
  intros Hconn Hret. apply Z.ltb_ge in Hconn.
  destruct (blockdev_rbd_init_frame e pool vol inf w) as (inf' & Hrun & _ & _).
  rewrite Hret in Hrun.
  exists inf', (rbd_init_events e pool vol). split; [exact Hrun|].
  revert Hret. clear Hrun.
  unfold rbd_init_ret, rbd_init_events, run_value, run_trace,
    blockdev_rbd_init, blockdev_rados_context_init.
  destruct (rados_create_ret e <? 0) eqn:H1.
  { intros _. run_monad. split; [held_compute; reflexivity|shutdown_compute]. }
  destruct (rados_conf_read_file_ret e <? 0) eqn:H2.
  { intros _. run_monad. split; [held_compute; reflexivity|shutdown_compute]. }
  rewrite Hconn.
  destruct (rados_ioctx_create_ret e <? 0) eqn:H4.
  { intros _. run_monad. split; [held_compute; reflexivity|shutdown_compute]. }
  destruct (rbd_open_ret e <? 0) eqn:H5.
  { intros _. run_monad. rewrite ?H5. run_monad.
    split; [held_compute; reflexivity|shutdown_compute]. }
  destruct (rbd_stat_ret e <? 0) eqn:H6.
  { intros _. run_monad. rewrite ?H5, ?H6. run_monad.
    split; [held_compute; reflexivity|shutdown_compute]. }
  run_monad. rewrite ?H5, ?H6. run_monad. discriminate.
Qed.

Lemma rbd_init_failure_releases_everything_sample :
  exists inf' t,
    blockdev_rbd_init open_fails "rbd" "missing" (mk_info 0) empty_world
      = Ok ((-1, inf'), set_trace (trace empty_world ++ t) empty_world) /\
    held_after open_fails t = [] /\
    used_after_shutdown (Some (new_cluster open_fails)) false t = false.
Proof.
  apply (rbd_init_failure_releases_everything open_fails "rbd" "missing"
           (mk_info 0) empty_world).
  - cbn. lia.
  - reflexivity.
Defined.

(** X11.  A device bootstrap in which every call succeeds returns 0 with
    the size that [rbd_stat] reported, having closed the image only: the
    pool context and the cluster session that it opened are still held
    when it returns. *)
Theorem rbd_init_success_keeps_session
  (e : rados_env) (pool vol : string) (inf : rbd_image_info_t) (w : world) :
  context_ok e -> 0 <= rbd_open_ret e -> 0 <= rbd_stat_ret e ->
  exists t,
    blockdev_rbd_init e pool vol inf w
      = Ok ((0, mk_info (rbd_stat_size e)), set_trace (trace w ++ t) w) /\
    t = [E_rados_create;
         E_rados_conf_read_file (Some (new_cluster e));
         E_rados_connect (Some (new_cluster e));
         E_rados_ioctx_create (Some (new_cluster e)) pool;
         E_rbd_open (Some (new_io_ctx e)) vol;
         E_rbd_stat (Some (new_image e));
         E_rbd_close (Some (new_image e))] /\
    held_after e t = [Session (new_cluster e); PoolContext (new_io_ctx e)].
Proof.
  intros (H1 & H2 & H3 & H4) H5 H6.
  apply Z.ltb_ge in H1. apply Z.ltb_ge in H2. apply Z.ltb_ge in H3.
  apply Z.ltb_ge in H4. apply Z.ltb_ge in H5. apply Z.ltb_ge in H6.
  eexists. split; [|split; [reflexivity|]].
  - unfold blockdev_rbd_init, blockdev_rados_context_init.
    rewrite !H1, !H2, !H3, !H4. run_monad. rewrite !H5, !H6. run_monad.
    reflexivity.
  - held_compute. reflexivity.
Qed.

Lemma rbd_init_success_keeps_session_sample :
  exists t,
    blockdev_rbd_init (healthy 1048576) "rbd" "vol0" (mk_info 0) empty_world
      = Ok ((0, mk_info (rbd_stat_size (healthy 1048576))),
            set_trace (trace empty_world ++ t) empty_world) /\
    t = [E_rados_create;
         E_rados_conf_read_file (Some (new_cluster (healthy 1048576)));
         E_rados_connect (Some (new_cluster (healthy 1048576)));
         E_rados_ioctx_create (Some (new_cluster (healthy 1048576))) "rbd";
         E_rbd_open (Some (new_io_ctx (healthy 1048576))) "vol0";
         E_rbd_stat (Some (new_image (healthy 1048576)));
         E_rbd_close (Some (new_image (healthy 1048576)))] /\
    held_after (healthy 1048576) t
      = [Session (new_cluster (healthy 1048576));
         PoolContext (new_io_ctx (healthy 1048576))].
Proof.
  apply (rbd_init_success_keeps_session (healthy 1048576) "rbd" "vol0"
           (mk_info 0) empty_world).
  - unfold context_ok. cbn. lia.
  - cbn. lia.
  - cbn. lia.
Defined.

(** ** Life cycle of a channel *)

Lemma registered_pollers_app (t1 t2 : list event) :
  registered_pollers (t1 ++ t2) = registered_pollers t1 ++ registered_pollers t2.
Proof.
  induction t1 as [|e t1 IH]; [reflexivity|].
  destruct e; cbn; rewrite IH; reflexivity.
Qed.

(** The creation of a channel against a backend whose session and pool
    context can be set up: the calls made, and the channel left behind,
    with and without the image. *)
Lemma create_cb_run (e : rados_env) (new_poller : handle)
  (io_device : blockdev_rbd) (c : addr) (w : world)
  (cc0 : blockdev_rbd_io_channel) :
  chans w !! c = Some cc0 -> context_ok e ->
  let t := [E_rados_create;
            E_rados_conf_read_file (Some (new_cluster e));
            E_rados_connect (Some (new_cluster e));
            E_rados_ioctx_create (Some (new_cluster e))
              (pool_name (pool_info io_device));
            E_rbd_open (Some (new_io_ctx e)) (rbd_name io_device)] in
  exists w',
    blockdev_rbd_create_cb e new_poller io_device c w
      = Ok (if rbd_open_ret e <? 0 then -1 else 0, w') /\
    trace w' =
      trace w ++ t ++
      (if rbd_open_ret e <? 0
       then [E_SPDK_ERRLOG "Failed to open specified rbd device"]
       else [E_pthread_mutex_init c; E_spdk_poller_register c]) /\
    chans w' !! c =
      Some (if rbd_open_ret e <? 0
            then mk_ch (Some (new_io_ctx e)) (Some (new_cluster e)) None None
                       (Some io_device) (poller cc0)
            else mk_ch (Some (new_io_ctx e)) (Some (new_cluster e))
                       (Some (new_image e)) None (Some io_device)
                       (Some new_poller)) /\
    (forall c', c' <> c -> chans w' !! c' = chans w !! c') /\
    ios w' = ios w.
Proof.
  intros Hcc (H1 & H2 & H3 & H4).
  apply Z.ltb_ge in H1. apply Z.ltb_ge in H2. apply Z.ltb_ge in H3.
  apply Z.ltb_ge in H4. cbv zeta.
  unfold blockdev_rbd_create_cb, blockdev_rados_context_init.
  erewrite bind_Ok; [|apply load_ch_Some; exact Hcc].
  rewrite !H1, !H2, !H3, !H4.
  destruct (rbd_open_ret e <? 0) eqn:H5.
  - eexists. split; [run_monad; rewrite ?H5; run_monad; reflexivity|].
    cbn. split; [rewrite <- ?app_assoc; reflexivity|].
    split; [apply lookup_insert_eq|]. split; [|reflexivity].
    intros c' Hc'. rewrite !lookup_insert_ne by congruence. reflexivity.
  - eexists. split; [run_monad; rewrite ?H5; run_monad; reflexivity|].
    cbn. split; [rewrite <- ?app_assoc; reflexivity|].
    split; [apply lookup_insert_eq|]. split; [|reflexivity].
    intros c' Hc'. rewrite !lookup_insert_ne by congruence. reflexivity.
Qed.

Lemma blockdev_rbd_destroy_cb_run (w : world) (c : addr)
  (cc : blockdev_rbd_io_channel) :
  chans w !! c = Some cc ->
  blockdev_rbd_destroy_cb c w =
    Ok (tt, set_trace (trace w ++ close_events cc
                         ++ [E_spdk_poller_unregister c]) w).
Proof.
  intros Hcc. unfold blockdev_rbd_destroy_cb.
  erewrite bind_Ok; [|apply load_ch_Some; exact Hcc].
  unfold close_events, blockdev_rbd_exit.
  destruct (image cc), (io_ctx cc), (cluster cc); run_monad;
    rewrite ?app_nil_r; reflexivity.
Qed.

Ltac create_cb_leaf :=
  eexists _, _; split; [run_monad; reflexivity|]; cbn;
  rewrite <- ?app_assoc, ?registered_pollers_app; cbn; rewrite ?app_nil_r;
  split; [auto|]; split; [|split; [|reflexivity]];
  intros Hr; try discriminate Hr;
  (split; [reflexivity|]); eexists; rewrite lookup_insert_eq;
  (split; [reflexivity|]); cbn; repeat split; reflexivity.

(** X12.  The creation of a channel always returns, 0 or -1, and
    touches no request.  It registers the poller exactly when it returns
    0, and the channel then has an empty inbox, its device, its poller
    and the handles that the backend handed out; when it returns -1 no
    poller is registered and the channel has no image. *)
Theorem create_cb_registers_poller_on_success_only
  (e : rados_env) (new_poller : handle) (io_device : blockdev_rbd) (c : addr)
  (w : world) (cc0 : blockdev_rbd_io_channel) :
  chans w !! c = Some cc0 ->
  exists r w',
    blockdev_rbd_create_cb e new_poller io_device c w = Ok (r, w') /\
    (r = 0 \/ r = -1) /\
    (r = 0 ->
     registered_pollers (trace w') = registered_pollers (trace w) ++ [c] /\
     exists cc, chans w' !! c = Some cc /\
                req_head cc = None /\ ch_disk cc = Some io_device /\
                poller cc = Some new_poller /\
                image cc = Some (new_image e) /\
                io_ctx cc = Some (new_io_ctx e)) /\
    (r = -1 ->
     registered_pollers (trace w') = registered_pollers (trace w) /\
     exists cc, chans w' !! c = Some cc /\
                req_head cc = None /\ ch_disk cc = Some io_device /\
                poller cc = poller cc0 /\ image cc = None) /\
    ios w' = ios w.
Proof.
  intros Hcc.
  unfold blockdev_rbd_create_cb, blockdev_rados_context_init.
  erewrite bind_Ok; [|apply load_ch_Some; exact Hcc].
  destruct (rados_create_ret e <? 0); [create_cb_leaf|].
  destruct (rados_conf_read_file_ret e <? 0); [create_cb_leaf|].
  destruct (rados_connect_ret e <? 0);
    (destruct (rados_ioctx_create_ret e <? 0); [create_cb_leaf|];
     destruct (rbd_open_ret e <? 0) eqn:H5;
     eexists _, _; (split; [run_monad; rewrite ?H5; run_monad; reflexivity|]); cbn;
     rewrite <- ?app_assoc, ?registered_pollers_app; cbn; rewrite ?app_nil_r;
     (split; [auto|]); (split; [|split; [|reflexivity]]);
     intros Hr; try discriminate Hr;
     (split; [reflexivity|]); eexists; rewrite lookup_insert_eq;
     (split; [reflexivity|]); cbn; repeat split; reflexivity).
Qed.

Lemma create_cb_registers_poller_on_success_only_sample :
  exists r w',
    blockdev_rbd_create_cb (healthy 1048576) 4%nat sample_device 1%nat
      sample_world = Ok (r, w') /\
    (r = 0 \/ r = -1) /\
    (r = 0 ->
     registered_pollers (trace w')
       = registered_pollers (trace sample_world) ++ [1%nat] /\
     exists cc, chans w' !! 1%nat = Some cc /\
                req_head cc = None /\ ch_disk cc = Some sample_device /\
                poller cc = Some 4%nat /\
                image cc = Some (new_image (healthy 1048576)) /\
                io_ctx cc = Some (new_io_ctx (healthy 1048576))) /\
    (r = -1 ->
     registered_pollers (trace w') = registered_pollers (trace sample_world) /\
     exists cc, chans w' !! 1%nat = Some cc /\
                req_head cc = None /\ ch_disk cc = Some sample_device /\
                poller cc = poller sample_channel /\ image cc = None) /\
    ios w' = ios sample_world.
Proof.
  apply (create_cb_registers_poller_on_success_only (healthy 1048576) 4%nat
           sample_device 1%nat sample_world sample_channel).
  reflexivity.
Defined.

(** X13.  A channel that is created against a backend answering every
    call with success and is then destroyed releases all it acquired:
    the image is flushed and closed, the pool context destroyed and the
    session shut down, each once and in that order, the session is not
    used after its shutdown, and the poller that was registered is
    unregistered. *)
Theorem channel_create_then_destroy
  (e : rados_env) (new_poller : handle) (io_device : blockdev_rbd) (c : addr)
  (w : world) (cc0 : blockdev_rbd_io_channel) :
  chans w !! c = Some cc0 -> context_ok e -> 0 <= rbd_open_ret e ->
  exists w' t,
    (blockdev_rbd_create_cb e new_poller io_device c ;;
     blockdev_rbd_destroy_cb c) w = Ok (tt, w') /\
    trace w' = trace w ++ t /\
    t = [E_rados_create;
         E_rados_conf_read_file (Some (new_cluster e));
         E_rados_connect (Some (new_cluster e));
         E_rados_ioctx_create (Some (new_cluster e))
           (pool_name (pool_info io_device));
         E_rbd_open (Some (new_io_ctx e)) (rbd_name io_device);
         E_pthread_mutex_init c;
         E_spdk_poller_register c;
         E_rbd_flush (Some (new_image e));
         E_rbd_close (Some (new_image e));
         E_rados_ioctx_destroy (Some (new_io_ctx e));
         E_rados_shutdown (Some (new_cluster e));
         E_spdk_poller_unregister c] /\
    held_after e t = [] /\
    used_after_shutdown (Some (new_cluster e)) false t = false.
Proof.
  intros Hcc Hok Hopen.
  destruct (create_cb_run e new_poller io_device c w cc0 Hcc Hok)
    as (w1 & Hrun & Htr & Hch & _ & _).
  destruct Hok as (H1 & _ & _ & H4).
  apply Z.ltb_ge in H1. apply Z.ltb_ge in H4. apply Z.ltb_ge in Hopen.
  rewrite Hopen in Hrun, Htr, Hch.
  eexists _, _. split; [|split; [|split; [reflexivity|split]]].
  - erewrite bind_Ok; [|exact Hrun].
    apply (blockdev_rbd_destroy_cb_run w1 c _ Hch).
  - cbn. rewrite Htr. rewrite <- !app_assoc. reflexivity.
  - held_compute. reflexivity.
  - shutdown_compute.
Qed.

Lemma channel_create_then_destroy_sample :
  exists w' t,
    (blockdev_rbd_create_cb (healthy 1048576) 4%nat sample_device 1%nat ;;
     blockdev_rbd_destroy_cb 1%nat) sample_world = Ok (tt, w') /\
    trace w' = trace sample_world ++ t /\
    t = [E_rados_create;
         E_rados_conf_read_file (Some (new_cluster (healthy 1048576)));
         E_rados_connect (Some (new_cluster (healthy 1048576)));
         E_rados_ioctx_create (Some (new_cluster (healthy 1048576)))
           (pool_name (pool_info sample_device));
         E_rbd_open (Some (new_io_ctx (healthy 1048576))) (rbd_name sample_device);
         E_pthread_mutex_init 1%nat;
         E_spdk_poller_register 1%nat;
         E_rbd_flush (Some (new_image (healthy 1048576)));
         E_rbd_close (Some (new_image (healthy 1048576)));
         E_rados_ioctx_destroy (Some (new_io_ctx (healthy 1048576)));
         E_rados_shutdown (Some (new_cluster (healthy 1048576)));
         E_spdk_poller_unregister 1%nat] /\
    held_after (healthy 1048576) t = [] /\
    used_after_shutdown (Some (new_cluster (healthy 1048576))) false t = false.
Proof.
  apply (channel_create_then_destroy (healthy 1048576) 4%nat sample_device
           1%nat sample_world sample_channel).
  - reflexivity.
  - unfold context_ok. cbn. lia.
  - cbn. lia.
Defined.

(** X14.  When the image cannot be opened, the creation of a channel
    returns -1 without releasing anything: the session and the pool
    context it has set up are still held, and their handles are left in
    the channel.  A destruction of that channel releases both. *)
Theorem create_cb_open_failure_keeps_connection
  (e : rados_env) (new_poller : handle) (io_device : blockdev_rbd) (c : addr)
  (w : world) (cc0 : blockdev_rbd_io_channel) :
  chans w !! c = Some cc0 -> context_ok e -> rbd_open_ret e < 0 ->
  exists w1 t1 w2 t2,
    blockdev_rbd_create_cb e new_poller io_device c w = Ok (-1, w1) /\
    trace w1 = trace w ++ t1 /\
    held_after e t1 = [Session (new_cluster e); PoolContext (new_io_ctx e)] /\
    (exists cc, chans w1 !! c = Some cc /\
                cluster cc = Some (new_cluster e) /\
                io_ctx cc = Some (new_io_ctx e) /\ image cc = None) /\
    blockdev_rbd_destroy_cb c w1 = Ok (tt, w2) /\
    trace w2 = trace w ++ t1 ++ t2 /\
    t2 = [E_rados_ioctx_destroy (Some (new_io_ctx e));
          E_rados_shutdown (Some (new_cluster e));
          E_spdk_poller_unregister c] /\
    held_after e (t1 ++ t2) = [].
Proof.
  intros Hcc Hok Hopen.
  destruct (create_cb_run e new_poller io_device c w cc0 Hcc Hok)
    as (w1 & Hrun & Htr & Hch & _ & _).
  destruct Hok as (H1 & _ & _ & H4).
  apply Z.ltb_ge in H1. apply Z.ltb_ge in H4. apply Z.ltb_lt in Hopen.
  rewrite Hopen in Hrun, Htr, Hch.
  eexists w1, _, _, _. split; [exact Hrun|]. split; [exact Htr|].
  split; [held_compute; reflexivity|].
  split; [eexists; split; [exact Hch|repeat split; reflexivity]|].
  split; [apply (blockdev_rbd_destroy_cb_run w1 c _ Hch)|].
  split; [cbn; rewrite Htr, <- !app_assoc; reflexivity|].
  split; [reflexivity|]. held_compute. reflexivity.
Qed.

Lemma create_cb_open_failure_keeps_connection_sample :
  exists w1 t1 w2 t2,
    blockdev_rbd_create_cb open_fails 4%nat sample_device 1%nat sample_world
      = Ok (-1, w1) /\
    trace w1 = trace sample_world ++ t1 /\
    held_after open_fails t1
      = [Session (new_cluster open_fails); PoolContext (new_io_ctx open_fails)] /\
    (exists cc, chans w1 !! 1%nat = Some cc /\
                cluster cc = Some (new_cluster open_fails) /\
                io_ctx cc = Some (new_io_ctx open_fails) /\ image cc = None) /\
    blockdev_rbd_destroy_cb 1%nat w1 = Ok (tt, w2) /\
    trace w2 = trace sample_world ++ t1 ++ t2 /\
    t2 = [E_rados_ioctx_destroy (Some (new_io_ctx open_fails));
          E_rados_shutdown (Some (new_cluster open_fails));
          E_spdk_poller_unregister 1%nat] /\
    held_after open_fails (t1 ++ t2) = [].
Proof.
  apply (create_cb_open_failure_keeps_connection open_fails 4%nat sample_device
           1%nat sample_world sample_channel).
  - reflexivity.
  - unfold context_ok. cbn. lia.
  - cbn. lia.
Defined.

(** ** The pool registry *)

Lemma find_app {A} (f : A -> bool) (l1 l2 : list A) :
  find f (l1 ++ l2) =
  match find f l1 with
  | Some x => Some x
  | None => find f l2
  end.
Proof.
  induction l1 as [|x l1 IH]; [reflexivity|].
  cbn. destruct (f x); [reflexivity|exact IH].
Qed.

Lemma find_pool_None (nm : string) (pools : list blockdev_rbd_pool_info) :
  find (fun p => String.eqb (pool_name p) nm) pools = None <->
  nm ∉ map pool_name pools.
Proof.
  induction pools as [|p pools IH]; cbn.
  - split; [intros _ Hin; inversion Hin|reflexivity].
  - destruct (String.eqb_spec (pool_name p) nm) as [Heq|Hne].
    + split; [discriminate|]. intros Hnin. exfalso. apply Hnin. rewrite Heq. left.
    + rewrite IH. split.
      * intros Hnin Hin. apply elem_of_cons in Hin as [Heq|Hin]; [congruence|].
        contradiction.
      * intros Hnin Hin. apply Hnin. right. exact Hin.
Qed.

(** What a lookup in the pool registry does, case by case. *)
Lemma pool_info_init_cases (ok : bool) (nm : string) (w : world) :
  (exists p, blockdev_rbd_pool_info_init ok nm w = Ok (Some p, w) /\
             pool_name p = nm /\ p ∈ g_rbd_pools w) \/
  ((nm ∉ map pool_name (g_rbd_pools w)) /\ ok = true /\
   blockdev_rbd_pool_info_init ok nm w =
     Ok (Some (mk_pool_info nm),
         set_g_rbd_pools (g_rbd_pools w ++ [mk_pool_info nm]) w)) \/
  ((nm ∉ map pool_name (g_rbd_pools w)) /\ ok = false /\
   blockdev_rbd_pool_info_init ok nm w =
     Ok (None,
         set_trace (trace w ++ [E_SPDK_ERRLOG
                      "Failed to allocate blockdev_rbd_pool_info struct"]) w)).
Proof.
  unfold blockdev_rbd_pool_info_init, bind, get.
  destruct (find _ (g_rbd_pools w)) as [p|] eqn:Hfind.
  - left. exists p. split; [reflexivity|].
    apply find_some in Hfind as [Hin Heq]. split.
    + apply String.eqb_eq. exact Heq.
    + apply list_elem_of_In. exact Hin.
  - apply find_pool_None in Hfind. right. destruct ok; [left|right]; cbn;
      repeat split; try assumption; reflexivity.
Qed.

(** X15.  A lookup in the pool registry keeps the registry sound: pool
    names stay distinct, the records already there stay where they are
    (at most one record is added, at the tail), the record returned
    carries the name asked for and is in the registry, and [NULL] is
    returned only when the name is new and the allocation fails, the
    registry then being unchanged. *)
Theorem pool_registry_stays_sound (ok : bool) (nm : string) (w : world) :
  NoDup (map pool_name (g_rbd_pools w)) ->
  exists r w',
    blockdev_rbd_pool_info_init ok nm w = Ok (r, w') /\
    NoDup (map pool_name (g_rbd_pools w')) /\
    (g_rbd_pools w' = g_rbd_pools w \/
     g_rbd_pools w' = g_rbd_pools w ++ [mk_pool_info nm]) /\
    (forall p, r = Some p -> pool_name p = nm /\ p ∈ g_rbd_pools w') /\
    (r = None <-> ok = false /\ nm ∉ map pool_name (g_rbd_pools w)) /\
    (r = None -> g_rbd_pools w' = g_rbd_pools w) /\
    g_rbds w' = g_rbds w.
Proof.
  intros Hnd.
  destruct (pool_info_init_cases ok nm w)
    as [(p & Hrun & Hp & Hin)|[(Hnew & Hok & Hrun)|(Hnew & Hok & Hrun)]].
  - exists (Some p), w. split; [exact Hrun|]. split; [exact Hnd|].
    split; [left; reflexivity|]. split; [|split; [|split; [discriminate|reflexivity]]].
    + intros p' [= <-]. split; assumption.
    + split; [discriminate|]. intros [_ Hnin]. exfalso. apply Hnin.
      apply list_elem_of_fmap. exists p. split; [symmetry; exact Hp|exact Hin].
  - eexists _, _. split; [exact Hrun|]. cbn.
    split; [|split; [right; reflexivity|split; [|split; [|split; [discriminate|reflexivity]]]]].
    + rewrite map_app. cbn. apply NoDup_app. split; [exact Hnd|].
      split; [|apply NoDup_singleton].
      intros x Hx Hx'. apply list_elem_of_singleton in Hx' as ->. contradiction.
    + intros p' [= <-]. split; [reflexivity|].
      apply elem_of_app. right. apply list_elem_of_singleton. reflexivity.
    + split; [discriminate|]. intros [Hf _]. congruence.
  - eexists _, _. split; [exact Hrun|]. cbn.
    split; [exact Hnd|]. split; [left; reflexivity|].
    split; [discriminate|]. split; [|split; reflexivity].
    split; [intros _; split; assumption|reflexivity].
Qed.

Lemma pool_registry_stays_sound_sample :
  exists r w',
    blockdev_rbd_pool_info_init true "rbd" empty_world = Ok (r, w') /\
    NoDup (map pool_name (g_rbd_pools w')) /\
    (g_rbd_pools w' = g_rbd_pools empty_world \/
     g_rbd_pools w' = g_rbd_pools empty_world ++ [mk_pool_info "rbd"]) /\
    (forall p, r = Some p -> pool_name p = "rbd" /\ p ∈ g_rbd_pools w') /\
    (r = None <-> true = false /\ "rbd" ∉ map pool_name (g_rbd_pools empty_world)) /\
    (r = None -> g_rbd_pools w' = g_rbd_pools empty_world) /\
    g_rbds w' = g_rbds empty_world.
Proof.
  apply (pool_registry_stays_sound true "rbd" empty_world).
  cbn. apply NoDup_nil_2.
Defined.

(** X16.  Looking a pool up a second time returns the record of the
    first time and changes nothing; no allocation is needed, so it
    succeeds even when an allocation would fail. *)
Theorem pool_lookup_twice (ok1 ok2 : bool) (nm : string) (w w1 : world)
  (p : blockdev_rbd_pool_info) :
  blockdev_rbd_pool_info_init ok1 nm w = Ok (Some p, w1) ->
  blockdev_rbd_pool_info_init ok2 nm w1 = Ok (Some p, w1).
Proof.
  intros Hfirst.
  assert (Hfind : find (fun q => String.eqb (pool_name q) nm) (g_rbd_pools w1)
                  = Some p).
  { revert Hfirst. unfold blockdev_rbd_pool_info_init, bind, get.
    destruct (find _ (g_rbd_pools w)) as [q|] eqn:Hfind.
    - unfold ret. intros [= <- <-]. exact Hfind.
    - destruct ok1; cbn; [|discriminate].
      intros [= <- <-]. cbn. rewrite find_app, Hfind. cbn.
      rewrite String.eqb_refl. reflexivity. }
  unfold blockdev_rbd_pool_info_init, bind, get. rewrite Hfind. reflexivity.
Qed.

Lemma pool_lookup_twice_sample :
  blockdev_rbd_pool_info_init false "rbd"
    (set_g_rbd_pools [mk_pool_info "rbd"] empty_world)
  = Ok (Some (mk_pool_info "rbd"),
        set_g_rbd_pools [mk_pool_info "rbd"] empty_world).
Proof.
  apply (pool_lookup_twice true false "rbd" empty_world
           (set_g_rbd_pools [mk_pool_info "rbd"] empty_world)
           (mk_pool_info "rbd")).
  reflexivity.
Defined.

(** ** The initialisation as a whole *)

Lemma pool_info_init_frame (ok : bool) (nm : string) (w : world) :
  exists r w1,
    blockdev_rbd_pool_info_init ok nm w = Ok (r, w1) /\
    ios w1 = ios w /\ chans w1 = chans w /\ g_rbds w1 = g_rbds w /\
    (g_rbd_pools w1 = g_rbd_pools w \/
     ((nm ∉ map pool_name (g_rbd_pools w)) /\
      g_rbd_pools w1 = g_rbd_pools w ++ [mk_pool_info nm])) /\
    (forall p, r = Some p -> p ∈ g_rbd_pools w1).
Proof.
  destruct (pool_info_init_cases ok nm w)
    as [(p & Hrun & Hp & Hin)|[(Hnew & Hok & Hrun)|(Hnew & Hok & Hrun)]];
    eexists _, _; (split; [exact Hrun|]); cbn; repeat split; auto.
  - intros p' [= <-]. exact Hin.
  - intros p' [= <-]. apply elem_of_app. right.
    apply list_elem_of_singleton. reflexivity.
  - discriminate.
Qed.

Lemma registry_ok_grow (w w' : world) (d : blockdev_rbd) (nm : string) :
  registry_ok w ->
  (g_rbd_pools w' = g_rbd_pools w \/
   ((nm ∉ map pool_name (g_rbd_pools w)) /\
    g_rbd_pools w' = g_rbd_pools w ++ [mk_pool_info nm])) ->
  g_rbds w' = g_rbds w ++ [d] ->
  pool_info d ∈ g_rbd_pools w' ->
  registry_ok w'.
Proof.
  intros [Hnd Hdev] Hpools Hrbds Hd. split.
  - destruct Hpools as [->|[Hnew ->]]; [exact Hnd|].
    rewrite map_app. cbn. apply NoDup_app. split; [exact Hnd|].
    split; [|apply NoDup_singleton].
    intros x Hx Hx'. apply list_elem_of_singleton in Hx' as ->. contradiction.
  - intros d' Hd'. rewrite Hrbds in Hd'. apply elem_of_app in Hd' as [Hd'|Hd'].
    + specialize (Hdev d' Hd').
      destruct Hpools as [->|[_ ->]]; [exact Hdev|].
      apply elem_of_app. left. exact Hdev.
    + apply list_elem_of_singleton in Hd' as ->. exact Hd.
Qed.

Section LibraryInitProperties.

Variable NAME_LEN : nat.
Variable PRODUCT_NAME_LEN : nat.

Local Abbreviation init_item := (library_init_item NAME_LEN PRODUCT_NAME_LEN).
Local Abbreviation init_loop := (library_init_loop NAME_LEN PRODUCT_NAME_LEN).
Local Abbreviation library_init :=
  (blockdev_rbd_library_init NAME_LEN PRODUCT_NAME_LEN).
Local Abbreviation devices_of :=
  (expected_devices NAME_LEN PRODUCT_NAME_LEN).

(** One turn of the loop, whatever the item and the backend: it divides
    by zero, which takes a configured block size that converts to 0, or
    it ends in one of the three ways, having touched neither requests
    nor channels. *)
Lemma init_item_cases (sp : spdk_conf_section) (e : init_env) (i : nat)
  (w : world) :
  (init_item sp e i w = Fault DivisionByZero /\
   exists v, spdk_conf_section_get_nmval sp i 2 = Some v /\
             conf_block_size (Some v) = Some 0) \/
  exists x w',
    init_item sp e i w = Ok (x, w') /\
    ios w' = ios w /\ chans w' = chans w /\
    (x = Break -> w' = w) /\
    (x = Continue ->
     (i < length sp)%nat /\
     (exists d ps, g_rbds w' = g_rbds w ++ [d] /\
                   g_rbd_pools w' = g_rbd_pools w ++ ps) /\
     (registry_ok w -> registry_ok w')).
Proof.
  unfold library_init_item.
  destruct (spdk_conf_section_get_nval sp i) as [v0|] eqn:Hnval.
  2:{ right. exists Break, w. repeat split; try reflexivity; discriminate. }
  assert (Hi : (i < length sp)%nat).
  { unfold spdk_conf_section_get_nval, spdk_conf_section_get_nmval in Hnval.
    destruct (sp !! i) eqn:Hsp; [|discriminate].
    eapply lookup_lt_Some. exact Hsp. }
  destruct (spdk_conf_section_get_nmval sp i 0) as [pool|].
  2:{ right. eexists Cleanup, _. split; [run_monad; reflexivity|].
      repeat split; try reflexivity; discriminate. }
  destruct (pool_info_init_frame (pool_calloc_ok e) pool w)
    as (r & w1 & Hpool & Hios1 & Hch1 & Hg1 & Hp1 & Hin1).
  erewrite bind_Ok; [|exact Hpool].
  destruct r as [p|].
  2:{ right. eexists Cleanup, _. split; [run_monad; reflexivity|]. cbn.
      repeat split; try assumption; discriminate. }
  destruct (spdk_conf_section_get_nmval sp i 1) as [vol|].
  2:{ right. eexists Cleanup, _. split; [run_monad; reflexivity|]. cbn.
      repeat split; try assumption; discriminate. }
  destruct (conf_block_size (spdk_conf_section_get_nmval sp i 2)) as [bs|] eqn:Hbs.
  2:{ right. eexists Cleanup, _. split; [run_monad; reflexivity|]. cbn.
      repeat split; try assumption; discriminate. }
  destruct (rbd_calloc_ok e); cbn [negb].
  2:{ right. eexists Cleanup, _. split; [run_monad; reflexivity|]. cbn.
      repeat split; try assumption; discriminate. }
  destruct (blockdev_rbd_init_frame (backend e) (pool_name p) vol
              (info (mk_rbd (mk_bdev "" "" 0 0 0) vol (mk_info 0) p)) w1)
    as (inf' & Hinit & _ & Hval).
  erewrite bind_Ok; [|exact Hinit].
  destruct Hval as [Hval|Hval]; rewrite Hval; cbn [Z.ltb Z.compare].
  2:{ right. eexists Cleanup, _. split; [run_monad; reflexivity|]. cbn.
      repeat split; try assumption; discriminate. }
  destruct (Z.eq_dec bs 0) as [->|Hnz].
  - left. split; [apply bind_Fault; reflexivity|].
    destruct (spdk_conf_section_get_nmval sp i 2) as [v|]; [|discriminate].
    exists v. split; [reflexivity|exact Hbs].
  - right. erewrite bind_Ok; [|apply create_rbd_disk_run; exact Hnz].
    cbn [Z.ltb Z.compare].
    eexists Continue, _. split; [run_monad; reflexivity|]. cbn.
    split; [exact Hios1|]. split; [exact Hch1|]. split; [discriminate|].
    intros _. split; [exact Hi|]. split.
    + rewrite Hg1. destruct Hp1 as [Hp|[_ Hp]]; rewrite Hp.
      * eexists. exists []. rewrite app_nil_r. split; reflexivity.
      * eexists. exists [mk_pool_info pool]. split; reflexivity.
    + intros Hreg.
      eapply (registry_ok_grow w _ _ pool Hreg); cbn.
      * exact Hp1.
      * rewrite Hg1. reflexivity.
      * apply Hin1. reflexivity.
Qed.

(** The loop from item [i] on, whatever the items and the backend. *)
Lemma init_loop_cases (sp : spdk_conf_section) (env : nat -> init_env) :
  forall (fuel i : nat) (w : world),
  (i <= length sp)%nat -> (length sp < fuel + i)%nat ->
  (init_loop fuel sp env i w = Fault DivisionByZero /\
   exists j v, spdk_conf_section_get_nmval sp j 2 = Some v /\
               conf_block_size (Some v) = Some 0) \/
  exists r w',
    init_loop fuel sp env i w = Ok (r, w') /\
    (r = 0 \/ r = -1) /\
    (r = -1 -> g_rbds w' = [] /\ g_rbd_pools w' = []) /\
    (r = 0 -> exists ds ps, g_rbds w' = g_rbds w ++ ds /\
                            g_rbd_pools w' = g_rbd_pools w ++ ps) /\
    ios w' = ios w /\ chans w' = chans w /\
    (registry_ok w -> registry_ok w').
Proof.
  induction fuel as [|fuel IH]; intros i w Hi Hf; [lia|].
  cbn [library_init_loop].
  destruct (init_item_cases sp (env i) i w)
    as [(Hfault & v & Hv & Hz)|(x & w1 & Hrun & Hios & Hch & Hbreak & Hcont)].
  { left. split; [apply bind_Fault; exact Hfault|]. exists i, v. split; assumption. }
  rewrite (bind_Ok _ _ _ _ _ Hrun).
  destruct x.
  - destruct (Hcont eq_refl) as (Hlt & (d & ps & Hg & Hp) & Hreg).
    destruct (IH (S i) w1) as
      [(Hfault & Hz)|(r & w' & Hrest & Hr & Hneg & Hzero & Hios' & Hch' & Hreg')];
      [lia|lia| |].
    + left. split; assumption.
    + right. exists r, w'. split; [exact Hrest|]. split; [exact Hr|].
      split; [exact Hneg|]. split; [|split; [congruence|split; [congruence|]]].
      * intros Hr0. destruct (Hzero Hr0) as (ds & ps' & Hg' & Hp').
        exists ([d] ++ ds), (ps ++ ps').
        rewrite Hg', Hp', Hg, Hp, <- !app_assoc. split; reflexivity.
      * intros H0. apply Hreg', Hreg, H0.
  - right. rewrite (Hbreak eq_refl). exists 0, w.
    split; [reflexivity|]. split; [left; reflexivity|]. split; [discriminate|].
    split; [|split; [reflexivity|split; [reflexivity|intros H0; exact H0]]].
    intros _. exists [], []. rewrite !app_nil_r. split; reflexivity.
  - right. eexists (-1), _. split; [run_monad; reflexivity|]. cbn.
    split; [right; reflexivity|]. split; [intros _; split; reflexivity|].
    split; [discriminate|]. split; [exact Hios|]. split; [exact Hch|].
    intros _. split; cbn.
    + apply NoDup_nil_2.
    + intros d Hd. inversion Hd.
Qed.

(** X17.  However the configuration and the backend are, the
    initialisation of the library either divides by zero, and then some
    configured block size converts to 0, or returns 0 or -1 without
    having touched requests or channels: with -1 the device list and the
    pool list are empty, with 0 both lists have only grown at the tail,
    and a sound registry is still sound. *)
Theorem library_init_outcomes (conf : option spdk_conf_section)
  (env : nat -> init_env) (w : world) :
  (library_init conf env w = Fault DivisionByZero /\
   exists sp j v, conf = Some sp /\
                  spdk_conf_section_get_nmval sp j 2 = Some v /\
                  conf_block_size (Some v) = Some 0) \/
  exists r w',
    library_init conf env w = Ok (r, w') /\
    (r = 0 \/ r = -1) /\
    (r = -1 -> g_rbds w' = [] /\ g_rbd_pools w' = []) /\
    (r = 0 -> exists ds ps, g_rbds w' = g_rbds w ++ ds /\
                            g_rbd_pools w' = g_rbd_pools w ++ ps) /\
    ios w' = ios w /\ chans w' = chans w /\
    (registry_ok w -> registry_ok w').
Proof.
  destruct conf as [sp|].
  - destruct (init_loop_cases sp env (S (length sp)) 0%nat w)
      as [(Hfault & j & v & Hv & Hz)|Hok]; [lia|lia| |].
    + left. split; [exact Hfault|]. exists sp, j, v. repeat split; assumption.
    + right. exact Hok.
  - right. exists 0, w. split; [reflexivity|]. split; [left; reflexivity|].
    split; [discriminate|].
    split; [|split; [reflexivity|split; [reflexivity|intros H0; exact H0]]].
    intros _. exists [], []. rewrite !app_nil_r. split; reflexivity.
Qed.

(** X18.  When no configured block size converts to 0, the
    initialisation of the library always returns, and a registry that
    was sound before is sound after: pool names are distinct and the
    pool record of every device is in the pool list. *)
Theorem library_init_returns_and_keeps_registry
  (sp : spdk_conf_section) (env : nat -> init_env) (w : world) :
  registry_ok w ->
  (forall j v, spdk_conf_section_get_nmval sp j 2 = Some v ->
               conf_block_size (Some v) <> Some 0) ->
  exists r w',
    library_init (Some sp) env w = Ok (r, w') /\
    (r = 0 \/ r = -1) /\
    registry_ok w'.
Proof.
  intros Hreg Hnz.
  destruct (init_loop_cases sp env (S (length sp)) 0%nat w)
    as [(_ & j & v & Hv & Hz)|(r & w' & Hrun & Hr & _ & _ & _ & _ & Hreg')];
    [lia|lia| |].
  - exfalso. exact (Hnz j v Hv Hz).
  - exists r, w'. split; [exact Hrun|]. split; [exact Hr|]. apply Hreg'. exact Hreg.
Qed.

(** The loop over sound items: it creates their devices one after the
    other and returns 0 when the items are exhausted. *)
Lemma init_loop_all_ok (sp : spdk_conf_section) (env : nat -> init_env) :
  (forall j, (j < length sp)%nat -> item_ok sp (env j) j) ->
  forall (items : list (list string)) (k : nat) (w : world) (fuel : nat),
  drop k sp = items -> (length items < fuel)%nat ->
  0 <= blockdev_rbd_count w ->
  blockdev_rbd_count w + Z.of_nat (length items) <= INT_MAX ->
  exists w',
    init_loop fuel sp env k w = Ok (0, w') /\
    g_rbds w' = g_rbds w ++ devices_of env k (blockdev_rbd_count w) items /\
    blockdev_rbd_count w' = blockdev_rbd_count w + Z.of_nat (length items) /\
    registered_devices (trace w') =
      registered_devices (trace w)
        ++ map (fun d => name (disk d))
               (devices_of env k (blockdev_rbd_count w) items).
Proof.
  intros Hok. induction items as [|vals items IH]; intros k w fuel Hdrop Hf Hc0 Hc1.
  - destruct fuel as [|fuel]; [cbn in Hf; lia|].
    assert (Hk : sp !! k = None).
    { apply lookup_ge_None_2. apply (f_equal length) in Hdrop.
      rewrite length_drop in Hdrop. cbn in Hdrop. lia. }
    exists w. cbn [library_init_loop].
    unfold library_init_item, spdk_conf_section_get_nval,
      spdk_conf_section_get_nmval. rewrite Hk. cbn.
    rewrite !app_nil_r. repeat split; try reflexivity. lia.
  - destruct fuel as [|fuel]; [cbn in Hf; lia|].
    assert (Hk : sp !! k = Some vals).
    { pose proof (lookup_drop sp k 0) as Hl. rewrite Hdrop in Hl.
      cbn in Hl. rewrite Nat.add_0_r in Hl. symmetry. exact Hl. }
    assert (Hrest : drop (S k) sp = items).
    { rewrite (drop_S sp vals k Hk) in Hdrop. injection Hdrop as Hd. exact Hd. }
    destruct (Hok k) as (pool & vol & rest & bs & Hsp & Hbs & Hnz & Hpc & Hrc & Hret).
    { eapply lookup_lt_Some. exact Hk. }
    rewrite Hk in Hsp. injection Hsp as ->.
    destruct (init_item_success NAME_LEN PRODUCT_NAME_LEN sp (env k) k pool vol
                rest bs w Hk Hbs Hnz Hpc Hrc Hret)
      as (w1 & p & Hrun & Hp & Hg & Hc & Hreg).
    destruct p as [pn]. cbn in Hp. subst pn.
    assert (Hc' : blockdev_rbd_count w1 = blockdev_rbd_count w + 1).
    { rewrite Hc. apply to_int_id. unfold INT_MIN, INT_MAX in *.
      cbn [length] in Hc1. lia. }
    destruct (IH (S k) w1 fuel Hrest) as (w' & Hloop & Hg' & Hcnt & Hreg').
    { cbn in Hf. lia. }
    { lia. }
    { cbn [length] in Hc1. lia. }
    exists w'. cbn [library_init_loop].
    rewrite (bind_Ok _ _ _ _ _ Hrun). split; [exact Hloop|].
    cbn [expected_devices device_of_item]. rewrite Hbs.
    rewrite Hg', Hcnt, Hreg', Hg, Hreg, Hc'. cbn [length].
    rewrite map_app, <- !app_assoc. cbn.
    repeat split; try reflexivity. lia.
Qed.

(** X19.  A configuration whose items are all sound is initialised in
    full: the result is 0, the device list is extended, in the order of
    the configuration, by one device per item, named after the device
    counter, with the block size of the item and as many blocks as fit
    the volume, and these devices are registered in that order; the
    counter has advanced by the number of items. *)
Theorem library_init_creates_all_devices
  (sp : spdk_conf_section) (env : nat -> init_env) (w : world) :
  (forall j, (j < length sp)%nat -> item_ok sp (env j) j) ->
  0 <= blockdev_rbd_count w ->
  blockdev_rbd_count w + Z.of_nat (length sp) <= INT_MAX ->
  exists w',
    library_init (Some sp) env w = Ok (0, w') /\
    g_rbds w' = g_rbds w ++ devices_of env 0 (blockdev_rbd_count w) sp /\
    blockdev_rbd_count w' = blockdev_rbd_count w + Z.of_nat (length sp) /\
    registered_devices (trace w') =
      registered_devices (trace w)
        ++ map (fun d => name (disk d))
               (devices_of env 0 (blockdev_rbd_count w) sp).
Proof.
  intros Hok Hc0 Hc1.
  apply (init_loop_all_ok sp env Hok sp 0%nat w (S (length sp)));
    [reflexivity|lia|exact Hc0|exact Hc1].
Qed.

(** X20.  An item with a pool name and no volume name is a format
    error: the loop ends through [cleanup] with both lists empty and the
    result -1, and the backend is not called for that item; all the turn
    leaves in the trace is the error message. *)
Theorem item_without_volume_name_stops_init
  (sp : spdk_conf_section) (env : nat -> init_env) (i : nat) (pool : string)
  (w : world) (fuel : nat) :
  sp !! i = Some [pool] -> pool_calloc_ok (env i) = true ->
  exists w',
    init_loop (S fuel) sp env i w = Ok (-1, w') /\
    trace w' = trace w ++ [E_SPDK_ERRLOG "Ceph%d: format error"] /\
    g_rbds w' = [] /\ g_rbd_pools w' = [].
Proof.
  intros Hsp Hpc.
  destruct (pool_info_init_run (pool_calloc_ok (env i)) pool w)
    as (r & w1 & Hpool & _ & _ & _ & Hok).
  destruct (Hok Hpc) as (Htr & p & -> & _).
  cbn [library_init_loop].
  unfold library_init_item, spdk_conf_section_get_nval,
    spdk_conf_section_get_nmval. rewrite Hsp. cbn [lookup list_lookup].
  erewrite bind_Ok.
  2:{ erewrite bind_Ok; [|exact Hpool]. run_monad. reflexivity. }
  eexists. split; [run_monad; reflexivity|]. cbn. rewrite Htr.
  repeat split; reflexivity.
Qed.

(** X21.  A disk created with a block size other than 0 on a volume of
    [size] bytes gets that block size and the largest number of blocks
    that fit the volume: the blocks never reach beyond the end of the
    volume, and what is left over is less than one block.  The volume
    name, the image info and the pool of the disk are kept, and the
    device lists are not touched. *)
Theorem created_disk_fits_the_volume (d : blockdev_rbd) (bs : Z) (w : world) :
  0 < bs -> 0 <= info_size (info d) ->
  exists d' w',
    blockdev_create_rbd_disk NAME_LEN PRODUCT_NAME_LEN d bs w = Ok ((0, d'), w') /\
    blocklen (disk d') = bs /\
    0 <= blockcnt (disk d') /\
    blockcnt (disk d') * bs <= info_size (info d)
      < (blockcnt (disk d') + 1) * bs /\
    rbd_name d' = rbd_name d /\ info d' = info d /\
    pool_info d' = pool_info d /\
    g_rbds w' = g_rbds w /\ g_rbd_pools w' = g_rbd_pools w /\
    trace w' = trace w.
Proof.
  intros Hbs Hsz.
  eexists _, _. split; [apply create_rbd_disk_run; lia|]. cbn.
  split; [reflexivity|].
  pose proof (Z.mul_div_le (info_size (info d)) bs Hbs).
  pose proof (Z.mul_succ_div_gt (info_size (info d)) bs Hbs).
  pose proof (Z.div_pos (info_size (info d)) bs Hsz Hbs).
  repeat split; try reflexivity; lia.
Qed.

End LibraryInitProperties.

Lemma sample_conf_no_zero_block_size (j : nat) (v : string) :
  spdk_conf_section_get_nmval sample_conf j 2 = Some v ->
  conf_block_size (Some v) <> Some 0.
Proof.
  destruct j as [|[|[|j]]]; cbn; intros H; try discriminate.
  injection H as <-. discriminate.
Qed.

Lemma registry_ok_empty : registry_ok empty_world.
Proof.
  split; cbn; [apply NoDup_nil_2|]. intros d Hd. inversion Hd.
Qed.

Lemma sample_conf_all_items_ok (j : nat) :
  (j < length sample_conf)%nat -> item_ok sample_conf (all_healthy j) j.
Proof.
  intros Hj. destruct j as [|[|[|j]]]; [| | |cbn in Hj; lia].
  - exists "rbd", "vol0", [], 512. repeat split; try reflexivity. lia.
  - exists "rbd", "missing", [], 512. repeat split; try reflexivity. lia.
  - exists "rbd", "vol2", ["4096"], 4096. repeat split; try reflexivity. lia.
Qed.

Lemma library_init_returns_and_keeps_registry_sample :
  exists r w',
    blockdev_rbd_library_init 16 50 (Some sample_conf) sample_env empty_world
      = Ok (r, w') /\
    (r = 0 \/ r = -1) /\
    registry_ok w'.
Proof.
  apply (library_init_returns_and_keeps_registry 16 50 sample_conf sample_env
           empty_world).
  - exact registry_ok_empty.
  - exact sample_conf_no_zero_block_size.
Defined.

Lemma library_init_creates_all_devices_sample :
  exists w',
    blockdev_rbd_library_init 16 50 (Some sample_conf) all_healthy empty_world
      = Ok (0, w') /\
    g_rbds w' =
      g_rbds empty_world
        ++ expected_devices 16 50 all_healthy 0
             (blockdev_rbd_count empty_world) sample_conf /\
    blockdev_rbd_count w' =
      blockdev_rbd_count empty_world + Z.of_nat (length sample_conf) /\
    registered_devices (trace w') =
      registered_devices (trace empty_world)
        ++ map (fun d => name (disk d))
               (expected_devices 16 50 all_healthy 0
                  (blockdev_rbd_count empty_world) sample_conf).
Proof.
  apply (library_init_creates_all_devices 16 50 sample_conf all_healthy
           empty_world).
  - exact sample_conf_all_items_ok.
  - cbn. lia.
  - unfold INT_MAX. cbn. lia.
Defined.

(** The devices expected of the sample configuration. *)
Example sample_conf_expected_devices :
  map (fun d => (name (disk d), rbd_name d, blocklen (disk d), blockcnt (disk d)))
      (expected_devices 16 50 all_healthy 0 0 sample_conf) =
  [("Ceph0", "vol0", 512, 2048); ("Ceph1", "missing", 512, 2048);
   ("Ceph2", "vol2", 4096, 256)].
Proof. reflexivity. Qed.

Lemma item_without_volume_name_stops_init_sample :
  exists w',
    library_init_loop 16 50 2 [["rbd"]; ["rbd"; "vol1"]] all_healthy 0 empty_world
      = Ok (-1, w') /\
    trace w' = trace empty_world ++ [E_SPDK_ERRLOG "Ceph%d: format error"] /\
    g_rbds w' = [] /\ g_rbd_pools w' = [].
Proof.
  apply (item_without_volume_name_stops_init 16 50 [["rbd"]; ["rbd"; "vol1"]]
           all_healthy 0 "rbd" empty_world 1).
  - reflexivity.
  - reflexivity.
Defined.

Lemma created_disk_fits_the_volume_sample :
  exists d' w',
    blockdev_create_rbd_disk 16 50 sample_device 4096 empty_world
      = Ok ((0, d'), w') /\
    blocklen (disk d') = 4096 /\
    0 <= blockcnt (disk d') /\
    blockcnt (disk d') * 4096 <= info_size (info sample_device)
      < (blockcnt (disk d') + 1) * 4096 /\
    rbd_name d' = rbd_name sample_device /\ info d' = info sample_device /\
    pool_info d' = pool_info sample_device /\
    g_rbds w' = g_rbds empty_world /\ g_rbd_pools w' = g_rbd_pools empty_world /\
    trace w' = trace empty_world.
Proof.
  apply (created_disk_fits_the_volume 16 50 sample_device 4096 empty_world).
  - lia.
  - cbn. lia.
Defined.

(** X22.  A block size that the configuration check accepts is a
    multiple of 512 between 0 and [2 ^ 32 - 1], namely the value read by
    [strtol] reduced modulo [2 ^ 32]: a value beyond 32 bits, or a
    negative one, is not rejected for that but wrapped around, and it
    becomes 0 exactly when it is a multiple of [2 ^ 32]. *)
Theorem accepted_block_size_is_wrapped (v : string) (bs : Z) :
  conf_block_size (Some v) = Some bs ->
  0 <= bs < 2 ^ 32 /\ (512 | bs) /\ bs = strtol v mod 2 ^ 32 /\
  (bs = 0 <-> (2 ^ 32 | strtol v)).
Proof.
  intros Hbs.
  pose proof (conf_block_size_value v bs Hbs) as Hval.
  assert (Hacc : (512 | strtol v)).
  { apply conf_block_size_accepts. rewrite Hbs. eexists. reflexivity. }
  split; [|split; [|split; [exact Hval|]]].
  - rewrite Hval. apply Z.mod_pos_bound. lia.
  - rewrite Hval. apply Z.mod_divide; [lia|].
    rewrite Z.mod_mod_divide by (exists (2 ^ 23); reflexivity).
    apply Z.mod_divide; [lia|exact Hacc].
  - rewrite Hval. apply Z.mod_divide. lia.
Qed.

Lemma accepted_block_size_is_wrapped_sample :
  0 <= 4294966784 < 2 ^ 32 /\ (512 | 4294966784) /\
  4294966784 = strtol "-512" mod 2 ^ 32 /\
  (4294966784 = 0 <-> (2 ^ 32 | strtol "-512")).
Proof.
  apply (accepted_block_size_is_wrapped "-512" 4294966784).
  reflexivity.
Defined.

(** X23.  For an expected length of at most [INT_MAX], the status that
    the completion callback stores is 0 or -1 and nothing else; for a
    read it is 0 exactly when the operation returned the expected length,
    for a write exactly when the operation returned 0, whatever the
    length. *)
Theorem classification_within_int_range
  (d : blockdev_rbd_data_direction) (l st : Z) :
  0 <= l <= INT_MAX ->
  (finish_status d l st = 0 \/ finish_status d l st = -1) /\
  (finish_status d l st = 0 <->
   match d with
   | BLOCKDEV_RBD_READ => st = l
   | BLOCKDEV_RBD_WRITE => st = 0
   end).
Proof.
  intros Hl. split; [apply finish_status_two_valued|].
  destruct d.
  - apply finish_status_read_small. exact Hl.
  - apply finish_status_write.
Qed.

Lemma classification_within_int_range_sample :
  (finish_status BLOCKDEV_RBD_READ 4096 512 = 0 \/
   finish_status BLOCKDEV_RBD_READ 4096 512 = -1) /\
  (finish_status BLOCKDEV_RBD_READ 4096 512 = 0 <-> 512 = 4096).
Proof.
  apply (classification_within_int_range BLOCKDEV_RBD_READ 4096 512).
  unfold INT_MAX. cbn. lia.
Defined.
